(** * Car-cleaning marketplace API: catalog listing, booking creation and pricing

    The handlers of [main.py] ([list_cleaners], [create_booking],
    [list_bookings]) are embedded over an explicit model of the values they
    manipulate: BSON/Python values, IEEE binary64 floats, the process-wide
    store handle and the exceptions that reach the HTTP layer.  The
    administrative handlers [seed_cleaners] and [test_database] follow
    them. *)

From Stdlib Require Import ZArith QArith Qabs Qpower Lia Lqa String Ascii List Bool SpecFloat.
From Stdlib.Strings Require Import Byte.
From stdpp Require Import gmap strings.

Local Open Scope Z_scope.
#[local] Set Warnings "-register-all".

(** ** Python floats: IEEE 754 binary64 *)

Definition prec : Z := 53.
Definition emax : Z := 1024.
Abbreviation float := spec_float.

Definition float_add : float -> float -> float := SFadd prec emax.
Definition float_sub : float -> float -> float := SFsub prec emax.
Definition float_mul : float -> float -> float := SFmul prec emax.
Definition float_div : float -> float -> float := SFdiv prec emax.

(** [float(n)] for a Python int: the nearest double, ties to even; an
    infinite result stands for the [OverflowError] that [py_float] raises. *)
Definition float_of_int (n : Z) : float := binary_normalize prec emax n 0 false.

Definition is_infinity (x : float) : bool :=
  match x with S754_infinity _ => true | _ => false end.

Definition is_finite (x : float) : bool :=
  match x with S754_zero _ | S754_finite _ _ _ => true | _ => false end.

(** Python's comparison [0 <= x] on floats. *)
Definition float_nonneg (x : float) : bool := SFleb (S754_zero false) x.

(** Nearest integer to [n / d], ties to the even integer ([0 <= n]). *)
Definition round_half_even (n : Z) (d : positive) : Z :=
  let q := n / Zpos d in
  let r := n mod Zpos d in
  match 2 * r ?= Zpos d with
  | Lt => q
  | Gt => q + 1
  | Eq => if Z.even q then q else q + 1
  end.

(** The exact value [m * 2^e], times 100, rounded half-even to an integer:
    the decimal digits that [round(x, 2)] keeps. *)
Definition hundredths (m : positive) (e : Z) : Z :=
  match e with
  | Zneg p => round_half_even (100 * Zpos m) (2 ^ p)%positive
  | _ => 100 * Zpos m * 2 ^ e
  end.

(** [round(x, 2)]: the exact value of [x] is rounded half-even to two decimal
    places and the decimal result is converted back to the nearest double;
    NaN and the infinities round to themselves and the sign of a result that
    rounds to zero is kept. *)
Definition py_round2 (x : float) : float :=
  match x with
  | S754_finite s m e =>
      match hundredths m e with
      | Zpos q => float_div (S754_finite s q 0) (S754_finite false 100 0)
      | _ => S754_zero s
      end
  | _ => x
  end.

(** The literal [0.1], i.e. 0x1.999999999999ap-4. *)
Definition commission_rate : float := S754_finite false 7205759403792794 (-56).


(** ** Exact values of floats, for the numeric statements *)

Definition bpow (e : Z) : Q := Qpower 2 e.

(** The rational number a finite float stands for; [0] for the others. *)
Definition float_value (x : float) : Q :=
  match x with
  | S754_finite s m e =>
      ((if s then - inject_Z (Zpos m) else inject_Z (Zpos m)) * bpow e)%Q
  | _ => 0%Q
  end.

(** Position of [y] in the unit interval that starts at the integer [m], as
    recorded by a rounding location. *)
Definition inbetween (y : Q) (m : Z) (l : location) : Prop :=
  match l with
  | loc_Exact => (y == inject_Z m)%Q
  | loc_Inexact Lt => (inject_Z m < y /\ y < inject_Z m + (1#2))%Q
  | loc_Inexact Eq => (y == inject_Z m + (1#2))%Q
  | loc_Inexact Gt => (inject_Z m + (1#2) < y /\ y < inject_Z m + 1)%Q
  end.

(** A float that is zero or positive, and not an infinity or NaN. *)
Definition finite_nonneg (x : float) : bool :=
  match x with
  | S754_zero _ | S754_finite false _ _ => true
  | _ => false
  end.

(** [r] is a rounding of the non-negative rational [x] with sign [s] at the
    exponent [e1]: zero or finite and within half of [2^e1] of [x], or
    infinite, when [x] is within that distance of [2^emax]. *)
Definition rounded (s : bool) (x : Q) (e1 : Z) (r : float) : Prop :=
  match r with
  | S754_zero s' => s' = s /\ (x <= bpow e1 * (1#2))%Q
  | S754_finite s' m e =>
      s' = s /\ Zdigits2 (Zpos m) <= prec /\ e <= emax - prec /\
      (inject_Z (Zpos m) * bpow e - bpow e1 * (1#2) <= x /\
       x <= inject_Z (Zpos m) * bpow e + bpow e1 * (1#2))%Q
  | S754_infinity s' => s' = s /\ (bpow emax <= x + bpow e1 * (1#2))%Q
  | S754_nan => False
  end.

(** [r] is the binary64 rounding of [x]: the unit in the last place is at
    most [x / 2^52], or the smallest one, [2^-1074]. *)
Definition rounds (s : bool) (x : Q) (r : float) : Prop :=
  exists e1,
    rounded s x e1 r /\
    (bpow e1 <= x * (1 # 4503599627370496) + bpow (-1074))%Q.

(** The mantissa and the exponent of a finite float fit the format. *)
Definition in_range (x : float) : Prop :=
  match x with
  | S754_finite _ m e => Zdigits2 (Zpos m) <= prec /\ e <= emax - prec
  | _ => True
  end.

(** ** Python and BSON values *)

Inductive value :=
| VNone
| VBool (b : bool)
| VInt (n : Z)
| VFloat (x : float)
| VStr (s : string)
| VObjectId (o : list byte)
| VList (l : list value)
| VDict (d : list (string * value)).

Abbreviation document := (list (string * value)).

Fixpoint dict_lookup (d : document) (k : string) : option value :=
  match d with
  | [] => None
  | (k', v) :: rest => if String.eqb k' k then Some v else dict_lookup rest k
  end.

(** [d.get(k, default)] *)
Definition dict_get (d : document) (k : string) (default : value) : value :=
  match dict_lookup d k with Some v => v | None => default end.

(** [d[k] = v]: an existing key keeps its position, a new key goes last. *)
Fixpoint dict_set (d : document) (k : string) (v : value) : document :=
  match d with
  | [] => [(k, v)]
  | (k', v') :: rest =>
      if String.eqb k' k then (k, v) :: rest else (k', v') :: dict_set rest k v
  end.

(** Truth value of an object, as tested by [if x] and [not x]. *)
Definition truthy (v : value) : bool :=
  match v with
  | VNone => false
  | VBool b => b
  | VInt n => negb (n =? 0)
  | VFloat (S754_zero _) => false
  | VFloat _ => true
  | VStr s => negb (String.eqb s "")
  | VObjectId _ => true
  | VList l => match l with [] => false | _ => true end
  | VDict d => match d with [] => false | _ => true end
  end.

(** [v == s] for a [str] [s]: only an equal string compares equal. *)
Definition eq_str (v : value) (s : string) : bool :=
  match v with VStr s' => String.eqb s' s | _ => false end.

Definition opt_str (o : option string) : value :=
  match o with Some s => VStr s | None => VNone end.

Definition opt_float (o : option float) : value :=
  match o with Some x => VFloat x | None => VNone end.

(** ** Exceptions and the result of a request *)

Inductive exn :=
| InvalidId | TypeError | ValueError | AttributeError | OverflowError
| ValidationError | RuntimeError.

(** What leaves a handler instead of a value: an [HTTPException] raised by
    the handler, or any other exception, which the framework turns into a
    plain 500 response. *)
Inductive failure :=
| HTTPException (status_code : Z) (detail : string)
| Unhandled (e : exn).

Definition status_of (f : failure) : Z :=
  match f with HTTPException c _ => c | Unhandled _ => 500 end.

Inductive result (A : Type) :=
| Ok (a : A)
| Raise (f : failure).
Arguments Ok {A} a.
Arguments Raise {A} f.

Definition ServiceUnavailable : failure := HTTPException 500 "Database not configured".
Definition NotFound : failure := HTTPException 404 "Cleaner not found".
Definition InvalidRequest : failure := HTTPException 400 "Service not offered by cleaner".

(** [x.get(k, default)] on an arbitrary object: only dicts have [get]. *)
Definition py_get (x : value) (k : string) (default : value) : result value :=
  match x with
  | VDict d => Ok (dict_get d k default)
  | _ => Raise (Unhandled AttributeError)
  end.

Fixpoint chars (s : string) : list value :=
  match s with
  | EmptyString => []
  | String c rest => VStr (String c EmptyString) :: chars rest
  end.

(** The items a [for] loop visits. *)
Definition py_iter (x : value) : result (list value) :=
  match x with
  | VList l => Ok l
  | VDict d => Ok (map (fun kv => VStr (fst kv)) d)
  | VStr s => Ok (chars s)
  | _ => Raise (Unhandled TypeError)
  end.

(** ** ObjectId *)

Definition hex_digit (c : ascii) : option N :=
  let n := N_of_ascii c in
  if ((48 <=? n) && (n <=? 57))%N then Some (n - 48)%N
  else if ((97 <=? n) && (n <=? 102))%N then Some (n - 87)%N
  else if ((65 <=? n) && (n <=? 70))%N then Some (n - 55)%N
  else None.

Definition is_space (c : ascii) : bool :=
  let n := N_of_ascii c in ((n =? 32) || ((9 <=? n) && (n <=? 13)))%N.

(** [bytes.fromhex]: two hex digits per byte, ASCII whitespace between bytes
    is skipped. *)
Fixpoint fromhex (s : string) : option (list byte) :=
  match s with
  | EmptyString => Some []
  | String c rest =>
      if is_space c then fromhex rest
      else
        match rest with
        | EmptyString => None
        | String c' rest' =>
            match hex_digit c, hex_digit c' with
            | Some h, Some l =>
                match Byte.of_N (16 * h + l), fromhex rest' with
                | Some b, Some bs => Some (b :: bs)
                | _, _ => None
                end
            | _, _ => None
            end
        end
  end.

(** [ObjectId(s)] for a [str]: 24 characters that [bytes.fromhex] accepts, and
    [InvalidId] otherwise. *)
Definition ObjectId (s : string) : result (list byte) :=
  if (String.length s =? 24)%nat then
    match fromhex s with
    | Some o => Ok o
    | None => Raise (Unhandled InvalidId)
    end
  else Raise (Unhandled InvalidId).

Definition hex_char (n : N) : ascii :=
  if (n <? 10)%N then ascii_of_N (48 + n) else ascii_of_N (87 + n).

Fixpoint hexlify (o : list byte) : string :=
  match o with
  | [] => EmptyString
  | b :: rest =>
      let n := Byte.to_N b in
      String (hex_char (n / 16)%N) (String (hex_char (n mod 16)%N) (hexlify rest))
  end.

(** ** The store handle and the effects of a request *)

(** Operations a handler performs on the store, in order. *)
Inductive store_op :=
| FindOne (collection : string) (id : list byte)
| FindAll (collection : string)
| InsertOne (collection : string) (doc : document).

(** Modelled from the spec: the database module ([db], [create_document],
    [get_documents]) is not part of the sources.  [db] is the process-wide
    store handle, [None] when the store is unconfigured, otherwise the
    documents of each collection keyed by collection name. *)
Record world := {
  db : option (gmap string (list document));
  trace : list store_op
}.

Definition M (A : Type) : Type := world -> result A * world.

Definition ret {A} (a : A) : M A := fun w => (Ok a, w).
Definition raise {A} (f : failure) : M A := fun w => (Raise f, w).
Definition bind {A B} (m : M A) (k : A -> M B) : M B :=
  fun w => match m w with
           | (Ok a, w') => k a w'
           | (Raise f, w') => (Raise f, w')
           end.
Definition lift {A} (r : result A) : M A := fun w => (r, w).

Declare Scope handler_scope.
Delimit Scope handler_scope with handler.
Notation "x <- m ;; k" := (bind m (fun x => k))
  (at level 100, m at next level, right associativity) : handler_scope.
Notation "m ;;; k" := (bind m (fun _ => k))
  (at level 100, right associativity) : handler_scope.

Fixpoint for_each {A B} (f : A -> result B) (l : list A) : result (list B) :=
  match l with
  | [] => Ok []
  | a :: rest =>
      match f a with
      | Raise e => Raise e
      | Ok b => match for_each f rest with
                | Raise e => Raise e
                | Ok bs => Ok (b :: bs)
                end
      end
  end.

Definition collection (st : gmap string (list document)) (name : string) : list document :=
  default [] (st !! name).

Definition log (op : store_op) (w : world) : world :=
  {| db := db w; trace := trace w ++ [op] |}.

Fixpoint bytes_eqb (a b : list byte) : bool :=
  match a, b with
  | [], [] => true
  | x :: a', y :: b' => Byte.eqb x y && bytes_eqb a' b'
  | _, _ => false
  end.

Definition id_is (o : list byte) (d : document) : bool :=
  match dict_lookup d "_id" with
  | Some (VObjectId o') => bytes_eqb o' o
  | _ => false
  end.

(** Modelled from the spec: the point lookup [findOne(collection, id)],
    called in the source as [db[name].find_one({"_id": id})]: the first
    document of the collection with that identifier, or [None]. *)
Definition find_one (name : string) (o : list byte) : M value :=
  fun w =>
    match db w with
    | None => (Raise (Unhandled TypeError), w)
    | Some st =>
        (Ok (match List.find (id_is o) (collection st name) with
             | Some d => VDict d
             | None => VNone
             end),
         log (FindOne name o) w)
    end.

(** Modelled from the spec: [findAll(collection) -> sequence of doc], the
    missing helper [get_documents]: every document of the collection, in
    stored order. *)
Definition get_documents (name : string) : M (list document) :=
  fun w =>
    match db w with
    | None => (Raise (Unhandled RuntimeError), w)
    | Some st => (Ok (collection st name), log (FindAll name) w)
    end.

(** [ServiceOption] of [schemas.py]: the fields of an instance. *)
Module ServiceOption.
Record t := {
  name : string;
  description : option string;
  price : float;
  duration_minutes : Z
}.
End ServiceOption.

Section Runtime.

(** Behaviour of the language runtime and of the libraries around the
    handlers that the sources do not fix. *)

(** [float(s)] for a string: the parsed number, or [None] for [ValueError]. *)
Variable float_of_str : string -> option float.
(** [str(x)] for the values whose rendering is not spelled out below. *)
Variable repr : value -> string.
(** The identifier the store gives to a document inserted into a collection
    with the given contents. *)
Variable new_object_id : list document -> list byte.

(** Modelled from the spec: [insert(collection, doc) -> id], the missing
    helper [create_document]: one document is appended to the collection
    under a generated identifier, which is returned as a string. *)
Definition create_document (name : string) (doc : document) : M value :=
  fun w =>
    match db w with
    | None => (Raise (Unhandled RuntimeError), w)
    | Some st =>
        let o := new_object_id (collection st name) in
        let stored := ("_id", VObjectId o) :: doc in
        (Ok (VStr (hexlify o)),
         {| db := Some (<[name := collection st name ++ [stored]]> st);
            trace := trace w ++ [InsertOne name doc] |})
    end.

(** [float(x)] *)
Definition py_float (x : value) : result float :=
  match x with
  | VFloat f => Ok f
  | VInt n =>
      let f := float_of_int n in
      if is_infinity f then Raise (Unhandled OverflowError) else Ok f
  | VBool b => Ok (float_of_int (if b then 1 else 0))
  | VStr s =>
      match float_of_str s with
      | Some f => Ok f
      | None => Raise (Unhandled ValueError)
      end
  | _ => Raise (Unhandled TypeError)
  end.

(** [str(x)] *)
Definition py_str (x : value) : string :=
  match x with
  | VStr s => s
  | VObjectId o => hexlify o
  | VNone => "None"
  | VBool true => "True"
  | VBool false => "False"
  | _ => repr x
  end.

(** *** [GET /cleaners] *)

(** The annotations of the fields of [CleanerResponse] and of
    [ServiceOption], and the type of a validated value of each. *)
Inductive annotation := a_str | a_float | a_int | a_bool | a_dict | a_model.

Definition python_type (a : annotation) : Type :=
  match a with
  | a_str => string
  | a_float => float
  | a_int => Z
  | a_bool => bool
  | a_dict => document
  | a_model => ServiceOption.t
  end.

(** What the validation of the models makes of a value of another type than
    the annotated one, where that is the choice of the validation library
    and has changed between its versions (a number for a [str], a string for
    a number, a list of pairs for a dict): the converted value, or [None]
    for a validation error. *)
Variable lax : forall a : annotation, value -> option (python_type a).

(** [str]: a string is taken as it is; [None], identifiers, lists and dicts
    are refused. *)
Definition as_str (v : value) : option string :=
  match v with
  | VStr s => Some s
  | VBool _ | VInt _ | VFloat _ => lax a_str v
  | _ => None
  end.

(** [Optional[str]] *)
Definition as_optional_str (v : value) : option (option string) :=
  match v with
  | VNone => Some None
  | _ => match as_str v with Some s => Some (Some s) | None => None end
  end.

(** [float]: a float is taken as it is and an integer is converted. *)
Definition as_float (v : value) : option float :=
  match v with
  | VFloat x => Some x
  | VInt n => if is_infinity (float_of_int n) then lax a_float v else Some (float_of_int n)
  | VBool _ | VStr _ => lax a_float v
  | _ => None
  end.

(** [int] *)
Definition as_int (v : value) : option Z :=
  match v with
  | VInt n => Some n
  | VBool _ | VFloat _ | VStr _ => lax a_int v
  | _ => None
  end.

(** [bool] *)
Definition as_bool (v : value) : option bool :=
  match v with
  | VBool b => Some b
  | VInt _ | VFloat _ | VStr _ => lax a_bool v
  | _ => None
  end.

(** [dict] *)
Definition as_dict (v : value) : option document :=
  match v with
  | VDict d => Some d
  | VList _ | VStr _ => lax a_dict v
  | _ => None
  end.

(** [ServiceOption]: a dict is read field by field; [name], [price] and
    [duration_minutes] are required, [description] is [None] when the key is
    missing, keys that are no fields are ignored, and the bounds [ge=0] on
    the price and [ge=10], [le=600] on the duration are checked on the
    converted values. *)
Definition new_ServiceOption (v : value) : option ServiceOption.t :=
  match v with
  | VDict d =>
      match dict_lookup d "name", dict_lookup d "price",
            dict_lookup d "duration_minutes" with
      | Some n, Some p, Some m =>
          match as_str n, as_optional_str (dict_get d "description" VNone),
                as_float p, as_int m with
          | Some n', Some d', Some p', Some m' =>
              if float_nonneg p' && (10 <=? m') && (m' <=? 600)
              then Some {| ServiceOption.name := n';
                           ServiceOption.description := d';
                           ServiceOption.price := p';
                           ServiceOption.duration_minutes := m' |}
              else None
          | _, _, _, _ => None
          end
      | _, _, _ => None
      end
  | VList _ | VStr _ => lax a_model v
  | _ => None
  end.

Fixpoint validate_each {A B} (f : A -> option B) (l : list A) : option (list B) :=
  match l with
  | [] => Some []
  | a :: rest =>
      match f a, validate_each f rest with
      | Some b, Some bs => Some (b :: bs)
      | _, _ => None
      end
  end.

(** [List[ServiceOption]]: a list, each item of which validates. *)
Definition as_services (v : value) : option (list ServiceOption.t) :=
  match v with
  | VList l => validate_each new_ServiceOption l
  | _ => None
  end.

(** The fields of an instance of the response model. *)
Record CleanerResponse := {
  id : string;
  name : string;
  rating : float;
  total_reviews : Z;
  is_available : bool;
  photo_url : option string;
  bio : option string;
  services : list ServiceOption.t;
  location : document;
  base_callout_fee : float
}.

(** [CleanerResponse(id=.., name=.., ..)]: every keyword argument is
    validated against the annotation of its field and the instance holds the
    validated values; one argument that does not validate makes the
    constructor raise [ValidationError]. *)
Definition new_CleanerResponse
    (v_id v_name v_rating v_total_reviews v_is_available v_photo_url v_bio
     v_services v_location v_base_callout_fee : value) : result CleanerResponse :=
  match as_str v_id, as_str v_name, as_float v_rating, as_int v_total_reviews,
        as_bool v_is_available, as_optional_str v_photo_url, as_optional_str v_bio,
        as_services v_services, as_dict v_location, as_float v_base_callout_fee with
  | Some i, Some n, Some r, Some t, Some a, Some p, Some b, Some s, Some l, Some f =>
      Ok {| id := i; name := n; rating := r; total_reviews := t; is_available := a;
            photo_url := p; bio := b; services := s; location := l;
            base_callout_fee := f |}
  | _, _, _, _, _, _, _, _, _, _ => Raise (Unhandled ValidationError)
  end.

(** The response built for one stored document. *)
Definition cleaner_response (d : document) : result CleanerResponse :=
  new_CleanerResponse
    (VStr (py_str (dict_get d "_id" VNone)))
    (dict_get d "name" VNone)
    (dict_get d "rating" (VInt 0))
    (dict_get d "total_reviews" (VInt 0))
    (dict_get d "is_available" (VBool true))
    (dict_get d "photo_url" VNone)
    (dict_get d "bio" VNone)
    (dict_get d "services" (VList []))
    (dict_get d "location" (VDict []))
    (dict_get d "base_callout_fee" (VFloat (S754_zero false))).

Definition require_db : M unit :=
  fun w =>
    match db w with
    | None => (Raise ServiceUnavailable, w)
    | Some _ => (Ok tt, w)
    end.

Definition list_cleaners (lat lng : option float) (radius_km : float)
  : M (list CleanerResponse) :=
  (require_db ;;;
   docs <- get_documents "cleaner" ;;
   lift (for_each cleaner_response docs))%handler.

(** *** [POST /book] *)

Record CreateBookingRequest := {
  cleaner_id : string;
  service_name : string;
  scheduled_time : string;
  customer_name : string;
  customer_phone : string;
  customer_email : option string;
  address : option string;
  lat : option float;
  lng : option float;
  car_make : option string;
  car_model : option string;
  car_color : option string;
  car_plate : option string;
  notes : option string
}.

(** The search loop: the first item whose ["name"] equals the requested
    name, [None] when the loop ends without a [break]. *)
Fixpoint find_service (items : list value) (wanted : string) : result value :=
  match items with
  | [] => Ok VNone
  | s :: rest =>
      match py_get s "name" VNone with
      | Raise e => Raise e
      | Ok n => if eq_str n wanted then Ok s else find_service rest wanted
      end
  end.

Definition booking_doc (payload : CreateBookingRequest)
    (service_price total commission_amount net_amount : float) : document :=
  [ ("cleaner_id", VStr (cleaner_id payload));
    ("service_name", VStr (service_name payload));
    ("service_price", VFloat service_price);
    ("scheduled_time", VStr (scheduled_time payload));
    ("location", VDict [ ("lat", opt_float (lat payload));
                         ("lng", opt_float (lng payload));
                         ("address", opt_str (address payload)) ]);
    ("customer", VDict [ ("name", VStr (customer_name payload));
                         ("phone", VStr (customer_phone payload));
                         ("email", opt_str (customer_email payload)) ]);
    ("car", VDict [ ("make", opt_str (car_make payload));
                    ("model", opt_str (car_model payload));
                    ("color", opt_str (car_color payload));
                    ("plate", opt_str (car_plate payload)) ]);
    ("notes", opt_str (notes payload));
    ("total_price", VFloat total);
    ("commission_rate", VFloat commission_rate);
    ("commission_amount", VFloat commission_amount);
    ("net_amount", VFloat net_amount);
    ("status", VStr "pending");
    ("payment_status", VStr "unpaid");
    ("payment_reference", VNone) ].

Definition receipt (booking_id : value) (total commission_amount net_amount : float)
  : document :=
  [ ("booking_id", booking_id);
    ("total_price", VFloat total);
    ("commission_amount", VFloat commission_amount);
    ("net_amount", VFloat net_amount);
    ("message", VStr "Booking created. Proceed to payment to confirm.") ].

Definition create_booking (payload : CreateBookingRequest) : M document :=
  (require_db ;;;
   o <- lift (ObjectId (cleaner_id payload)) ;;
   cleaner <- find_one "cleaner" o ;;
   if negb (truthy cleaner) then raise NotFound else
   offered <- lift (py_get cleaner "services" (VList [])) ;;
   items <- lift (py_iter offered) ;;
   service <- lift (find_service items (service_name payload)) ;;
   if negb (truthy service) then raise InvalidRequest else
   price <- lift (py_get service "price" (VInt 0)) ;;
   service_price <- lift (py_float price) ;;
   fee <- lift (py_get cleaner "base_callout_fee" (VInt 0)) ;;
   callout <- lift (py_float fee) ;;
   let total := float_add service_price callout in
   let commission_amount := py_round2 (float_mul total commission_rate) in
   let net_amount := py_round2 (float_sub total commission_amount) in
   booking_id <- create_document "booking"
                   (booking_doc payload service_price total commission_amount net_amount) ;;
   ret (receipt booking_id total commission_amount net_amount))%handler.

(** *** [GET /bookings] *)

Definition stringify_id (d : document) : document :=
  dict_set d "_id"
    (if truthy (dict_get d "_id" VNone)
     then VStr (py_str (dict_get d "_id" VNone))
     else VNone).

Definition list_bookings : M (list document) :=
  (require_db ;;;
   docs <- get_documents "booking" ;;
   ret (map stringify_id docs))%handler.


(** ** Example data: the demo catalog of [seed_cleaners] *)

Definition sparkle_pro : document :=
  [ ("name", VStr "Sparkle Pro Detailing");
    ("phone", VStr "+1-555-0110");
    ("bio", VStr "Premium mobile car wash & detailing");
    ("photo_url", VStr "https://images.unsplash.com/photo-1609137144813-7d9921338f9b?w=800");
    ("rating", VFloat (S754_finite false 5516909543528858 (-50)));
    ("total_reviews", VInt 128);
    ("is_available", VBool true);
    ("location", VDict [ ("lat", VFloat (S754_finite false 5316213944484486 (-47)));
                         ("lng", VFloat (S754_finite true 8615336617932602 (-46)));
                         ("address", VStr "San Francisco, CA") ]);
    ("base_callout_fee", VInt 5);
    ("services",
      VList [ VDict [ ("name", VStr "Exterior Wash"); ("description", VStr "Foam wash & dry");
                      ("price", VInt 25); ("duration_minutes", VInt 30) ];
              VDict [ ("name", VStr "Interior Clean"); ("description", VStr "Vacuum & wipe down");
                      ("price", VInt 35); ("duration_minutes", VInt 45) ];
              VDict [ ("name", VStr "Full Detail"); ("description", VStr "In & Out premium detail");
                      ("price", VInt 99); ("duration_minutes", VInt 120) ] ]) ].

Definition ecoshine : document :=
  [ ("name", VStr "EcoShine Mobile");
    ("phone", VStr "+1-555-0111");
    ("bio", VStr "Waterless eco-friendly clean");
    ("photo_url", VStr "https://images.unsplash.com/photo-1515923162031-1d7cfbca8b89?w=800");
    ("rating", VFloat (S754_finite false 5291729562160333 (-50)));
    ("total_reviews", VInt 76);
    ("is_available", VBool true);
    ("location", VDict [ ("lat", VFloat (S754_finite false 5317625260017713 (-47)));
                         ("lng", VFloat (S754_finite true 8613767606043673 (-46)));
                         ("address", VStr "SoMa, SF") ]);
    ("base_callout_fee", VInt 3);
    ("services",
      VList [ VDict [ ("name", VStr "Quick Wash"); ("description", VStr "15-min express");
                      ("price", VInt 15); ("duration_minutes", VInt 15) ];
              VDict [ ("name", VStr "Interior Refresh"); ("description", VStr "Vacuum & mats");
                      ("price", VInt 25); ("duration_minutes", VInt 25) ] ]) ].

Definition sparkle_id : list byte := [x65; x4f; x1a; x2b; x3c; x4d; x5e; x6f; x70; x81; x92; xa3].
Definition ecoshine_id : list byte := [x65; x4f; x1a; x2b; x3c; x4d; x5e; x6f; x70; x81; x92; xa4].

Definition seeded : gmap string (list document) :=
  {[ "cleaner" := [ ("_id", VObjectId sparkle_id) :: sparkle_pro;
                    ("_id", VObjectId ecoshine_id) :: ecoshine ] ]}.

Definition seeded_world : world := {| db := Some seeded; trace := [] |}.
Definition unconfigured_world : world := {| db := None; trace := [] |}.

Definition request (cleaner service : string) : CreateBookingRequest :=
  {| cleaner_id := cleaner;
     service_name := service;
     scheduled_time := "2025-01-15T10:00:00";
     customer_name := "Ada";
     customer_phone := "+1-555-0100";
     customer_email := None;
     address := Some "1 Market St";
     lat := None;
     lng := None;
     car_make := None;
     car_model := None;
     car_color := None;
     car_plate := None;
     notes := None |}.

(** A cleaner whose stored price and fee are both 1e308. *)
Definition pricey : document :=
  [ ("_id", VObjectId sparkle_id);
    ("name", VStr "Pricey");
    ("base_callout_fee", VFloat (S754_finite false 5010420900022432 971));
    ("services", VList [ VDict [ ("name", VStr "Wash");
                                 ("price", VFloat (S754_finite false 5010420900022432 971)) ] ]) ].

Definition pricey_world : world :=
  {| db := Some {[ "cleaner" := [ pricey ] ]}; trace := [] |}.

(** A cleaner stored without a callout fee, offering a service without a
    price. *)
Definition bare : document :=
  [ ("_id", VObjectId ecoshine_id);
    ("name", VStr "Bare");
    ("services", VList [ VDict [ ("name", VStr "Wash") ] ]) ].

Definition bare_world : world :=
  {| db := Some {[ "cleaner" := [ bare ] ]}; trace := [] |}.

(** A store that already holds one booking. *)
Definition booked_world : world :=
  {| db := Some (<["booking" :=
                    [ ("_id", VObjectId sparkle_id)
                      :: booking_doc (request "654f1a2b3c4d5e6f708192a4" "Quick Wash")
                           (float_of_int 15) (float_of_int 18)
                           (S754_finite false 8106479329266893 (-52))
                           (S754_finite false 4559894622712627 (-48)) ]]> seeded);
     trace := [] |}.

(** Stand-ins for the runtime in the examples. *)
Definition no_float_of_str : string -> option float := fun _ => None.
Definition no_repr : value -> string := fun _ => EmptyString.
Definition first_id : list document -> list byte := fun _ => sparkle_id.
Definition no_lax : forall a : annotation, value -> option (python_type a) :=
  fun _ _ => None.

(** The responses expected for the two demo cleaners, under the identifier
    rendered as [i]. *)
Definition sparkle_response (i : string) : CleanerResponse :=
  {| id := i;
     name := "Sparkle Pro Detailing";
     rating := S754_finite false 5516909543528858 (-50);
     total_reviews := 128;
     is_available := true;
     photo_url := Some "https://images.unsplash.com/photo-1609137144813-7d9921338f9b?w=800";
     bio := Some "Premium mobile car wash & detailing";
     services :=
       [ {| ServiceOption.name := "Exterior Wash";
            ServiceOption.description := Some "Foam wash & dry";
            ServiceOption.price := float_of_int 25;
            ServiceOption.duration_minutes := 30 |};
         {| ServiceOption.name := "Interior Clean";
            ServiceOption.description := Some "Vacuum & wipe down";
            ServiceOption.price := float_of_int 35;
            ServiceOption.duration_minutes := 45 |};
         {| ServiceOption.name := "Full Detail";
            ServiceOption.description := Some "In & Out premium detail";
            ServiceOption.price := float_of_int 99;
            ServiceOption.duration_minutes := 120 |} ];
     location := [ ("lat", VFloat (S754_finite false 5316213944484486 (-47)));
                   ("lng", VFloat (S754_finite true 8615336617932602 (-46)));
                   ("address", VStr "San Francisco, CA") ];
     base_callout_fee := float_of_int 5 |}.

Definition ecoshine_response (i : string) : CleanerResponse :=
  {| id := i;
     name := "EcoShine Mobile";
     rating := S754_finite false 5291729562160333 (-50);
     total_reviews := 76;
     is_available := true;
     photo_url := Some "https://images.unsplash.com/photo-1515923162031-1d7cfbca8b89?w=800";
     bio := Some "Waterless eco-friendly clean";
     services :=
       [ {| ServiceOption.name := "Quick Wash";
            ServiceOption.description := Some "15-min express";
            ServiceOption.price := float_of_int 15;
            ServiceOption.duration_minutes := 15 |};
         {| ServiceOption.name := "Interior Refresh";
            ServiceOption.description := Some "Vacuum & mats";
            ServiceOption.price := float_of_int 25;
            ServiceOption.duration_minutes := 25 |} ];
     location := [ ("lat", VFloat (S754_finite false 5317625260017713 (-47)));
                   ("lng", VFloat (S754_finite true 8613767606043673 (-46)));
                   ("address", VStr "SoMa, SF") ];
     base_callout_fee := float_of_int 3 |}.

(** A cleaner whose one service carries a key that the model does not
    have. *)
Definition garnished : document :=
  [ ("_id", VObjectId sparkle_id);
    ("name", VStr "Garnished");
    ("base_callout_fee", VInt 5);
    ("services", VList [ VDict [ ("name", VStr "Wash"); ("price", VInt 10);
                                 ("duration_minutes", VInt 30);
                                 ("badge", VStr "new") ] ]) ].

Definition garnished_world : world :=
  {| db := Some {[ "cleaner" := [ garnished ] ]}; trace := [] |}.

(** ** The administrative handlers *)

(** *** [POST /seed] *)

(** Modelled from the spec: the store behind [db] is not part of the
    sources.  [db[name].count_documents({})] is the number of documents the
    collection holds; counting reads the store and leaves the trace, which
    keeps lookups, listings and inserts, as it is. *)
Definition count_documents (name : string) : M Z :=
  fun w =>
    match db w with
    | None => (Raise (Unhandled TypeError), w)
    | Some st => (Ok (Z.of_nat (length (collection st name))), w)
    end.

(** [for a in l: body(a)] *)
Fixpoint for_in {A B} (l : list A) (body : A -> M B) : M unit :=
  match l with
  | [] => ret tt
  | a :: rest => (body a ;;; for_in rest body)%handler
  end.

Definition demo : list document := [sparkle_pro; ecoshine].

Definition already_seeded : document :=
  [ ("seeded", VBool false); ("message", VStr "Cleaners already exist") ].

Definition seed_cleaners : M document :=
  (require_db ;;;
   n <- count_documents "cleaner" ;;
   let has_any := 0 <? n in
   if has_any then ret already_seeded else
   for_in demo (fun item => create_document "cleaner" item) ;;;
   ret [ ("seeded", VBool true); ("count", VInt (Z.of_nat (length demo))) ])%handler.

(** *** [GET /test] *)

(** Strings hold the UTF-8 encoding of their text: a character starts at
    every byte that is not a continuation byte. *)
Definition is_continuation (c : ascii) : bool :=
  let n := N_of_ascii c in ((128 <=? n) && (n <? 192))%N.

(** [s[:n]]: the first [n] characters. *)
Fixpoint str_prefix (n : nat) (s : string) : string :=
  match s with
  | EmptyString => EmptyString
  | String c rest =>
      if is_continuation c then String c (str_prefix n rest)
      else match n with
           | O => EmptyString
           | S n' => String c (str_prefix n' rest)
           end
  end.

(** [len(s)] *)
Fixpoint str_len (s : string) : nat :=
  match s with
  | EmptyString => O
  | String c rest => if is_continuation c then str_len rest else S (str_len rest)
  end.

(** What a call inside a [try] block comes to: the value it returns, or
    [str(e)] for the exception [e] it raises. *)
Inductive attempt (A : Type) :=
| Returned (a : A)
| Raised (message : string).
Arguments Returned {A} a.
Arguments Raised {A} message.

(** The process environment read by [os.getenv]. *)
Variable getenv : string -> option string.
(** [getattr(db, 'name', None)] on the store handle. *)
Variable handle_name : gmap string (list document) -> attempt value.
(** [db.list_collection_names()] *)
Variable list_collection_names : gmap string (list document) -> attempt (list string).

(** ["✅ Set" if os.getenv(k) else "❌ Not Set"] *)
Definition env_flag (k : string) : value :=
  if truthy (opt_str (getenv k)) then VStr "✅ Set" else VStr "❌ Not Set".

Definition test_database (w : world) : document :=
  let response :=
    [ ("backend", VStr "✅ Running");
      ("database", VStr "❌ Not Available");
      ("database_url", VNone);
      ("database_name", VNone);
      ("connection_status", VStr "Not Connected");
      ("collections", VList []) ] in
  let response :=
    match db w with
    | Some h =>
        let response := dict_set response "database" (VStr "✅ Available") in
        let response := dict_set response "database_url" (env_flag "DATABASE_URL") in
        match handle_name h with
        | Returned n =>
            let response :=
              dict_set response "database_name" (if truthy n then n else VStr "") in
            match list_collection_names h with
            | Returned collections =>
                let response :=
                  dict_set response "collections" (VList (map VStr collections)) in
                let response :=
                  dict_set response "database" (VStr "✅ Connected & Working") in
                dict_set response "connection_status" (VStr "Connected")
            | Raised e =>
                dict_set response "database"
                  (VStr (String.append "⚠️ Connected but Error: " (str_prefix 80 e)))
            end
        | Raised e =>
            dict_set response "database"
              (VStr (String.append "❌ Error: " (str_prefix 80 e)))
        end
    | None => dict_set response "database" (VStr "⚠️ Available but not initialized")
    end in
  let response := dict_set response "database_url" (env_flag "DATABASE_URL") in
  let response := dict_set response "database_name" (env_flag "DATABASE_NAME") in
  response.

(** *** Letter case of identifiers *)

(** The capital of an ASCII letter; every other character is kept. *)
Definition upper_char (c : ascii) : ascii :=
  let n := N_of_ascii c in
  if ((97 <=? n) && (n <=? 122))%N then ascii_of_N (n - 32) else c.

Fixpoint upper (s : string) : string :=
  match s with
  | EmptyString => EmptyString
  | String c rest => String (upper_char c) (upper rest)
  end.

(** The request with another identifier for the cleaner. *)
Definition with_cleaner_id (payload : CreateBookingRequest) (s : string)
  : CreateBookingRequest :=
  {| cleaner_id := s;
     service_name := service_name payload;
     scheduled_time := scheduled_time payload;
     customer_name := customer_name payload;
     customer_phone := customer_phone payload;
     customer_email := customer_email payload;
     address := address payload;
     lat := lat payload;
     lng := lng payload;
     car_make := car_make payload;
     car_model := car_model payload;
     car_color := car_color payload;
     car_plate := car_plate payload;
     notes := notes payload |}.

(** *** Amounts in cents *)

(** The double nearest to [n / 100]: the value of the decimal literal with
    two places. *)
Definition cents (n : Z) : float := float_div (float_of_int n) (float_of_int 100).

(** The same double, bit for bit. *)
Definition same_float (x y : float) : bool :=
  match x, y with
  | S754_zero s, S754_zero s' => Bool.eqb s s'
  | S754_infinity s, S754_infinity s' => Bool.eqb s s'
  | S754_nan, S754_nan => true
  | S754_finite s m e, S754_finite s' m' e' =>
      Bool.eqb s s' && Pos.eqb m m' && Z.eqb e e'
  | _, _ => false
  end.

(** For a total of [t] whole units: the commission is the double nearest to
    [t / 10], the net amount the one nearest to [9 t / 10], and their float
    sum is the total. *)
Definition splits_exactly (t : Z) : bool :=
  let total := float_of_int t in
  let com := py_round2 (float_mul total commission_rate) in
  let net := py_round2 (float_sub total com) in
  same_float com (cents (10 * t)) && same_float net (cents (90 * t))
  && same_float (float_add com net) total.

Fixpoint all_up_to (n : nat) (check : Z -> bool) : bool :=
  match n with
  | O => check 0
  | S n' => check (Z.of_nat n) && all_up_to n' check
  end.

(** A store that hands out two identifiers in turn. *)
Definition fresh_id : list document -> list byte :=
  fun docs => match docs with [] => sparkle_id | _ => ecoshine_id end.

Definition empty_world : world := {| db := Some ∅; trace := [] |}.

(** A cleaner stored without services, and one whose only service has
    [None] for a price. *)
Definition idle : document :=
  [ ("_id", VObjectId sparkle_id); ("name", VStr "Idle") ].

Definition unpriced : document :=
  [ ("_id", VObjectId sparkle_id);
    ("name", VStr "Unpriced");
    ("services", VList [ VDict [ ("name", VStr "Wash"); ("price", VNone) ] ]) ].

Definition idle_world : world :=
  {| db := Some {[ "cleaner" := [ idle ] ]}; trace := [] |}.

Definition unpriced_world : world :=
  {| db := Some {[ "cleaner" := [ unpriced ] ]}; trace := [] |}.

(** An environment with the URL of the store and an empty name for it, and
    a handle that lists its collections or fails to. *)
Definition url_only : string -> option string :=
  fun k => if String.eqb k "DATABASE_URL" then Some "mongodb://localhost:27017"
           else if String.eqb k "DATABASE_NAME" then Some ""
           else None.

Definition named_handle : gmap string (list document) -> attempt value :=
  fun _ => Returned (VStr "marketplace").

Definition two_collections : gmap string (list document) -> attempt (list string) :=
  fun _ => Returned ["cleaner"; "booking"].

Definition unreachable : gmap string (list document) -> attempt (list string) :=
  fun _ => Raised "localhost:27017: [Errno 111] Connection refused".

(** A cleaner whose services list goes on with [None] after its one
    service. *)
Definition patchy : document :=
  [ ("_id", VObjectId sparkle_id);
    ("name", VStr "Patchy");
    ("services", VList [ VDict [ ("name", VStr "Wash"); ("price", VInt 10) ]; VNone ]) ].

Definition patchy_world : world :=
  {| db := Some {[ "cleaner" := [ patchy ] ]}; trace := [] |}.

(** ** Powers of two *)

Lemma bpow_pos e : (0 < bpow e)%Q.
Proof. apply Qpower_0_lt. reflexivity. Qed.

Lemma bpow_add a b : (bpow (a + b) == bpow a * bpow b)%Q.
Proof. apply Qpower_plus. discriminate. Qed.

Lemma bpow_0 : (bpow 0 == 1)%Q.
Proof. reflexivity. Qed.

Lemma bpow_1 : (bpow 1 == 2)%Q.
Proof. reflexivity. Qed.

Lemma bpow_succ e : (bpow (e + 1) == 2 * bpow e)%Q.
Proof. rewrite bpow_add, bpow_1. ring. Qed.

Lemma bpow_opp_mul e : (bpow e * bpow (- e) == 1)%Q.
Proof. rewrite <- bpow_add, Z.add_opp_diag_r. reflexivity. Qed.

Lemma bpow_le a b : a <= b -> (bpow a <= bpow b)%Q.
Proof. intros H. apply Qpower_le_compat_l; [exact H | discriminate]. Qed.

Lemma bpow_lt a b : a < b -> (bpow a < bpow b)%Q.
Proof. intros H. apply Qpower_lt_compat_l; [exact H | reflexivity]. Qed.

Lemma bpow_lt_inv a b : (bpow a < bpow b)%Q -> a < b.
Proof. intros H. eapply Qpower_lt_compat_l_inv; [exact H | reflexivity]. Qed.

Lemma bpow_inject n : 0 <= n -> (inject_Z (2 ^ n) == bpow n)%Q.
Proof. intros H. unfold bpow. now rewrite Zpower_Qpower. Qed.

Lemma inject_Z_le a b : a <= b -> (inject_Z a <= inject_Z b)%Q.
Proof. intros H. now rewrite <- Zle_Qle. Qed.

Lemma inject_Z_lt a b : a < b -> (inject_Z a < inject_Z b)%Q.
Proof. intros H. now rewrite <- Zlt_Qlt. Qed.


(** ** Number of binary digits *)

Lemma digits2_pos_size p : digits2_pos p = Pos.size p.
Proof. induction p; simpl; congruence. Qed.

Lemma Zdigits2_log2 m : 0 < m -> Zdigits2 m = Z.log2 m + 1.
Proof.
  destruct m as [|p|p]; try lia. intros _.
  destruct p; simpl; rewrite ?digits2_pos_size; lia.
Qed.

Lemma Zdigits2_nonneg m : 0 <= Zdigits2 m.
Proof. destruct m; simpl; lia. Qed.

Lemma Zdigits2_pos m : 0 < m -> 0 < Zdigits2 m.
Proof. destruct m; simpl; lia. Qed.

Lemma Zdigits2_bounds m : 0 < m -> 2 ^ (Zdigits2 m - 1) <= m < 2 ^ Zdigits2 m.
Proof.
  intros H. rewrite (Zdigits2_log2 m H).
  replace (Z.log2 m + 1 - 1) with (Z.log2 m) by lia.
  apply (Z.log2_spec m H).
Qed.

Lemma Zdigits2_unique m k : 0 < m -> 2 ^ (k - 1) <= m < 2 ^ k -> Zdigits2 m = k.
Proof.
  intros H Hk. rewrite (Zdigits2_log2 m H).
  assert (0 <= k - 1).
  { destruct (Z.le_gt_cases 0 (k - 1)) as [|Hn]; [assumption|].
    assert (2 ^ k <= 1); [|lia].
    destruct (Z.le_gt_cases 0 k) as [Hk0|Hk0].
    - replace k with 0 by lia. simpl. lia.
    - rewrite Z.pow_neg_r by lia. lia. }
  rewrite (Z.log2_unique m (k - 1)); [lia | assumption |].
  replace (Z.succ (k - 1)) with k by lia. exact Hk.
Qed.

Lemma Zdigits2_le a b : 0 <= a <= b -> Zdigits2 a <= Zdigits2 b.
Proof.
  intros [Ha Hab]. destruct (Z.eq_dec a 0) as [->|Hne].
  - apply Zdigits2_nonneg.
  - rewrite !Zdigits2_log2 by lia.
    pose proof (Z.log2_le_mono a b Hab). lia.
Qed.

Lemma Zdigits2_lt_pow2 m k : 0 <= m -> 0 <= k -> m < 2 ^ k -> Zdigits2 m <= k.
Proof.
  intros Hm Hk H. destruct (Z.eq_dec m 0) as [->|Hne]; [simpl; lia|].
  pose proof (Zdigits2_bounds m ltac:(lia)) as [Hlo _].
  destruct (Z.le_gt_cases (Zdigits2 m) k) as [|Hgt]; [assumption|].
  assert (2 ^ k <= 2 ^ (Zdigits2 m - 1)) by (apply Z.pow_le_mono_r; lia). lia.
Qed.

Lemma Zdigits2_div_pow2 m n :
  0 <= m -> 0 <= n -> Zdigits2 (m / 2 ^ n) = Z.max 0 (Zdigits2 m - n).
Proof.
  intros Hm Hn. destruct (Z.eq_dec m 0) as [->|Hne].
  - rewrite Z.div_0_l by (apply Z.pow_nonzero; lia). simpl. lia.
  - pose proof (Zdigits2_bounds m ltac:(lia)) as [Hlo Hhi].
    pose proof (Zdigits2_pos m ltac:(lia)) as Hd.
    assert (Hp : 0 < 2 ^ n) by (apply Z.pow_pos_nonneg; lia).
    destruct (Z.le_gt_cases (Zdigits2 m) n) as [Hle|Hgt].
    + assert (m < 2 ^ n).
      { eapply Z.lt_le_trans; [exact Hhi|]. apply Z.pow_le_mono_r; lia. }
      rewrite Z.div_small by lia. simpl. lia.
    + rewrite Z.max_r by lia.
      assert (E1 : 2 ^ (Zdigits2 m - 1) = 2 ^ (Zdigits2 m - n - 1) * 2 ^ n).
      { rewrite <- Z.pow_add_r by lia. f_equal. lia. }
      assert (E2 : 2 ^ Zdigits2 m = 2 ^ (Zdigits2 m - n) * 2 ^ n).
      { rewrite <- Z.pow_add_r by lia. f_equal. lia. }
      assert (Hq1 : 2 ^ (Zdigits2 m - n - 1) <= m / 2 ^ n).
      { apply Z.div_le_lower_bound; [lia|]. rewrite Z.mul_comm. lia. }
      assert (Hq2 : m / 2 ^ n < 2 ^ (Zdigits2 m - n)).
      { apply Z.div_lt_upper_bound; [lia|]. rewrite Z.mul_comm. lia. }
      apply Zdigits2_unique.
      * assert (0 < 2 ^ (Zdigits2 m - n - 1)) by (apply Z.pow_pos_nonneg; lia). lia.
      * split; assumption.
Qed.

Lemma Zdigits2_succ m :
  0 <= m ->
  Zdigits2 (m + 1) <= Zdigits2 m + 1 /\
  (Zdigits2 (m + 1) = Zdigits2 m + 1 -> m + 1 = 2 ^ Zdigits2 m).
Proof.
  intros Hm. destruct (Z.eq_dec m 0) as [->|Hne]; [simpl; split; lia|].
  pose proof (Zdigits2_bounds m ltac:(lia)) as [Hlo Hhi].
  pose proof (Zdigits2_bounds (m + 1) ltac:(lia)) as [Hlo' Hhi'].
  pose proof (Zdigits2_pos m ltac:(lia)) as Hd.
  split.
  - destruct (Z.le_gt_cases (Zdigits2 (m + 1)) (Zdigits2 m + 1)) as [|Hgt]; [assumption|].
    assert (2 ^ (Zdigits2 m + 1) <= 2 ^ (Zdigits2 (m + 1) - 1))
      by (apply Z.pow_le_mono_r; lia).
    assert (2 ^ Zdigits2 m < 2 ^ (Zdigits2 m + 1)) by (apply Z.pow_lt_mono_r; lia).
    lia.
  - intros E. rewrite E in Hlo'. replace (Zdigits2 m + 1 - 1) with (Zdigits2 m) in Hlo' by lia.
    lia.
Qed.

(** ** Shifting a mantissa right with round and sticky bits *)

Lemma shr_record_of_loc_m m l : shr_m (shr_record_of_loc m l) = m.
Proof. destruct l as [|[]]; reflexivity. Qed.

Lemma loc_of_shr_record_of_loc m l : loc_of_shr_record (shr_record_of_loc m l) = l.
Proof. destruct l as [|[]]; reflexivity. Qed.

Lemma inbetween_compat y y' m l : (y == y')%Q -> inbetween y m l -> inbetween y' m l.
Proof. intros E. destruct l as [|[]]; simpl; intros H; lra. Qed.

Lemma inbetween_bounds y m l :
  inbetween y m l -> (inject_Z m <= y /\ y < inject_Z m + 1)%Q.
Proof. destruct l as [|[]]; simpl; intros H; lra. Qed.

Lemma inject_Z_xO p : (inject_Z (Zpos p~0) == 2 * inject_Z (Zpos p))%Q.
Proof. rewrite Pos2Z.inj_xO, inject_Z_mult. reflexivity. Qed.

Lemma inject_Z_xI p : (inject_Z (Zpos p~1) == 2 * inject_Z (Zpos p) + 1)%Q.
Proof. rewrite Pos2Z.inj_xI, inject_Z_plus, inject_Z_mult. reflexivity. Qed.

(** Integer mantissas are opaque atoms for linear arithmetic over [Q]. *)
Ltac hide_inject :=
  repeat match goal with
         | |- context [inject_Z ?z] =>
             let q := fresh "q" in set (q := inject_Z z) in *; clearbody q
         | H : context [inject_Z ?z] |- _ =>
             let q := fresh "q" in set (q := inject_Z z) in *; clearbody q
         end.

Lemma shr_1_step y mrs :
  0 <= shr_m mrs ->
  inbetween y (shr_m mrs) (loc_of_shr_record mrs) ->
  inbetween (y * (1#2)) (shr_m (shr_1 mrs)) (loc_of_shr_record (shr_1 mrs)) /\
  shr_m (shr_1 mrs) = shr_m mrs / 2.
Proof.
  destruct mrs as [m r s]. simpl shr_m at 1 2.
  intros Hm H. destruct m as [|p|p]; [| |lia].
  - split; [|reflexivity].
    destruct r, s; simpl in *; change (inject_Z 0) with 0%Q in *; lra.
  - destruct p as [p|p|].
    + pose proof (inject_Z_xI p) as E. split.
      * destruct r, s; simpl in *; hide_inject; lra.
      * simpl. rewrite Pos2Z.inj_xI. apply Z.div_unique with 1; lia.
    + pose proof (inject_Z_xO p) as E. split.
      * destruct r, s; simpl in *; hide_inject; lra.
      * simpl. rewrite Pos2Z.inj_xO. apply Z.div_unique with 0; lia.
    + split; [|reflexivity].
      destruct r, s; simpl in *;
        change (inject_Z 1) with 1%Q in *; change (inject_Z 0) with 0%Q; lra.
Qed.

Lemma iter_pos_invariant {A} (f : A -> A) (P : Z -> A -> Prop) :
  (forall k x, 0 <= k -> P k x -> P (k + 1) (f x)) ->
  forall p k x, 0 <= k -> P k x -> P (k + Zpos p) (SpecFloat.iter_pos f p x).
Proof.
  intros Hstep. induction p as [p IH|p IH|]; intros k x Hk Hx; simpl.
  - replace (k + Zpos p~1) with (k + 1 + Zpos p + Zpos p) by lia.
    apply IH; [lia|]. apply IH; [lia|]. now apply Hstep.
  - replace (k + Zpos p~0) with (k + Zpos p + Zpos p) by lia.
    apply IH; [lia|]. now apply IH.
  - now apply Hstep.
Qed.

Lemma bpow_opp_succ k : (bpow (- (k + 1)) == bpow (- k) * (1#2))%Q.
Proof.
  replace (- (k + 1)) with (- k + -1) by lia. rewrite bpow_add. reflexivity.
Qed.

Lemma shr_spec x mrs e n :
  0 <= shr_m mrs ->
  inbetween (x * bpow (- e)) (shr_m mrs) (loc_of_shr_record mrs) ->
  let '(mrs', e') := shr mrs e n in
  e' = e + Z.max 0 n /\
  0 <= shr_m mrs' /\
  inbetween (x * bpow (- e')) (shr_m mrs') (loc_of_shr_record mrs') /\
  shr_m mrs' = shr_m mrs / 2 ^ Z.max 0 n /\
  (n <= 0 -> mrs' = mrs).
Proof.
  intros Hm Hin. destruct n as [|p|p]; simpl shr.
  - rewrite Z.add_0_r, Z.div_1_r. auto 6.
  - rewrite Z.max_r by lia.
    pose (P := fun k r =>
      0 <= shr_m r /\
      inbetween (x * bpow (- e) * bpow (- k)) (shr_m r) (loc_of_shr_record r) /\
      shr_m r = shr_m mrs / 2 ^ k).
    assert (H0 : P 0 mrs).
    { unfold P. split; [exact Hm|]. split.
      - eapply inbetween_compat; [|exact Hin]. simpl. ring.
      - simpl. now rewrite Z.div_1_r. }
    assert (Hstep : forall k r, 0 <= k -> P k r -> P (k + 1) (shr_1 r)).
    { intros k r Hk (Hr & Hy & Hq). unfold P.
      destruct (shr_1_step _ _ Hr Hy) as [Hy' Hm'].
      split; [rewrite Hm'; apply Z.div_pos; lia|]. split.
      - eapply inbetween_compat; [|exact Hy']. rewrite bpow_opp_succ. ring.
      - rewrite Hm', Hq, Z.div_div by (try apply Z.pow_nonzero; lia).
        f_equal. rewrite Z.pow_add_r by lia. reflexivity. }
    pose proof (iter_pos_invariant shr_1 P Hstep p 0 mrs ltac:(lia) H0) as (H1 & H2 & H3).
    rewrite Z.add_0_l in H2, H3.
    split; [reflexivity|]. split; [exact H1|]. split; [|split; [exact H3 | lia]].
    eapply inbetween_compat; [|exact H2].
    replace (- (e + Zpos p)) with (- e + - Zpos p) by lia. rewrite bpow_add. ring.
  - rewrite Z.max_l by lia. rewrite Z.add_0_r, Z.div_1_r. auto 6.
Qed.

Lemma round_nearest_even_spec y m l :
  inbetween y m l ->
  let k := round_nearest_even m l in
  (k = m \/ k = m + 1) /\
  (inject_Z k - (1#2) <= y /\ y <= inject_Z k + (1#2))%Q /\
  (l = loc_Exact -> k = m /\ (y == inject_Z m)%Q).
Proof.
  assert (E : (inject_Z (m + 1) == inject_Z m + 1)%Q).
  { rewrite inject_Z_plus. reflexivity. }
  destruct l as [|[]]; simpl; intros H.
  - split; [now left|]. split; [hide_inject; lra | auto].
  - destruct (Z.even m).
    + split; [now left|]. split; [hide_inject; lra | discriminate].
    + split; [now right|]. split; [hide_inject; lra | discriminate].
  - split; [now left|]. split; [hide_inject; lra | discriminate].
  - split; [now right|]. split; [hide_inject; lra | discriminate].
Qed.

(** ** Rounding to binary64 *)

Lemma fexp_eq e : fexp prec emax e = Z.max (e - 53) (-1074).
Proof. reflexivity. Qed.

(** After the mantissa has been rounded, renormalising shifts by at most one
    bit, loses nothing and leaves at most 53 digits. *)
Lemma shr_fexp_after_round m' e' m1 :
  0 <= m' ->
  fexp prec emax (Zdigits2 m' + e') <= e' ->
  m1 = m' \/ m1 = m' + 1 ->
  let '(mrs2, e2) := shr_fexp prec emax m1 e' loc_Exact in
  0 <= shr_m mrs2 /\
  Zdigits2 (shr_m mrs2) <= 53 /\
  (e2 = e' /\ shr_m mrs2 = m1 \/
   e2 = e' + 1 /\ 2 * shr_m mrs2 = m1 /\ Zdigits2 m1 = Zdigits2 m' + 1).
Proof.
  intros Hm' Hfit Hm1.
  assert (H1 : 0 <= m1) by lia.
  unfold shr_fexp.
  pose proof (shr_spec (inject_Z m1 * bpow e') (shr_record_of_loc m1 loc_Exact) e'
                (fexp prec emax (Zdigits2 m1 + e') - e')) as Hs.
  simpl shr_record_of_loc in *. simpl shr_m in Hs at 1 2. simpl loc_of_shr_record in Hs at 1.
  destruct (shr {| shr_m := m1; shr_r := false; shr_s := false |} e'
              (fexp prec emax (Zdigits2 m1 + e') - e')) as [mrs2 e2].
  destruct Hs as (He2 & Hpos & _ & Hm2 & _); [exact H1| |].
  { simpl. rewrite <- Qmult_assoc, bpow_opp_mul. ring. }
  split; [exact Hpos|].
  rewrite fexp_eq in *.
  pose proof (Zdigits2_nonneg m') as Hd'.
  set (k := Z.max 0 (Z.max (Zdigits2 m1 + e' - 53) (-1074) - e')) in *.
  assert (Hk0 : k = 0 -> Zdigits2 (shr_m mrs2) <= 53 /\ e2 = e' /\ shr_m mrs2 = m1).
  { intros E. rewrite E in He2, Hm2. change (2 ^ 0) with 1 in Hm2.
    rewrite Z.div_1_r in Hm2. simpl in Hm2. rewrite Hm2. subst k. lia. }
  destruct Hm1 as [E1 | E1].
  - assert (Ek : k = 0) by (subst m1 k; lia).
    destruct (Hk0 Ek) as (? & ? & ?). auto.
  - destruct (Zdigits2_succ m' Hm') as [Hle Hpow].
    pose proof (Zdigits2_le m' (m' + 1) ltac:(lia)) as Hge.
    rewrite <- E1 in Hle, Hpow, Hge.
    destruct (Z.eq_dec k 0) as [E|NE].
    { destruct (Hk0 E) as (? & ? & ?). auto. }
    assert (Ek : k = 1) by (subst k; lia).
    assert (Ed : Zdigits2 m1 = Zdigits2 m' + 1) by (subst k; lia).
    assert (Hdp : 0 < Zdigits2 m') by (subst k; lia).
    assert (Hd53 : Zdigits2 m' <= 53) by lia.
    rewrite Ek in He2, Hm2. simpl shr_m in Hm2.
    set (d := Zdigits2 m' - 1).
    assert (Hd : 0 <= d) by (subst d; lia).
    assert (Em2 : shr_m mrs2 = 2 ^ d).
    { rewrite Hm2, (Hpow Ed).
      replace (Zdigits2 m') with (Z.succ d) by (subst d; lia).
      rewrite Z.pow_succ_r by lia. change (2 ^ 1) with 2.
      now rewrite (Z.mul_comm 2 (2 ^ d)), Z.div_mul by lia. }
    assert (Hp : 0 < 2 ^ d) by (apply Z.pow_pos_nonneg; lia).
    split.
    + rewrite Em2, (Zdigits2_unique (2 ^ d) (d + 1)); [subst d; lia | exact Hp |].
      replace (d + 1 - 1) with d by lia. split; [lia|].
      apply Z.pow_lt_mono_r; lia.
    + right. split; [lia|]. split; [|exact Ed].
      rewrite Em2, (Hpow Ed).
      replace (Zdigits2 m') with (Z.succ d) by (subst d; lia).
      now rewrite Z.pow_succ_r by lia.
Qed.

Lemma scale_bounds (a y b B : Q) :
  (0 < B)%Q -> (a <= y /\ y <= b)%Q -> (a * B <= y * B /\ y * B <= b * B)%Q.
Proof.
  intros HB [H1 H2]. split; apply Qmult_le_compat_r; try assumption;
    now apply Qlt_le_weak.
Qed.

Lemma unscale x e : (x * bpow (- e) * bpow e == x)%Q.
Proof.
  rewrite <- Qmult_assoc, (Qmult_comm (bpow (- e))), bpow_opp_mul. ring.
Qed.

Lemma bpow_inject_le j m e :
  0 <= j -> 2 ^ j <= m -> (bpow (j + e) <= inject_Z m * bpow e)%Q.
Proof.
  intros Hj Hm. rewrite bpow_add. apply Qmult_le_compat_r.
  - rewrite <- bpow_inject by lia. now apply inject_Z_le.
  - apply Qlt_le_weak, bpow_pos.
Qed.

(** The result of [binary_round_aux] on a mantissa, exponent and location
    that stand for the non-negative rational [x]: the sign is the one asked
    for, a finite result has at most 53 digits, an exponent in range and is
    within half a unit in the last place of [x], and infinity is only
    returned when [x] is within that distance of [2^emax]. *)
Lemma binary_round_aux_spec s mx ex lx x :
  0 <= mx ->
  inbetween (x * bpow (- ex)) mx lx ->
  lx = loc_Exact \/ ex <= fexp prec emax (Zdigits2 mx + ex) ->
  let e1 := fexp prec emax (Zdigits2 mx + ex) in
  match binary_round_aux prec emax s mx ex lx with
  | S754_zero s' => s' = s /\ (x <= bpow e1 * (1#2))%Q
  | S754_finite s' m e =>
      s' = s /\ Zdigits2 (Zpos m) <= prec /\ e <= emax - prec /\
      (inject_Z (Zpos m) * bpow e - bpow e1 * (1#2) <= x /\
       x <= inject_Z (Zpos m) * bpow e + bpow e1 * (1#2))%Q
  | S754_infinity s' =>
      s' = s /\ (emax - prec < ex \/ (bpow emax <= x + bpow e1 * (1#2))%Q)
  | S754_nan => False
  end.
Proof.
  intros Hmx Hin Hpre e1. unfold binary_round_aux.
  change (shr_fexp prec emax mx ex lx)
    with (shr (shr_record_of_loc mx lx) ex (e1 - ex)).
  pose proof (shr_spec x (shr_record_of_loc mx lx) ex (e1 - ex)) as Hs.
  rewrite shr_record_of_loc_m, loc_of_shr_record_of_loc in Hs.
  destruct (shr (shr_record_of_loc mx lx) ex (e1 - ex)) as [mrs' e'].
  destruct (Hs Hmx Hin) as (He' & Hpos' & Hin' & Hm' & Hsame). clear Hs.
  pose proof (round_nearest_even_spec _ _ _ Hin') as (Hk & Hbnd & Hex).
  set (m1 := round_nearest_even (shr_m mrs') (loc_of_shr_record mrs')) in *.
  pose proof (Zdigits2_nonneg mx) as Hdx.
  assert (Hdm' : Zdigits2 (shr_m mrs') = Z.max 0 (Zdigits2 mx - Z.max 0 (e1 - ex))).
  { rewrite Hm', Zdigits2_div_pow2 by lia. reflexivity. }
  assert (Hfit : fexp prec emax (Zdigits2 (shr_m mrs') + e') <= e').
  { rewrite Hdm'. subst e1. rewrite !fexp_eq in *. lia. }
  pose proof (shr_fexp_after_round (shr_m mrs') e' m1 Hpos' Hfit Hk) as H2.
  destruct (shr_fexp prec emax m1 e' loc_Exact) as [mrs2 e2].
  destruct H2 as (Hpos2 & Hdig2 & Hcase).
  assert (He'max : e' = Z.max ex e1) by lia.
  pose proof (bpow_pos e') as HB.
  pose proof (bpow_pos e1) as HB1.
  pose proof (scale_bounds _ _ _ _ HB Hbnd) as [Hlo Hhi].
  pose proof (unscale x e') as Hx.
  assert (Hval : (inject_Z (shr_m mrs2) * bpow e2 == inject_Z m1 * bpow e')%Q).
  { destruct Hcase as [[-> ->] | (-> & <- & _)]; [reflexivity|].
    rewrite inject_Z_mult, bpow_succ. change (inject_Z 2) with 2%Q. ring. }
  assert (Hboth :
    (inject_Z m1 * bpow e' - bpow e1 * (1#2) <= x /\
     x <= inject_Z m1 * bpow e' + bpow e1 * (1#2))%Q /\
    (emax - prec < e2 -> 0 < shr_m mrs2 ->
     emax - prec < ex \/ (bpow emax <= inject_Z m1 * bpow e')%Q)).
  { destruct (Z.le_gt_cases ex e1) as [Hle|Hgt].
    - assert (E : e' = e1) by lia. split.
      + rewrite E in *. hide_inject. lra.
      + intros Hbig Hm2. right.
        assert (Hd53 : Zdigits2 (shr_m mrs') = 53).
        { rewrite Hdm'. subst e1. rewrite !fexp_eq in *. unfold emax, prec in *. lia. }
        assert (Hm'0 : 0 < shr_m mrs').
        { destruct (Z.eq_dec (shr_m mrs') 0) as [E0|]; [|lia].
          rewrite E0 in Hd53. discriminate. }
        destruct Hcase as [[Ee Em] | (Ee & Em & Ed)].
        * pose proof (Zdigits2_bounds _ Hm'0) as [Hlo' _]. rewrite Hd53 in Hlo'.
          eapply Qle_trans; [|apply (bpow_inject_le 52 m1 e'); lia].
          apply bpow_le. unfold emax, prec in *. lia.
        * pose proof (Zdigits2_bounds m1 ltac:(lia)) as [Hlo' _].
          rewrite Ed, Hd53 in Hlo'.
          eapply Qle_trans; [|apply (bpow_inject_le 53 m1 e'); lia].
          apply bpow_le. unfold emax, prec in *. lia.
    - destruct Hpre as [-> | Hpre]; [|lia].
      pose proof (Hsame ltac:(lia)) as Hs'. simpl in Hs'. subst mrs'.
      simpl in Hex. destruct (Hex eq_refl) as [Em Hy].
      assert (Hxe : (x == inject_Z m1 * bpow e')%Q).
      { rewrite <- Hx, Hy, Em. reflexivity. }
      split; [hide_inject; lra|].
      intros Hbig Hm2. left.
      destruct Hcase as [[Ee _] | (_ & _ & Ed)]; [lia|].
      simpl in Ed. rewrite Em in Ed. simpl in Ed. lia. }
  destruct Hboth as [Hnear Hinf].
  cbv beta iota.
  destruct (shr_m mrs2) as [|m|m] eqn:Em2.
  - split; [reflexivity|].
    change (inject_Z 0) with 0%Q in Hval. hide_inject. lra.
  - destruct (Z.leb_spec e2 (emax - prec)).
    + split; [reflexivity|]. split; [exact Hdig2|]. split; [assumption|].
      hide_inject. lra.
    + split; [reflexivity|].
      destruct (Hinf ltac:(lia) ltac:(lia)) as [Hl | Hr]; [now left | right].
      hide_inject. lra.
  - lia.
Qed.

(** ** Aligning mantissas *)

Lemma iter_xO_pow2 m d : Zpos (Pos.iter xO m d) = Zpos m * 2 ^ Zpos d.
Proof.
  induction d as [|d IH] using Pos.peano_ind.
  - simpl. lia.
  - rewrite Pos.iter_succ, Pos2Z.inj_xO, IH, Pos2Z.inj_succ, Z.pow_succ_r by lia. ring.
Qed.

Lemma Zdigits2_mul_pow2 m n : 0 < m -> 0 <= n -> Zdigits2 (m * 2 ^ n) = Zdigits2 m + n.
Proof.
  intros Hm Hn.
  pose proof (Zdigits2_bounds m Hm) as [Hlo Hhi].
  pose proof (Zdigits2_pos m Hm) as Hd.
  assert (Hp : 0 < 2 ^ n) by (apply Z.pow_pos_nonneg; lia).
  apply Zdigits2_unique; [nia|].
  replace (Zdigits2 m + n - 1) with (Zdigits2 m - 1 + n) by lia.
  rewrite !Z.pow_add_r by lia. nia.
Qed.

(** [shl_align] keeps the value and the position of the leading digit, and
    never raises the exponent. *)
Lemma shl_align_spec m e e' :
  let '(mz, ez) := shl_align m e e' in
  ez = Z.min e e' /\
  Zpos mz = Zpos m * 2 ^ (e - ez) /\
  Zdigits2 (Zpos mz) + ez = Zdigits2 (Zpos m) + e.
Proof.
  unfold shl_align. destruct (e' - e) as [|d|d] eqn:E.
  - rewrite Z.sub_diag. change (2 ^ 0) with 1. split; [lia|]. split; lia.
  - rewrite Z.sub_diag. change (2 ^ 0) with 1. split; [lia|]. split; lia.
  - assert (Ed : e - e' = Zpos d) by lia.
    split; [lia|]. rewrite Ed, iter_xO_pow2. split; [reflexivity|].
    rewrite Zdigits2_mul_pow2 by lia. lia.
Qed.

Lemma inject_bpow_shift m (a b : Z) :
  b <= a -> (inject_Z (m * 2 ^ (a - b)) * bpow b == inject_Z m * bpow a)%Q.
Proof.
  intros H. rewrite inject_Z_mult, bpow_inject by lia.
  rewrite <- Qmult_assoc, <- bpow_add. now replace (a - b + b) with a by lia.
Qed.

Lemma exact_inbetween m e : inbetween (inject_Z m * bpow e * bpow (- e)) m loc_Exact.
Proof. simpl. rewrite <- Qmult_assoc, bpow_opp_mul. ring. Qed.

(** ** The unit in the last place *)

Lemma bpow_m52 : (bpow (-52) == 1 # 4503599627370496)%Q.
Proof. reflexivity. Qed.

(** The rounding exponent of a positive value: relative to the value, or the
    smallest exponent. *)
Lemma fexp_relative mx ex x :
  0 < mx -> (inject_Z mx * bpow ex <= x)%Q ->
  (bpow (fexp prec emax (Zdigits2 mx + ex))
     <= x * (1 # 4503599627370496) + bpow (-1074))%Q.
Proof.
  intros Hm Hx.
  pose proof (Zdigits2_bounds mx Hm) as [Hd _].
  pose proof (Zdigits2_pos mx Hm) as Hp.
  pose proof (bpow_inject_le (Zdigits2 mx - 1) mx ex ltac:(lia) Hd) as H1.
  pose proof (bpow_pos (Zdigits2 mx - 1 + ex)) as H0.
  pose proof (bpow_pos (-1074)) as Ht.
  rewrite fexp_eq.
  destruct (Z.max_spec (Zdigits2 mx + ex - 53) (-1074)) as [[_ ->] | [_ ->]].
  - lra.
  - replace (Zdigits2 mx + ex - 53) with (Zdigits2 mx - 1 + ex + -52) by lia.
    rewrite bpow_add, bpow_m52.
    set (B := bpow (Zdigits2 mx - 1 + ex)) in *. hide_inject. lra.
Qed.

(** A value whose rounding exponent is above the range is at least
    [2^emax]. *)
Lemma fexp_above_range mx ex x :
  0 < mx -> (inject_Z mx * bpow ex <= x)%Q ->
  emax - prec < fexp prec emax (Zdigits2 mx + ex) ->
  (bpow emax <= x)%Q.
Proof.
  intros Hm Hx He.
  pose proof (Zdigits2_bounds mx Hm) as [Hd _].
  pose proof (Zdigits2_pos mx Hm) as Hp.
  pose proof (bpow_inject_le (Zdigits2 mx - 1) mx ex ltac:(lia) Hd) as H1.
  rewrite fexp_eq in He. unfold emax, prec in He.
  assert (H2 : (bpow emax <= bpow (Zdigits2 mx - 1 + ex))%Q).
  { apply bpow_le. unfold emax. lia. }
  lra.
Qed.

(** From the specification of [binary_round_aux] to [rounds]. *)
Lemma rounds_of_spec s mx ex lx x :
  0 < mx ->
  inbetween (x * bpow (- ex)) mx lx ->
  ex <= fexp prec emax (Zdigits2 mx + ex) \/ (lx = loc_Exact /\ ex <= emax - prec) ->
  rounds s x (binary_round_aux prec emax s mx ex lx).
Proof.
  intros Hm Hin Hpre.
  assert (Hlo : (inject_Z mx * bpow ex <= x)%Q).
  { pose proof (inbetween_bounds _ _ _ Hin) as [Hlo _].
    pose proof (scale_bounds _ _ _ _ (bpow_pos ex) (conj Hlo (Qle_refl _))) as [Hs _].
    rewrite (unscale x ex) in Hs. exact Hs. }
  exists (fexp prec emax (Zdigits2 mx + ex)). split.
  - pose proof (binary_round_aux_spec s mx ex lx x ltac:(lia) Hin) as H.
    cbv zeta in H.
    assert (Hp : lx = loc_Exact \/ ex <= fexp prec emax (Zdigits2 mx + ex)).
    { destruct Hpre as [H1 | [H1 _]]; auto. }
    specialize (H Hp).
    destruct (binary_round_aux prec emax s mx ex lx); unfold rounded; auto.
    destruct H as [E [Hbig | Hbig]]; split; try exact E; try exact Hbig.
    pose proof (bpow_pos (fexp prec emax (Zdigits2 mx + ex))) as HB.
    destruct Hpre as [H1 | [_ H1]]; [|lia].
    pose proof (fexp_above_range mx ex x Hm Hlo ltac:(lia)). lra.
  - now apply fexp_relative.
Qed.

(** ** The arithmetic operations on finite floats *)

Lemma binary_round_rounds s m e :
  rounds s (inject_Z (Zpos m) * bpow e) (binary_round prec emax s m e).
Proof.
  set (e1 := fexp prec emax (Zdigits2 (Zpos m) + e)).
  change (binary_round prec emax s m e)
    with (let '(mz, ez) := shl_align m e e1 in
          binary_round_aux prec emax s (Zpos mz) ez loc_Exact).
  pose proof (shl_align_spec m e e1) as Ha.
  destruct (shl_align m e e1) as [mz ez]. destruct Ha as (Hez & Hmz & Hdig).
  cbv beta iota.
  assert (Hx : (inject_Z (Zpos m) * bpow e == inject_Z (Zpos mz) * bpow ez)%Q).
  { rewrite Hmz. symmetry. apply inject_bpow_shift. lia. }
  apply rounds_of_spec; [lia | |].
  - eapply inbetween_compat; [|apply (exact_inbetween (Zpos mz) ez)].
    rewrite Hx. reflexivity.
  - left. rewrite Hdig. fold e1. lia.
Qed.

(** The product of two finite floats. *)
Lemma float_mul_rounds sx mx ex sy my ey :
  ex + ey <= emax - prec ->
  rounds (xorb sx sy) (inject_Z (Zpos mx) * bpow ex * (inject_Z (Zpos my) * bpow ey))
    (float_mul (S754_finite sx mx ex) (S754_finite sy my ey)).
Proof.
  intros He. unfold float_mul, SFmul.
  apply rounds_of_spec; [lia | | right; auto].
  eapply inbetween_compat; [|apply (exact_inbetween (Zpos (mx * my)) (ex + ey))].
  rewrite Pos2Z.inj_mul, inject_Z_mult, bpow_add. ring.
Qed.

(** The difference of two finite positive floats, the smaller taken from
    the larger. *)
Lemma float_sub_rounds mt et mc ec :
  let T := (inject_Z (Zpos mt) * bpow et)%Q in
  let C := (inject_Z (Zpos mc) * bpow ec)%Q in
  (C <= T)%Q ->
  rounds false (T - C) (float_sub (S754_finite false mt et) (S754_finite false mc ec)).
Proof.
  intros T C Hle. unfold float_sub, SFsub. cbv zeta.
  set (ez := Z.min et ec).
  pose proof (shl_align_spec mt et ez) as Ha.
  pose proof (shl_align_spec mc ec ez) as Hb.
  destruct (shl_align mt et ez) as [a ea]. destruct (shl_align mc ec ez) as [b eb].
  destruct Ha as (Hea & Hma & _). destruct Hb as (Heb & Hmb & _).
  assert (Eea : ea = ez) by (subst ez; lia).
  assert (Eeb : eb = ez) by (subst ez; lia).
  rewrite Eea in Hma. rewrite Eeb in Hmb.
  assert (HT : (T == inject_Z (Zpos a) * bpow ez)%Q).
  { unfold T. rewrite Hma. symmetry. apply inject_bpow_shift. subst ez. lia. }
  assert (HC : (C == inject_Z (Zpos b) * bpow ez)%Q).
  { unfold C. rewrite Hmb. symmetry. apply inject_bpow_shift. subst ez. lia. }
  simpl fst. change (cond_Zopp false (Zpos a)) with (Zpos a).
  change (cond_Zopp false (Zpos b)) with (Zpos b).
  assert (HD : (T - C == inject_Z (Zpos a - Zpos b) * bpow ez)%Q).
  { unfold Z.sub. rewrite inject_Z_plus, inject_Z_opp, HT, HC. ring. }
  pose proof (bpow_pos ez) as HB.
  assert (Hab : Zpos b <= Zpos a).
  { destruct (Z.le_gt_cases (Zpos b) (Zpos a)) as [|Hgt]; [assumption|].
    exfalso. apply inject_Z_lt in Hgt.
    assert ((inject_Z (Zpos a) * bpow ez < inject_Z (Zpos b) * bpow ez)%Q).
    { apply Qmult_lt_compat_r; assumption. }
    lra. }
  destruct (Zpos a - Zpos b) as [|d|d] eqn:Ed.
  - simpl binary_normalize. exists (-1074). change (inject_Z 0) with 0%Q in HD.
    pose proof (bpow_pos (-1074)). unfold rounded. split; [split; [reflexivity|]|]; lra.
  - simpl binary_normalize.
    destruct (binary_round_rounds false d ez) as (e1 & Hr & He1).
    exists e1. split; [|lra].
    destruct (binary_round prec emax false d ez) as [s|s| |s m' e']; unfold rounded in *.
    + destruct Hr as [E Hr]. split; [exact E | lra].
    + destruct Hr as [E Hr]. split; [exact E | lra].
    + exact Hr.
    + destruct Hr as (E & Hdg & He & Hr). repeat split; try assumption; lra.
  - lia.
Qed.
(** ** Rounding to two decimal places *)

Lemma round_half_even_spec n d :
  0 <= n ->
  let q := round_half_even n d in
  0 <= q /\ 2 * (q * Zpos d) - Zpos d <= 2 * n <= 2 * (q * Zpos d) + Zpos d.
Proof.
  intros Hn. unfold round_half_even.
  pose proof (Z.div_mod n (Zpos d) ltac:(lia)) as E.
  pose proof (Z.mod_pos_bound n (Zpos d) ltac:(lia)) as Hr.
  assert (Hq : 0 <= n / Zpos d) by (apply Z.div_pos; lia).
  set (k := n / Zpos d) in *. set (r := n mod Zpos d) in *.
  destruct (Z.compare_spec (2 * r) (Zpos d)) as [Hc|Hc|Hc].
  - destruct (Z.even k); split; nia.
  - split; nia.
  - split; nia.
Qed.

Lemma cancel_scale (a B Bi : Q) : (B * Bi == 1)%Q -> (a * B * Bi == a)%Q.
Proof. intros H. rewrite <- Qmult_assoc, H. ring. Qed.

(** [hundredths m e] is within one half of a hundred times [m * 2^e]. *)
Lemma hundredths_spec m e :
  let q := hundredths m e in
  0 <= q /\
  (inject_Z q - (1#2) <= 100 * (inject_Z (Zpos m) * bpow e) /\
   100 * (inject_Z (Zpos m) * bpow e) <= inject_Z q + (1#2))%Q.
Proof.
  destruct e as [|p|p]; simpl hundredths.
  - split; [lia|]. change (2 ^ 0) with 1.
    rewrite !inject_Z_mult, bpow_0. change (inject_Z 100) with 100%Q.
    change (inject_Z 1) with 1%Q. hide_inject. lra.
  - split; [lia|].
    rewrite !inject_Z_mult, bpow_inject by lia. change (inject_Z 100) with 100%Q.
    set (B := bpow (Zpos p)). hide_inject. lra.
  - pose proof (round_half_even_spec (100 * Zpos m) (2 ^ p)%positive ltac:(lia))
      as [Hq [Hlo Hhi]].
    set (q := round_half_even (100 * Zpos m) (2 ^ p)%positive) in *.
    split; [exact Hq|].
    rewrite Pos2Z.inj_pow in Hlo, Hhi.
    apply inject_Z_le in Hlo. apply inject_Z_le in Hhi.
    unfold Z.sub in Hlo.
    rewrite ?inject_Z_plus, ?inject_Z_opp, ?inject_Z_mult in Hlo.
    rewrite ?inject_Z_plus, ?inject_Z_opp, ?inject_Z_mult in Hhi.
    rewrite !bpow_inject in Hlo by lia. rewrite !bpow_inject in Hhi by lia.
    change (inject_Z 2) with 2%Q in *. change (inject_Z 100) with 100%Q in *.
    pose proof (bpow_opp_mul (Zpos p)) as HB. change (- Zpos p) with (Zneg p) in HB.
    pose proof (bpow_pos (Zneg p)) as HBi.
    generalize dependent (bpow (Zpos p)). intros B Hlo Hhi HB.
    generalize dependent (bpow (Zneg p)). intros Bi HBi HB.
    generalize dependent (inject_Z (Zpos m)). intros M Hlo Hhi.
    generalize dependent (inject_Z q). intros Q0 Hlo Hhi.
    assert (H1 : ((2 * Q0 - 1) * B * Bi <= 2 * (100 * M) * Bi)%Q).
    { apply Qmult_le_compat_r; lra. }
    assert (H2 : (2 * (100 * M) * Bi <= (2 * Q0 + 1) * B * Bi)%Q).
    { apply Qmult_le_compat_r; lra. }
    pose proof (cancel_scale (2 * Q0 - 1) B Bi HB) as C1.
    pose proof (cancel_scale (2 * Q0 + 1) B Bi HB) as C2.
    lra.
Qed.

(** The quotient and location that [SFdiv] computes for [q / 100]. *)
Lemma div_core_100 q :
  let e' := Z.min (fexp prec emax (Zdigits2 (Zpos q) - 7)) 0 in
  let m' := Zpos q * 2 ^ (- e') in
  SFdiv_core_binary prec emax (Zpos q) 0 100 0 =
    (m' / 100, e', new_location 100 (m' mod 100)).
Proof.
  intros e' m'. unfold SFdiv_core_binary.
  change (Zdigits2 100) with 7.
  replace (Zdigits2 (Zpos q) + 0 - (7 + 0)) with (Zdigits2 (Zpos q) - 7) by lia.
  change (0 - 0) with 0. fold e'.
  assert (He : e' <= 0) by (subst e'; lia).
  assert (Hm : match 0 - e' with
               | 0 => Zpos q
               | Zpos _ => Z.shiftl (Zpos q) (0 - e')
               | Zneg _ => 0
               end = m').
  { subst m'. replace (0 - e') with (- e') by lia.
    destruct (- e') as [|p|p] eqn:E.
    - change (2 ^ 0) with 1. lia.
    - rewrite Z.shiftl_mul_pow2 by lia. reflexivity.
    - lia. }
  rewrite Hm. unfold Z.div, Z.modulo.
  destruct (Z.div_eucl m' 100) as [a b]. reflexivity.
Qed.

(** Dividing a whole number of hundredths by 100. *)
Lemma div100_rounds s q :
  rounds s (inject_Z (Zpos q) * (1#100))
    (float_div (S754_finite s q 0) (S754_finite false 100 0)).
Proof.
  set (x := (inject_Z (Zpos q) * (1#100))%Q).
  unfold float_div, SFdiv. rewrite div_core_100. cbv zeta. rewrite xorb_false_r.
  set (e' := Z.min (fexp prec emax (Zdigits2 (Zpos q) - 7)) 0).
  set (m' := Zpos q * 2 ^ (- e')).
  assert (He : e' <= 0) by (subst e'; lia).
  assert (Hp : 0 < 2 ^ (- e')) by (apply Z.pow_pos_nonneg; lia).
  assert (Hm'pos : 0 < m') by (subst m'; lia).
  pose proof (Z.div_mod m' 100 ltac:(lia)) as Ediv.
  pose proof (Z.mod_pos_bound m' 100 ltac:(lia)) as Hr.
  assert (Hdm : Zdigits2 m' = Zdigits2 (Zpos q) - e').
  { subst m'. rewrite Zdigits2_mul_pow2 by lia. lia. }
  pose proof (Zdigits2_pos (Zpos q) ltac:(lia)) as Hdq.
  assert (Hd60 : 60 <= Zdigits2 m').
  { rewrite Hdm. subst e'. rewrite fexp_eq. lia. }
  assert (Hm59 : 2 ^ 59 <= m').
  { pose proof (Zdigits2_bounds m' Hm'pos) as [Hlo _].
    eapply Z.le_trans; [|exact Hlo]. apply Z.pow_le_mono_r; lia. }
  set (mq := m' / 100) in *. set (r := m' mod 100) in *.
  assert (Hmq : 0 < mq).
  { subst mq. apply Z.div_str_pos. change (2 ^ 59) with 576460752303423488 in Hm59. lia. }
  assert (Hdig : Zdigits2 m' - 7 <= Zdigits2 mq).
  { assert (H7 : m' / 2 ^ 7 <= mq).
    { subst mq. apply Z.div_le_compat_l; [lia|]. change (2 ^ 7) with 128. lia. }
    pose proof (Zdigits2_le (m' / 2 ^ 7) mq
                  (conj (Z.div_pos m' (2 ^ 7) ltac:(lia) ltac:(reflexivity)) H7)) as Hle.
    rewrite Zdigits2_div_pow2 in Hle by lia. lia. }
  assert (Hpre : e' <= fexp prec emax (Zdigits2 mq + e')).
  { subst e'. rewrite !fexp_eq in *. lia. }
  assert (Hy : (x * bpow (- e') == inject_Z mq + inject_Z r * (1#100))%Q).
  { unfold x. rewrite <- bpow_inject by lia.
    rewrite <- Qmult_assoc, (Qmult_comm (1#100)), Qmult_assoc, <- inject_Z_mult.
    fold m'. rewrite Ediv at 1. rewrite inject_Z_plus, inject_Z_mult.
    change (inject_Z 100) with 100%Q. ring. }
  apply rounds_of_spec; [exact Hmq | | now left].
  unfold new_location. change (Z.even 100) with true. cbv iota.
  unfold new_location_even.
  destruct (Z.eqb_spec r 0) as [E0|N0].
  - simpl. rewrite Hy, E0. change (inject_Z 0) with 0%Q. ring.
  - assert (H0 : (0 < inject_Z r)%Q).
    { change 0%Q with (inject_Z 0). apply inject_Z_lt. lia. }
    destruct (Z.compare_spec (2 * r) 100) as [Hc|Hc|Hc]; simpl.
    + assert (E50 : r = 50) by lia. rewrite Hy, E50.
      change (inject_Z 50) with 50%Q. ring.
    + assert (H50 : (inject_Z r < 50)%Q).
      { change 50%Q with (inject_Z 50). apply inject_Z_lt. lia. }
      hide_inject. lra.
    + assert (H50 : (50 < inject_Z r)%Q).
      { change 50%Q with (inject_Z 50). apply inject_Z_lt. lia. }
      assert (H100 : (inject_Z r < 100)%Q).
      { change 100%Q with (inject_Z 100). apply inject_Z_lt. lia. }
      hide_inject. lra.
Qed.

(** ** Non-negative results *)

(** A rounding of a non-negative value that stays below [2^emax] is finite,
    non-negative, fits the format and is close to the value. *)
Lemma rounds_nonneg x r :
  rounds false x r -> (0 <= x)%Q ->
  (x + (x * (1 # 4503599627370496) + bpow (-1074)) * (1#2) < bpow emax)%Q ->
  finite_nonneg r = true /\ in_range r /\
  (float_value r - (x * (1 # 4503599627370496) + bpow (-1074)) * (1#2) <= x /\
   x <= float_value r + (x * (1 # 4503599627370496) + bpow (-1074)) * (1#2))%Q.
Proof.
  intros (e1 & Hr & He1) Hx Hbig. pose proof (bpow_pos e1) as HB.
  destruct r as [s|s| |s m e]; unfold rounded in Hr;
    cbn [finite_nonneg in_range float_value].
  - destruct Hr as [-> Hr]. repeat split; lra.
  - destruct Hr as [_ Hr]. lra.
  - contradiction.
  - destruct Hr as (-> & Hd & Hle & Hr). repeat split; try assumption; lra.
Qed.

Lemma finite_nonneg_cases r :
  finite_nonneg r = true ->
  (exists s, r = S754_zero s) \/ (exists m e, r = S754_finite false m e).
Proof.
  destruct r as [s|s| |[] m e]; simpl; try discriminate; eauto.
Qed.

Lemma finite_nonneg_value r : finite_nonneg r = true -> (0 <= float_value r)%Q.
Proof.
  intros H. destruct (finite_nonneg_cases r H) as [[s ->] | (m & e & ->)]; simpl.
  - lra.
  - apply Qmult_le_0_compat; [|apply Qlt_le_weak, bpow_pos].
    change 0%Q with (inject_Z 0). apply inject_Z_le. lia.
Qed.

Lemma finite_nonneg_float_nonneg r :
  finite_nonneg r = true -> float_nonneg r = true /\ is_finite r = true.
Proof. destruct r as [s|s| |[] m e]; simpl; try discriminate; auto. Qed.

(** A finite float is at most the largest one, [2^emax - 2^(emax - prec)]. *)
Lemma in_range_value r :
  in_range r -> (float_value r <= bpow emax - bpow (emax - prec))%Q.
Proof.
  pose proof (bpow_pos (emax - prec)) as HG.
  assert (HH : (bpow emax == 9007199254740992 * bpow (emax - prec))%Q).
  { change emax with (53 + (emax - prec)). rewrite bpow_add.
    change (53 + (emax - prec) - prec) with (emax - prec). reflexivity. }
  destruct r as [s|s| |s m e]; cbn [in_range float_value]; try lra.
  intros [Hd He].
  assert (Hm : Zpos m <= 2 ^ 53 - 1).
  { pose proof (Zdigits2_bounds (Zpos m) ltac:(lia)) as [_ Hhi].
    assert (2 ^ Zdigits2 (Zpos m) <= 2 ^ 53) by (apply Z.pow_le_mono_r; unfold prec in *; lia).
    lia. }
  apply inject_Z_le in Hm. change (inject_Z (2 ^ 53 - 1)) with 9007199254740991%Q in Hm.
  pose proof (bpow_le _ _ He) as HB. pose proof (bpow_pos e) as HB0.
  assert (H0 : (0 <= inject_Z (Zpos m))%Q).
  { change 0%Q with (inject_Z 0). apply inject_Z_le. lia. }
  assert (H1 : (inject_Z (Zpos m) * bpow e <= 9007199254740991 * bpow (emax - prec))%Q).
  { apply Qmult_le_compat_nonneg; split; try assumption. lra. }
  destruct s.
  - assert (H2 : (0 <= inject_Z (Zpos m) * bpow e)%Q).
    { apply Qmult_le_0_compat; lra. }
    lra.
  - lra.
Qed.

Lemma valid_in_range x : valid_binary prec emax x = true -> in_range x.
Proof.
  destruct x as [s|s| |s m e]; cbn [valid_binary in_range]; auto.
  unfold bounded, canonical_mantissa. intros H.
  apply andb_true_iff in H as [H1 H2].
  apply Z.eqb_eq in H1. apply Z.leb_le in H2.
  rewrite fexp_eq in H1. change (Zdigits2 (Zpos m)) with (Zpos (digits2_pos m)).
  unfold prec in *. lia.
Qed.

(** [round(x, 2)] of a finite non-negative float: a whole number [q] of
    hundredths within one half of a hundred times the argument, exactly so
    for arguments from [2^53] on, and then the rounding of [q / 100]. *)
Lemma py_round2_spec d :
  finite_nonneg d = true -> in_range d ->
  exists q,
    0 <= q /\
    (inject_Z q - (1#2) <= 100 * float_value d /\
     100 * float_value d <= inject_Z q + (1#2))%Q /\
    ((float_value d < 9007199254740992)%Q \/ (inject_Z q == 100 * float_value d)%Q) /\
    (q = 0 -> exists s, py_round2 d = S754_zero s) /\
    (0 < q -> rounds false (inject_Z q * (1#100)) (py_round2 d)).
Proof.
  intros Hd Hr.
  destruct (finite_nonneg_cases d Hd) as [[s ->] | (m & e & ->)].
  - exists 0. simpl. change (inject_Z 0) with 0%Q.
    repeat split; try lia; try lra; eauto.
  - pose proof (hundredths_spec m e) as (Hq & Hlo & Hhi).
    exists (hundredths m e). cbn [float_value in_range] in *.
    split; [exact Hq|]. split; [split; assumption|]. split.
    + destruct Hr as [Hdig _].
      destruct e as [|p|p].
      * right. simpl hundredths. change (2 ^ 0) with 1.
        rewrite !inject_Z_mult, bpow_0. change (inject_Z 100) with 100%Q.
        change (inject_Z 1) with 1%Q. ring.
      * right. simpl hundredths.
        rewrite !inject_Z_mult, bpow_inject by lia. change (inject_Z 100) with 100%Q. ring.
      * left.
        assert (Hm : Zpos m < 2 ^ 53).
        { pose proof (Zdigits2_bounds (Zpos m) ltac:(lia)) as [_ Hhi'].
          assert (2 ^ Zdigits2 (Zpos m) <= 2 ^ 53)
            by (apply Z.pow_le_mono_r; unfold prec in *; lia).
          lia. }
        apply inject_Z_lt in Hm. change (inject_Z (2 ^ 53)) with 9007199254740992%Q in Hm.
        pose proof (bpow_le (Zneg p) 0 ltac:(lia)) as HB. rewrite bpow_0 in HB.
        pose proof (bpow_pos (Zneg p)) as HB0.
        assert (H0 : (0 <= inject_Z (Zpos m))%Q).
        { change 0%Q with (inject_Z 0). apply inject_Z_le. lia. }
        assert (H1 : (inject_Z (Zpos m) * bpow (Zneg p) <= inject_Z (Zpos m) * 1)%Q).
        { apply Qmult_le_compat_nonneg; split; try lra. }
        lra.
    + unfold py_round2. destruct (hundredths m e) as [|q|q] eqn:Eq.
      * split; [eauto | lia].
      * split; [discriminate|]. intros _. apply div100_rounds.
      * lia.
Qed.

(** ** Sums of non-negative floats *)

Lemma float_nonneg_cases x :
  float_nonneg x = true ->
  (exists s, x = S754_zero s) \/ x = S754_infinity false \/
  (exists m e, x = S754_finite false m e).
Proof.
  destruct x as [s|[]| |[] m e]; simpl; try discriminate; eauto.
Qed.

Lemma binary_round_nonneg m e :
  let r := binary_round prec emax false m e in
  float_nonneg r = true /\ in_range r.
Proof.
  destruct (binary_round_rounds false m e) as (e1 & H & _). cbv zeta.
  destruct (binary_round prec emax false m e) as [s|s| |s m' e']; unfold rounded in H;
    simpl.
  - auto.
  - destruct H as [-> _]. auto.
  - contradiction.
  - destruct H as (-> & Hd & He & _). auto.
Qed.

(** The sum of two non-negative doubles is non-negative, possibly infinite,
    and never NaN. *)
Lemma float_add_nonneg p f :
  float_nonneg p = true -> float_nonneg f = true ->
  in_range p -> in_range f ->
  float_nonneg (float_add p f) = true /\ in_range (float_add p f).
Proof.
  intros Hp Hf Ep Ef.
  destruct (float_nonneg_cases p Hp) as [[sp ->] | [-> | (mp & ep & ->)]];
    destruct (float_nonneg_cases f Hf) as [[sf ->] | [-> | (mf & ef & ->)]];
    try (simpl; auto; fail).
  - destruct sp, sf; simpl; auto.
  - unfold float_add, SFadd. cbv zeta.
    set (a := fst (shl_align mp ep (Z.min ep ef))).
    set (b := fst (shl_align mf ef (Z.min ep ef))).
    change (cond_Zopp false (Zpos a) + cond_Zopp false (Zpos b)) with (Zpos (a + b)).
    apply binary_round_nonneg.
Qed.

(** ** The three amounts of a booking *)

Lemma bpow_m56 : (bpow (-56) == 1 # 72057594037927936)%Q.
Proof. reflexivity. Qed.

Lemma bpow_m1074_small :
  (0 < bpow (-1074) /\ bpow (-1074) <= 1 # 1180591620717411303424)%Q.
Proof.
  split; [apply bpow_pos|].
  assert (E : (bpow (-70) == 1 # 1180591620717411303424)%Q) by reflexivity.
  rewrite <- E. apply bpow_le. lia.
Qed.

Lemma bpow_emax_large :
  (bpow emax == 9007199254740992 * bpow (emax - prec) /\ 2 <= bpow (emax - prec))%Q.
Proof.
  split.
  - change emax with (53 + (emax - prec)) at 1. rewrite bpow_add. reflexivity.
  - rewrite <- bpow_1. apply bpow_le. unfold emax, prec. lia.
Qed.

(** For a non-negative price and fee whose float sum is finite, the total,
    the commission and the net amount are finite and non-negative, and
    commission plus net differs from the total by at most half a cent and the
    rounding of two float operations. *)
Lemma pricing_sound p f :
  float_nonneg p = true -> float_nonneg f = true ->
  valid_binary prec emax p = true -> valid_binary prec emax f = true ->
  let total := float_add p f in
  let com := py_round2 (float_mul total commission_rate) in
  let net := py_round2 (float_sub total com) in
  is_finite total = true ->
  float_nonneg total = true /\
  finite_nonneg com = true /\
  finite_nonneg net = true /\
  (Qabs (float_value com + float_value net - float_value total)
     <= (1#200) + float_value total * (1 # 2251799813685248)
        + (1 # 1152921504606846976))%Q.
Proof.
  intros Hp Hf Vp Vf total com net Hfin.
  destruct (float_add_nonneg p f Hp Hf (valid_in_range p Vp) (valid_in_range f Vf))
    as [Hnn Hrg].
  fold total in Hnn, Hrg. split; [exact Hnn|].
  destruct (float_nonneg_cases total Hnn) as [[s Et] | [Et | (mt & et & Et)]].
  - (* the total is zero *)
    assert (Ec : com = S754_zero s).
    { unfold com. rewrite Et. simpl. now rewrite xorb_false_r. }
    assert (En : net = S754_zero false).
    { unfold net. rewrite Ec, Et. destruct s; reflexivity. }
    rewrite Ec, En, Et. cbn [finite_nonneg float_value]. repeat split. discriminate.
  - rewrite Et in Hfin. discriminate.
  - (* the total is positive *)
    pose proof (in_range_value total Hrg) as HTmax.
    rewrite Et in HTmax, Hrg. cbn [float_value in_range] in HTmax, Hrg.
    destruct Hrg as [_ Het].
    set (T := (inject_Z (Zpos mt) * bpow et)%Q) in *.
    assert (HT0 : (0 < T)%Q).
    { apply Qmult_lt_0_compat; [|apply bpow_pos].
      change 0%Q with (inject_Z 0). apply inject_Z_lt. lia. }
    destruct bpow_m1074_small as [Ht0 Ht1].
    destruct bpow_emax_large as [HH HG].
    (* the product *)
    assert (HP : rounds false (T * (7205759403792794 * (1 # 72057594037927936)))
                   (float_mul total commission_rate)).
    { rewrite Et. unfold commission_rate.
      pose proof (float_mul_rounds false mt et false 7205759403792794 (-56)) as H.
      fold T in H. change (xorb false false) with false in H.
      destruct H as (e1 & H1 & H2); [unfold emax, prec in *; lia|].
      change (inject_Z 7205759403792794) with 7205759403792794%Q in H1, H2.
      rewrite bpow_m56 in H2. exists e1. split; [|exact H2].
      destruct (float_mul (S754_finite false mt et) (S754_finite false 7205759403792794 (-56)))
        as [s0|s0| |s0 m0 e0]; unfold rounded in *.
      - destruct H1 as [E H1]. rewrite bpow_m56 in H1. auto.
      - destruct H1 as [E H1]. rewrite bpow_m56 in H1. auto.
      - exact H1.
      - destruct H1 as (E & Hd & He & H1). rewrite bpow_m56 in H1. auto. }
    set (P := float_mul total commission_rate) in *.
    destruct (rounds_nonneg _ _ HP) as (HPf & HPr & HPn); [lra | lra |].
    pose proof (finite_nonneg_value P HPf) as HP0.
    (* the commission *)
    destruct (py_round2_spec P HPf HPr) as (qc & Hqc & Hqcn & _ & Hqc0 & Hqcr).
    fold com in Hqc0, Hqcr.
    assert (Hcom : finite_nonneg com = true /\ in_range com /\
                   (0 <= float_value com)%Q /\ (float_value com <= T)%Q /\
                   ((exists sc, com = S754_zero sc) \/
                    (exists mc ec, com = S754_finite false mc ec))).
    { destruct (Z.eq_dec qc 0) as [E0|N0].
      - destruct (Hqc0 E0) as [sc Ec]. rewrite Ec. cbn [finite_nonneg in_range float_value].
        repeat split; try lra. eauto.
      - assert (Hq1 : 1 <= qc) by lia.
        apply inject_Z_le in Hq1. change (inject_Z 1) with 1%Q in Hq1.
        destruct (rounds_nonneg _ _ (Hqcr ltac:(lia))) as (Hcf & Hcr & Hcn); [lra | lra |].
        pose proof (finite_nonneg_value com Hcf) as HC0.
        split; [exact Hcf|]. split; [exact Hcr|]. split; [exact HC0|].
        split; [lra|].
        destruct (finite_nonneg_cases com Hcf) as [[sc Ec] | (mc & ec & Ec)]; eauto. }
    destruct Hcom as (Hcf & Hcr & HC0 & HCT & Hcases).
    split; [exact Hcf|].
    (* the difference *)
    assert (Hd : exists d, float_sub total com = d /\ finite_nonneg d = true /\
                   in_range d /\
                   (float_value d
                      - ((T - float_value com) * (1 # 4503599627370496) + bpow (-1074)) * (1#2)
                      <= T - float_value com /\
                    T - float_value com
                      <= float_value d
                         + ((T - float_value com) * (1 # 4503599627370496) + bpow (-1074))
                           * (1#2))%Q).
    { destruct Hcases as [[sc Ec] | (mc & ec & Ec)].
      - exists total. rewrite Ec, Et.
        unfold float_sub, SFsub. cbn [finite_nonneg float_value in_range]. fold T.
        split; [reflexivity|]. split; [reflexivity|].
        split; [unfold emax, prec in *|]; [|lra].
        pose proof (valid_in_range p Vp). pose proof (valid_in_range f Vf).
        pose proof (float_add_nonneg p f Hp Hf ltac:(assumption) ltac:(assumption)) as [_ Hr].
        fold total in Hr. rewrite Et in Hr. exact Hr.
      - pose proof (float_sub_rounds mt et mc ec) as Hs. cbv zeta in Hs.
        rewrite Ec in HCT, HC0. cbn [float_value] in HCT, HC0. fold T in Hs.
        specialize (Hs HCT).
        destruct (rounds_nonneg _ _ Hs) as (Hdf & Hdr & Hdn); [lra | lra |].
        eexists. rewrite Ec, Et. split; [reflexivity|]. split; [exact Hdf|].
        split; [exact Hdr|]. cbn [float_value]. fold T. exact Hdn. }
    destruct Hd as (d & Ed & Hdf & Hdr & Hdn).
    pose proof (finite_nonneg_value d Hdf) as Hd0.
    pose proof (in_range_value d Hdr) as Hdmax.
    (* the net amount *)
    destruct (py_round2_spec d Hdf Hdr) as (qn & Hqn & Hqnn & Hqnx & Hqn0 & Hqnr).
    unfold net. rewrite Ed.
    assert (Hnet : finite_nonneg (py_round2 d) = true /\
                   (float_value (py_round2 d)
                      - (inject_Z qn * (1#100) * (1 # 4503599627370496) + bpow (-1074)) * (1#2)
                      <= inject_Z qn * (1#100) /\
                    inject_Z qn * (1#100)
                      <= float_value (py_round2 d)
                         + (inject_Z qn * (1#100) * (1 # 4503599627370496) + bpow (-1074))
                           * (1#2))%Q).
    { destruct (Z.eq_dec qn 0) as [E0|N0].
      - destruct (Hqn0 E0) as [sn En]. rewrite En, E0. cbn [finite_nonneg float_value].
        change (inject_Z 0) with 0%Q. split; [reflexivity | lra].
      - assert (Hq1 : 1 <= qn) by lia.
        apply inject_Z_le in Hq1. change (inject_Z 1) with 1%Q in Hq1.
        destruct (rounds_nonneg _ _ (Hqnr ltac:(lia))) as (Hnf & _ & Hnn'); [lra | |].
        + destruct Hqnx as [Hsmall | Hexact]; lra.
        + auto. }
    destruct Hnet as [Hnf Hnn'].
    split; [exact Hnf|].
    rewrite Et. cbn [float_value]. fold T.
    assert (Hq0 : (0 <= inject_Z qn)%Q).
    { change 0%Q with (inject_Z 0). now apply inject_Z_le. }
    apply Qabs_Qle_condition. hide_inject. lra.
Qed.

(** Up to a total of 10^12 the drift is below one cent. *)
Lemma drift_below_cent (T x : Q) :
  (0 <= T)%Q -> (T <= 1000000000000)%Q ->
  (Qabs x <= (1#200) + T * (1 # 2251799813685248) + (1 # 1152921504606846976))%Q ->
  (Qabs x < 1#100)%Q.
Proof. intros H0 H1 H2. lra. Qed.

(** ** Facts about values and the search loop *)

Lemma dict_lookup_nonempty (d : document) k v :
  dict_lookup d k = Some v -> truthy (VDict d) = true.
Proof. destruct d; [discriminate | reflexivity]. Qed.

Lemma eq_str_name (s : document) (n : string) :
  eq_str (dict_get s "name" VNone) n = true <-> dict_lookup s "name" = Some (VStr n).
Proof.
  unfold dict_get.
  destruct (dict_lookup s "name") as [[]|]; simpl; split;
    try discriminate; try congruence.
  - intros H. apply String.eqb_eq in H. congruence.
  - intros H. injection H as ->. apply String.eqb_refl.
Qed.

Lemma bytes_eqb_eq a b : bytes_eqb a b = true <-> a = b.
Proof.
  revert b. induction a as [|x a IH]; intros [|y b]; simpl; split;
    try discriminate; try reflexivity.
  - intros H. apply andb_true_iff in H as [Hx Hab].
    apply Byte.byte_dec_bl in Hx. apply IH in Hab. congruence.
  - intros H. injection H as -> ->. apply andb_true_iff. split.
    + apply Byte.byte_dec_lb. reflexivity.
    + apply IH. reflexivity.
Qed.

Lemma id_is_spec o d : id_is o d = true <-> dict_lookup d "_id" = Some (VObjectId o).
Proof.
  unfold id_is. destruct (dict_lookup d "_id") as [[]|]; split;
    try discriminate; try congruence.
  - intros H. apply bytes_eqb_eq in H. congruence.
  - intros H. injection H as ->. apply bytes_eqb_eq. reflexivity.
Qed.

(** The loop returns either [None] or one of the items, a dict whose name
    is the requested one. *)
Lemma find_service_found items n v :
  find_service items n = Ok v ->
  v = VNone \/ exists s, v = VDict s /\ dict_lookup s "name" = Some (VStr n) /\ In v items.
Proof.
  induction items as [|x items IH]; simpl.
  - intros H. injection H as <-. now left.
  - destruct x; simpl; try discriminate.
    destruct (eq_str (dict_get d "name" VNone) n) eqn:E.
    + intros H. injection H as <-. right. exists d.
      split; [reflexivity|]. split; [now apply eq_str_name | now left].
    + intros H. destruct (IH H) as [-> | (s & -> & Hn & Hin)]; [now left|].
      right. exists s. repeat split; auto.
Qed.

Lemma find_service_truthy items n s :
  find_service items n = Ok (VDict s) -> truthy (VDict s) = true.
Proof.
  intros H. destruct (find_service_found _ _ _ H) as [? | (s' & E & Hn & _)];
    [discriminate|].
  injection E as ->. eapply dict_lookup_nonempty; eauto.
Qed.

(** On a list of dicts the loop is a first-match search. *)
Lemma find_service_first pre s post n :
  (forall x, In x pre -> dict_lookup x "name" <> Some (VStr n)) ->
  dict_lookup s "name" = Some (VStr n) ->
  find_service (map VDict (pre ++ s :: post)) n = Ok (VDict s).
Proof.
  intros Hpre Hs. induction pre as [|x pre IH]; simpl.
  - apply eq_str_name in Hs. now rewrite Hs.
  - destruct (eq_str (dict_get x "name" VNone) n) eqn:E.
    + apply eq_str_name in E. exfalso. apply (Hpre x); [now left | exact E].
    + apply IH. intros y Hy. apply Hpre. now right.
Qed.

Lemma find_service_none entries n :
  (forall x, In x entries -> dict_lookup x "name" <> Some (VStr n)) ->
  find_service (map VDict entries) n = Ok VNone.
Proof.
  induction entries as [|x entries IH]; simpl; intros H; [reflexivity|].
  destruct (eq_str (dict_get x "name" VNone) n) eqn:E.
  - apply eq_str_name in E. exfalso. apply (H x); [now left | exact E].
  - apply IH. intros y Hy. apply H. now right.
Qed.

(** Any list of dicts either has no entry of the requested name or splits
    at the first one. *)
Lemma first_match_split (entries : list document) n :
  (forall x, In x entries -> dict_lookup x "name" <> Some (VStr n)) \/
  exists pre s post, entries = pre ++ s :: post /\
    dict_lookup s "name" = Some (VStr n) /\
    forall x, In x pre -> dict_lookup x "name" <> Some (VStr n).
Proof.
  induction entries as [|x entries IH].
  - left. intros x [].
  - destruct (eq_str (dict_get x "name" VNone) n) eqn:E.
    + right. exists [], x, entries. apply eq_str_name in E.
      split; [reflexivity|]. split; [exact E | intros y []].
    + assert (Hx : dict_lookup x "name" <> Some (VStr n)).
      { intros H. apply eq_str_name in H. congruence. }
      destruct IH as [IH | (pre & s & post & -> & Hs & Hpre)].
      * left. intros y [<- | Hy]; auto.
      * right. exists (x :: pre), s, post. split; [reflexivity|].
        split; [exact Hs|]. intros y [<- | Hy]; auto.
Qed.

(** ** The outcomes of [create_booking] *)

Lemma create_booking_ok payload w st o c items s p f :
  db w = Some st ->
  ObjectId (cleaner_id payload) = Ok o ->
  List.find (id_is o) (collection st "cleaner") = Some c ->
  py_iter (dict_get c "services" (VList [])) = Ok items ->
  find_service items (service_name payload) = Ok (VDict s) ->
  py_float (dict_get s "price" (VInt 0)) = Ok p ->
  py_float (dict_get c "base_callout_fee" (VInt 0)) = Ok f ->
  let total := float_add p f in
  let com := py_round2 (float_mul total commission_rate) in
  let net := py_round2 (float_sub total com) in
  let doc := booking_doc payload p total com net in
  let o' := new_object_id (collection st "booking") in
  create_booking payload w =
    (Ok (receipt (VStr (hexlify o')) total com net),
     {| db := Some (<["booking" := collection st "booking" ++ [("_id", VObjectId o') :: doc]]> st);
        trace := trace w ++ [FindOne "cleaner" o; InsertOne "booking" doc] |}).
Proof.
  intros Hdb Ho Hc Hit Hs Hp Hf. simpl.
  assert (Tc : truthy (VDict c) = true).
  { apply List.find_some in Hc as [_ Hc]. apply id_is_spec in Hc.
    eapply dict_lookup_nonempty; eauto. }
  pose proof (find_service_truthy _ _ _ Hs) as Ts.
  unfold create_booking, bind, require_db, lift, find_one, raise, ret, create_document, log.
  rewrite Hdb, Ho. simpl. rewrite Hdb, Hc, Tc. simpl.
  rewrite Hit, Hs, Ts. simpl. rewrite Hp, Hf. simpl.
  rewrite <- app_assoc. reflexivity.
Qed.

Lemma create_booking_inv payload w r w' :
  create_booking payload w = (Ok r, w') ->
  exists st o c items s p f,
    db w = Some st /\
    ObjectId (cleaner_id payload) = Ok o /\
    List.find (id_is o) (collection st "cleaner") = Some c /\
    py_iter (dict_get c "services" (VList [])) = Ok items /\
    find_service items (service_name payload) = Ok (VDict s) /\
    py_float (dict_get s "price" (VInt 0)) = Ok p /\
    py_float (dict_get c "base_callout_fee" (VInt 0)) = Ok f.
Proof.
  unfold create_booking, bind, require_db, lift, find_one, raise, ret, create_document, log.
  destruct (db w) as [st|] eqn:Hdb; [|discriminate].
  destruct (ObjectId (cleaner_id payload)) as [o|] eqn:Ho; [|discriminate].
  simpl. rewrite Hdb.
  destruct (List.find (id_is o) (collection st "cleaner")) as [c|] eqn:Hc;
    simpl; [|discriminate].
  assert (Tc : truthy (VDict c) = true).
  { apply List.find_some in Hc as [_ Hc']. apply id_is_spec in Hc'.
    eapply dict_lookup_nonempty; eauto. }
  simpl in Tc. rewrite Tc. simpl.
  destruct (py_iter (dict_get c "services" (VList []))) as [items|] eqn:Hit;
    [|discriminate].
  destruct (find_service items (service_name payload)) as [v|] eqn:Hs;
    [|discriminate].
  destruct (truthy v) eqn:Tv; simpl; [|discriminate].
  destruct (find_service_found _ _ _ Hs) as [-> | (s & -> & _)]; [discriminate|].
  simpl.
  destruct (py_float (dict_get s "price" (VInt 0))) as [p|] eqn:Hp; [|discriminate].
  destruct (py_float (dict_get c "base_callout_fee" (VInt 0))) as [f|] eqn:Hf;
    [|discriminate].
  intros _. exists st, o, c, items, s, p, f. auto 10.
Qed.

(** A failed request leaves the store as it was and has inserted nothing. *)
Ltac failed_here Hdb :=
  let H := fresh in
  intros H; injection H as _ <-; simpl; rewrite ?Hdb; eauto.

Lemma create_booking_failure payload w e w' :
  create_booking payload w = (Raise e, w') ->
  db w' = db w /\
  (trace w' = trace w \/ exists o, trace w' = trace w ++ [FindOne "cleaner" o]).
Proof.
  unfold create_booking, bind, require_db, lift, find_one, raise, ret, create_document, log.
  destruct (db w) as [st|] eqn:Hdb.
  2:{ intros H. injection H as _ <-. auto. }
  destruct (ObjectId (cleaner_id payload)) as [o|] eqn:Ho.
  2:{ intros H. injection H as _ <-. auto. }
  simpl. rewrite Hdb.
  destruct (List.find (id_is o) (collection st "cleaner")) as [c|] eqn:Hc; simpl.
  2:{ failed_here Hdb. }
  assert (Tc : truthy (VDict c) = true).
  { apply List.find_some in Hc as [_ Hc']. apply id_is_spec in Hc'.
    eapply dict_lookup_nonempty; eauto. }
  simpl in Tc. rewrite Tc. simpl.
  destruct (py_iter (dict_get c "services" (VList []))) as [items|] eqn:Hit.
  2:{ failed_here Hdb. }
  destruct (find_service items (service_name payload)) as [v|] eqn:Hs.
  2:{ failed_here Hdb. }
  destruct (truthy v) eqn:Tv; simpl.
  2:{ failed_here Hdb. }
  destruct (py_get v "price" (VInt 0)) as [price|] eqn:Hg.
  2:{ failed_here Hdb. }
  destruct (py_float price) as [p|] eqn:Hp.
  2:{ failed_here Hdb. }
  destruct (py_float (dict_get c "base_callout_fee" (VInt 0))) as [f|] eqn:Hf.
  2:{ failed_here Hdb. }
  simpl. rewrite ?Hdb. discriminate.
Qed.

Lemma collection_insert_eq (st : gmap string (list document)) n l :
  collection (<[n := l]> st) n = l.
Proof. unfold collection. now rewrite lookup_insert_eq. Qed.

Lemma collection_insert_ne (st : gmap string (list document)) n m l :
  n <> m -> collection (<[n := l]> st) m = collection st m.
Proof. intros H. unfold collection. now rewrite lookup_insert_ne. Qed.

Lemma py_float_unhandled x e : py_float x = Raise e -> exists t, e = Unhandled t.
Proof.
  destruct x as [| [] | n | | s | | |]; simpl; try discriminate;
    try (intros H; injection H as <-; eauto).
  - destruct (is_infinity (float_of_int n)); [|discriminate].
    intros H; injection H as <-; eauto.
  - destruct (float_of_str s); [discriminate|].
    intros H; injection H as <-; eauto.
Qed.

Lemma dict_lookup_set_eq d k v : dict_lookup (dict_set d k v) k = Some v.
Proof.
  induction d as [|[k' v'] d IH]; simpl.
  - now rewrite String.eqb_refl.
  - destruct (String.eqb k' k) eqn:E; simpl.
    + now rewrite String.eqb_refl.
    + now rewrite E.
Qed.

Lemma dict_lookup_set_ne d k k2 v : k <> k2 -> dict_lookup (dict_set d k v) k2 = dict_lookup d k2.
Proof.
  intros Hne. induction d as [|[k' v'] d IH]; simpl.
  - apply String.eqb_neq in Hne. now rewrite Hne.
  - destruct (String.eqb k' k) eqn:E; simpl.
    + apply String.eqb_eq in E. subst k'.
      apply String.eqb_neq in Hne. now rewrite Hne.
    + destruct (String.eqb k' k2); [reflexivity | exact IH].
Qed.

Lemma length_dict_set_present d k v w :
  dict_lookup d k = Some w -> length (dict_set d k v) = length d.
Proof.
  induction d as [|[k' v'] d IH]; simpl; [discriminate|].
  destruct (String.eqb k' k); simpl; [reflexivity|].
  intros H. now rewrite IH.
Qed.

Lemma for_each_all_ok {A B} (f : A -> result B) (g : A -> B) l :
  (forall a, In a l -> f a = Ok (g a)) -> for_each f l = Ok (map g l).
Proof.
  induction l as [|a l IH]; simpl; intros H; [reflexivity|].
  rewrite (H a) by now left. rewrite IH; [reflexivity|].
  intros b Hb. apply H. now right.
Qed.

(** A well-formed identifier that names no stored cleaner is answered with
    [NotFound], after the one lookup. *)
Lemma unknown_cleaner_not_found payload w st o :
  db w = Some st ->
  ObjectId (cleaner_id payload) = Ok o ->
  List.find (id_is o) (collection st "cleaner") = None ->
  create_booking payload w = (Raise NotFound, log (FindOne "cleaner" o) w).
Proof.
  intros Hdb Ho Hc.
  unfold create_booking, bind, require_db, lift, find_one, raise.
  rewrite Hdb, Ho. simpl. now rewrite Hdb, Hc.
Qed.

(** An identifier that [ObjectId] rejects ends the request with the
    exception of the constructor, before any store operation. *)
Lemma rejected_id_propagates payload w st e :
  db w = Some st ->
  ObjectId (cleaner_id payload) = Raise e ->
  create_booking payload w = (Raise e, w).
Proof.
  intros Hdb Ho.
  unfold create_booking, bind, require_db, lift.
  now rewrite Hdb, Ho.
Qed.

(** With the cleaner resolved and its services a list of entries, the
    outcome is decided by the search: [InvalidRequest] when nothing is
    found, and otherwise the pricing of the entry found. *)
Lemma create_booking_not_offered payload w st o c items :
  db w = Some st ->
  ObjectId (cleaner_id payload) = Ok o ->
  List.find (id_is o) (collection st "cleaner") = Some c ->
  py_iter (dict_get c "services" (VList [])) = Ok items ->
  find_service items (service_name payload) = Ok VNone ->
  create_booking payload w = (Raise InvalidRequest, log (FindOne "cleaner" o) w).
Proof.
  intros Hdb Ho Hc Hit Hs.
  assert (Tc : truthy (VDict c) = true).
  { apply List.find_some in Hc as [_ Hc']. apply id_is_spec in Hc'.
    eapply dict_lookup_nonempty; eauto. }
  unfold create_booking, bind, require_db, lift, find_one, raise.
  rewrite Hdb, Ho. simpl. rewrite Hdb, Hc, Tc. simpl.
  now rewrite Hit, Hs.
Qed.

Lemma create_booking_priced payload w st o c items s :
  db w = Some st ->
  ObjectId (cleaner_id payload) = Ok o ->
  List.find (id_is o) (collection st "cleaner") = Some c ->
  py_iter (dict_get c "services" (VList [])) = Ok items ->
  find_service items (service_name payload) = Ok (VDict s) ->
  fst (create_booking payload w) =
    match py_float (dict_get s "price" (VInt 0)) with
    | Raise e => Raise e
    | Ok p =>
        match py_float (dict_get c "base_callout_fee" (VInt 0)) with
        | Raise e => Raise e
        | Ok f =>
            let total := float_add p f in
            let com := py_round2 (float_mul total commission_rate) in
            Ok (receipt (VStr (hexlify (new_object_id (collection st "booking"))))
                  total com (py_round2 (float_sub total com)))
        end
    end.
Proof.
  intros Hdb Ho Hc Hit Hs.
  destruct (py_float (dict_get s "price" (VInt 0))) as [p|e] eqn:Hp.
  - destruct (py_float (dict_get c "base_callout_fee" (VInt 0))) as [f|e] eqn:Hf.
    + now rewrite (create_booking_ok _ _ _ _ _ _ _ _ _ Hdb Ho Hc Hit Hs Hp Hf).
    + assert (Tc : truthy (VDict c) = true).
      { apply List.find_some in Hc as [_ Hc']. apply id_is_spec in Hc'.
        eapply dict_lookup_nonempty; eauto. }
      pose proof (find_service_truthy _ _ _ Hs) as Ts.
      unfold create_booking, bind, require_db, lift, find_one, raise.
      rewrite Hdb, Ho. simpl. rewrite Hdb, Hc, Tc. simpl.
      rewrite Hit, Hs, Ts. simpl. now rewrite Hp, Hf.
  - assert (Tc : truthy (VDict c) = true).
    { apply List.find_some in Hc as [_ Hc']. apply id_is_spec in Hc'.
      eapply dict_lookup_nonempty; eauto. }
    pose proof (find_service_truthy _ _ _ Hs) as Ts.
    unfold create_booking, bind, require_db, lift, find_one, raise.
    rewrite Hdb, Ho. simpl. rewrite Hdb, Hc, Tc. simpl.
    rewrite Hit, Hs, Ts. simpl. now rewrite Hp.
Qed.

(** ** The response model *)

Lemma for_each_ok_inv {A B} (f : A -> result B) l r :
  for_each f l = Ok r -> Forall2 (fun a b => f a = Ok b) l r.
Proof.
  revert r. induction l as [|a l IH]; simpl; intros r H.
  - injection H as <-. constructor.
  - destruct (f a) as [b|] eqn:Ea; [|discriminate].
    destruct (for_each f l) as [bs|]; [|discriminate].
    injection H as <-. constructor; auto.
Qed.

Lemma for_each_raises {A B} (f : A -> result B) l e :
  for_each f l = Raise e -> exists a, In a l /\ f a = Raise e.
Proof.
  induction l as [|a l IH]; simpl; [discriminate|].
  destruct (f a) as [b|e'] eqn:Ea.
  - destruct (for_each f l) as [bs|e'']; [discriminate|].
    intros H. injection H as <-. destruct IH as (x & Hx & Ex); [reflexivity|].
    exists x. split; [now right | exact Ex].
  - intros H. injection H as <-. exists a. split; [now left | exact Ea].
Qed.

Lemma for_each_ok_each {A B} (f : A -> result B) l r a :
  for_each f l = Ok r -> In a l -> exists b, f a = Ok b.
Proof.
  revert r. induction l as [|x l IH]; simpl; intros r H; [intros []|].
  destruct (f x) as [b|] eqn:Ex; [|discriminate].
  destruct (for_each f l) as [bs|]; [|discriminate].
  intros [<- | Ha]; eauto.
Qed.

Lemma for_each_of_Forall2 {A B} (f : A -> result B) l r :
  Forall2 (fun a b => f a = Ok b) l r -> for_each f l = Ok r.
Proof.
  induction 1 as [|a b l r Hab _ IH]; simpl; [reflexivity|].
  now rewrite Hab, IH.
Qed.

Lemma validate_each_inv {A B} (f : A -> option B) l r :
  validate_each f l = Some r -> Forall2 (fun a b => f a = Some b) l r.
Proof.
  revert r. induction l as [|a l IH]; simpl; intros r H.
  - injection H as <-. constructor.
  - destruct (f a) as [b|] eqn:Ea; [|discriminate].
    destruct (validate_each f l) as [bs|]; [|discriminate].
    injection H as <-. constructor; auto.
Qed.

(** What a constructed instance holds is the validation of each keyword
    argument. *)
Lemma new_CleanerResponse_inv v1 v2 v3 v4 v5 v6 v7 v8 v9 v10 e :
  new_CleanerResponse v1 v2 v3 v4 v5 v6 v7 v8 v9 v10 = Ok e ->
  as_str v1 = Some (id e) /\ as_str v2 = Some (name e) /\
  as_float v3 = Some (rating e) /\ as_int v4 = Some (total_reviews e) /\
  as_bool v5 = Some (is_available e) /\
  as_optional_str v6 = Some (photo_url e) /\ as_optional_str v7 = Some (bio e) /\
  as_services v8 = Some (services e) /\ as_dict v9 = Some (location e) /\
  as_float v10 = Some (base_callout_fee e).
Proof.
  unfold new_CleanerResponse.
  destruct (as_str v1) eqn:E1; [|discriminate].
  destruct (as_str v2) eqn:E2; [|discriminate].
  destruct (as_float v3) eqn:E3; [|discriminate].
  destruct (as_int v4) eqn:E4; [|discriminate].
  destruct (as_bool v5) eqn:E5; [|discriminate].
  destruct (as_optional_str v6) eqn:E6; [|discriminate].
  destruct (as_optional_str v7) eqn:E7; [|discriminate].
  destruct (as_services v8) eqn:E8; [|discriminate].
  destruct (as_dict v9) eqn:E9; [|discriminate].
  destruct (as_float v10) eqn:E10; [|discriminate].
  intros H. injection H as <-. repeat split; assumption.
Qed.

Lemma new_CleanerResponse_raises v1 v2 v3 v4 v5 v6 v7 v8 v9 v10 f :
  new_CleanerResponse v1 v2 v3 v4 v5 v6 v7 v8 v9 v10 = Raise f ->
  f = Unhandled ValidationError.
Proof.
  unfold new_CleanerResponse.
  destruct (as_str v1); [|congruence]. destruct (as_str v2); [|congruence].
  destruct (as_float v3); [|congruence]. destruct (as_int v4); [|congruence].
  destruct (as_bool v5); [|congruence].
  destruct (as_optional_str v6); [|congruence].
  destruct (as_optional_str v7); [|congruence].
  destruct (as_services v8); [|congruence]. destruct (as_dict v9); [|congruence].
  destruct (as_float v10); [|congruence].
  discriminate.
Qed.

Lemma cleaner_response_raises d f :
  cleaner_response d = Raise f -> f = Unhandled ValidationError.
Proof. apply new_CleanerResponse_raises. Qed.

Lemma cleaner_response_cases d :
  cleaner_response d = Raise (Unhandled ValidationError) \/
  exists e, cleaner_response d = Ok e.
Proof.
  destruct (cleaner_response d) as [e|f] eqn:E; [eauto|].
  apply cleaner_response_raises in E. subst f. now left.
Qed.

(** A service that validates has its three required keys, and its fields
    are their validated values, within the bounds of the model. *)
Lemma new_ServiceOption_inv s so :
  new_ServiceOption (VDict s) = Some so ->
  exists n p m,
    dict_lookup s "name" = Some n /\ dict_lookup s "price" = Some p /\
    dict_lookup s "duration_minutes" = Some m /\
    as_str n = Some (ServiceOption.name so) /\
    as_optional_str (dict_get s "description" VNone)
      = Some (ServiceOption.description so) /\
    as_float p = Some (ServiceOption.price so) /\
    as_int m = Some (ServiceOption.duration_minutes so) /\
    float_nonneg (ServiceOption.price so) = true /\
    10 <= ServiceOption.duration_minutes so <= 600.
Proof.
  unfold new_ServiceOption.
  destruct (dict_lookup s "name") as [n|]; [|discriminate].
  destruct (dict_lookup s "price") as [p|]; [|discriminate].
  destruct (dict_lookup s "duration_minutes") as [m|]; [|discriminate].
  destruct (as_str n) as [n'|] eqn:En; [|discriminate].
  destruct (as_optional_str (dict_get s "description" VNone)) as [d'|] eqn:Ed;
    [|discriminate].
  destruct (as_float p) as [p'|] eqn:Ep; [|discriminate].
  destruct (as_int m) as [m'|] eqn:Em; [|discriminate].
  destruct (float_nonneg p' && (10 <=? m') && (m' <=? 600)) eqn:B; [|discriminate].
  intros H. injection H as <-.
  apply andb_true_iff in B as [B B3]. apply andb_true_iff in B as [B1 B2].
  apply Z.leb_le in B2, B3.
  exists n, p, m. cbn [ServiceOption.name ServiceOption.description ServiceOption.price
                       ServiceOption.duration_minutes].
  repeat split; auto.
Qed.

Lemma as_optional_str_absent v o :
  as_optional_str v = Some o -> v = VNone -> o = None.
Proof. intros H ->. simpl in H. congruence. Qed.

Lemma as_optional_str_str s o :
  as_optional_str (VStr s) = Some o -> o = Some s.
Proof. simpl. congruence. Qed.

(** With a store handle the listing is one find-all, and its answer the
    responses built for the stored cleaners, in order. *)
Lemma list_cleaners_eval lat lng radius_km w st :
  db w = Some st ->
  list_cleaners lat lng radius_km w =
    (for_each cleaner_response (collection st "cleaner"), log (FindAll "cleaner") w).
Proof.
  intros Hdb. unfold list_cleaners, bind, require_db, get_documents, lift.
  rewrite Hdb. simpl. rewrite Hdb.
  destruct (for_each cleaner_response (collection st "cleaner")); reflexivity.
Qed.

(** ** The outcome of [create_booking] step by step *)

Lemma find_service_raises items n e :
  find_service items n = Raise e -> e = Unhandled AttributeError.
Proof.
  induction items as [|x items IH]; simpl; [discriminate|].
  destruct x; simpl; try (intros H; injection H as <-; reflexivity).
  destruct (eq_str (dict_get d "name" VNone) n); [discriminate | exact IH].
Qed.

Lemma found_cleaner_truthy o (docs : list document) c :
  List.find (id_is o) docs = Some c -> truthy (VDict c) = true.
Proof.
  intros H. apply List.find_some in H as [_ H]. apply id_is_spec in H.
  eapply dict_lookup_nonempty; eauto.
Qed.

(** With a store handle, the response is decided in this order: the
    identifier, the lookup, the services, the search, the two amounts. *)
Lemma create_booking_resolved payload w st :
  db w = Some st ->
  fst (create_booking payload w) =
    match ObjectId (cleaner_id payload) with
    | Raise e => Raise e
    | Ok o =>
        match List.find (id_is o) (collection st "cleaner") with
        | None => Raise NotFound
        | Some c =>
            match py_iter (dict_get c "services" (VList [])) with
            | Raise e => Raise e
            | Ok items =>
                match find_service items (service_name payload) with
                | Raise e => Raise e
                | Ok (VDict s) =>
                    match py_float (dict_get s "price" (VInt 0)) with
                    | Raise e => Raise e
                    | Ok p =>
                        match py_float (dict_get c "base_callout_fee" (VInt 0)) with
                        | Raise e => Raise e
                        | Ok f =>
                            let total := float_add p f in
                            let com := py_round2 (float_mul total commission_rate) in
                            Ok (receipt
                                  (VStr (hexlify (new_object_id (collection st "booking"))))
                                  total com (py_round2 (float_sub total com)))
                        end
                    end
                | Ok _ => Raise InvalidRequest
                end
            end
        end
    end.
Proof.
  intros Hdb.
  destruct (ObjectId (cleaner_id payload)) as [o|e] eqn:Ho.
  2:{ now rewrite (rejected_id_propagates _ _ _ _ Hdb Ho). }
  destruct (List.find (id_is o) (collection st "cleaner")) as [c|] eqn:Hc.
  2:{ now rewrite (unknown_cleaner_not_found _ _ _ _ Hdb Ho Hc). }
  pose proof (found_cleaner_truthy _ _ _ Hc) as Tc.
  destruct (py_iter (dict_get c "services" (VList []))) as [items|e] eqn:Hit.
  2:{ unfold create_booking, bind, require_db, lift, find_one, raise.
      rewrite Hdb, Ho. simpl. rewrite Hdb, Hc, Tc. simpl. now rewrite Hit. }
  destruct (find_service items (service_name payload)) as [v|e] eqn:Hs.
  2:{ unfold create_booking, bind, require_db, lift, find_one, raise.
      rewrite Hdb, Ho. simpl. rewrite Hdb, Hc, Tc. simpl. now rewrite Hit, Hs. }
  destruct (find_service_found _ _ _ Hs) as [-> | (s & -> & _ & _)].
  - now rewrite (create_booking_not_offered _ _ _ _ _ _ Hdb Ho Hc Hit Hs).
  - apply (create_booking_priced _ _ _ _ _ _ _ Hdb Ho Hc Hit Hs).
Qed.

Lemma ObjectId_raises s e : ObjectId s = Raise e -> e = Unhandled InvalidId.
Proof.
  unfold ObjectId. destruct (String.length s =? 24)%nat; [|congruence].
  destruct (fromhex s); congruence.
Qed.

Lemma py_iter_raises v e : py_iter v = Raise e -> e = Unhandled TypeError.
Proof. destruct v; simpl; congruence. Qed.

Lemma py_float_raises v e :
  py_float v = Raise e ->
  e = Unhandled TypeError \/ e = Unhandled ValueError \/ e = Unhandled OverflowError.
Proof.
  destruct v as [| b | n | | s | | |]; simpl; try discriminate;
    try (intros H; injection H as <-; auto).
  - destruct (is_infinity (float_of_int n)); [|discriminate].
    intros H; injection H as <-; auto.
  - destruct (float_of_str s); [discriminate|].
    intros H; injection H as <-; auto.
Qed.

(** A failure after the lookup leaves the lookup as the only effect. *)
Lemma create_booking_after_lookup payload w st o c e :
  db w = Some st ->
  ObjectId (cleaner_id payload) = Ok o ->
  List.find (id_is o) (collection st "cleaner") = Some c ->
  fst (create_booking payload w) = Raise e ->
  create_booking payload w = (Raise e, log (FindOne "cleaner" o) w).
Proof.
  intros Hdb Ho Hc. pose proof (found_cleaner_truthy _ _ _ Hc) as Tc.
  unfold create_booking, bind, require_db, lift, find_one, raise, ret, create_document.
  rewrite Hdb, Ho. simpl. rewrite Hdb, Hc, Tc. simpl.
  destruct (py_iter (dict_get c "services" (VList []))) as [items|e1]; simpl.
  2:{ intros H. now injection H as ->. }
  destruct (find_service items (service_name payload)) as [v|e1]; simpl.
  2:{ intros H. now injection H as ->. }
  destruct (truthy v); simpl.
  2:{ intros H. now injection H as <-. }
  destruct (py_get v "price" (VInt 0)) as [price|e1]; simpl.
  2:{ intros H. now injection H as ->. }
  destruct (py_float price) as [p|e1]; simpl.
  2:{ intros H. now injection H as ->. }
  destruct (py_float (dict_get c "base_callout_fee" (VInt 0))) as [f|e1]; simpl.
  2:{ intros H. now injection H as ->. }
  rewrite Hdb. discriminate.
Qed.



(** ** What the listings read *)

Lemma list_cleaners_fst lat lng radius_km w :
  fst (list_cleaners lat lng radius_km w) =
    match db w with
    | None => Raise ServiceUnavailable
    | Some st => for_each cleaner_response (collection st "cleaner")
    end.
Proof.
  unfold list_cleaners, bind, require_db, get_documents, lift.
  destruct (db w) as [st|] eqn:Hdb; [|reflexivity].
  simpl. rewrite Hdb. reflexivity.
Qed.


(** ** Booking creation: pricing *)

(** C1: for a booking created for a stored cleaner and a service entry found
    in that cleaner's services list, [total_price] is the stored service
    price plus the stored callout fee, [commission_amount] is
    [round(total_price * 0.1, 2)] and [net_amount] is
    [round(total_price - commission_amount, 2)], in the response and in the
    persisted document alike; every request that names the same cleaner and
    service gets the same three amounts, whatever else the client sends. *)
Theorem C1_pricing_from_stored_values payload w st o c items s p f :
  db w = Some st ->
  ObjectId (cleaner_id payload) = Ok o ->
  List.find (id_is o) (collection st "cleaner") = Some c ->
  py_iter (dict_get c "services" (VList [])) = Ok items ->
  find_service items (service_name payload) = Ok (VDict s) ->
  py_float (dict_get s "price" (VInt 0)) = Ok p ->
  py_float (dict_get c "base_callout_fee" (VInt 0)) = Ok f ->
  let total := float_add p f in
  let com := py_round2 (float_mul total commission_rate) in
  let net := py_round2 (float_sub total com) in
  (exists r w' st' stored,
      create_booking payload w = (Ok r, w') /\
      db w' = Some st' /\
      collection st' "booking" = collection st "booking" ++ [stored] /\
      dict_lookup r "total_price" = Some (VFloat total) /\
      dict_lookup r "commission_amount" = Some (VFloat com) /\
      dict_lookup r "net_amount" = Some (VFloat net) /\
      dict_lookup stored "service_price" = Some (VFloat p) /\
      dict_lookup stored "total_price" = Some (VFloat total) /\
      dict_lookup stored "commission_amount" = Some (VFloat com) /\
      dict_lookup stored "net_amount" = Some (VFloat net)) /\
  (forall payload',
      cleaner_id payload' = cleaner_id payload ->
      service_name payload' = service_name payload ->
      exists r' w'',
        create_booking payload' w = (Ok r', w'') /\
        dict_lookup r' "total_price" = Some (VFloat total) /\
        dict_lookup r' "commission_amount" = Some (VFloat com) /\
        dict_lookup r' "net_amount" = Some (VFloat net)).
Proof.
  intros Hdb Ho Hc Hit Hs Hp Hf total com net. split.
  - do 4 eexists. split.
    + apply (create_booking_ok _ _ _ _ _ _ _ _ _ Hdb Ho Hc Hit Hs Hp Hf).
    + split; [reflexivity|]. split; [apply collection_insert_eq|].
      repeat split; reflexivity.
  - intros payload' Eid Ename. rewrite <- Eid in Ho. rewrite <- Ename in Hs.
    do 2 eexists. split.
    + apply (create_booking_ok _ _ _ _ _ _ _ _ _ Hdb Ho Hc Hit Hs Hp Hf).
    + repeat split; reflexivity.
Qed.

(** C10: a cleaner document without ["base_callout_fee"], or a matched
    service entry without ["price"], is priced with 0 in the place of the
    missing value, and the booking is created. *)
Theorem C10_missing_amounts_default_to_zero payload w st o c items s :
  db w = Some st ->
  ObjectId (cleaner_id payload) = Ok o ->
  List.find (id_is o) (collection st "cleaner") = Some c ->
  py_iter (dict_get c "services" (VList [])) = Ok items ->
  find_service items (service_name payload) = Ok (VDict s) ->
  let zero := S754_zero false in
  let booked (p f : float) :=
    exists r w',
      create_booking payload w = (Ok r, w') /\
      dict_lookup r "total_price" = Some (VFloat (float_add p f)) in
  (forall p, dict_lookup c "base_callout_fee" = None ->
             py_float (dict_get s "price" (VInt 0)) = Ok p -> booked p zero) /\
  (forall f, dict_lookup s "price" = None ->
             py_float (dict_get c "base_callout_fee" (VInt 0)) = Ok f -> booked zero f) /\
  (dict_lookup c "base_callout_fee" = None -> dict_lookup s "price" = None ->
   booked zero zero).
Proof.
  intros Hdb Ho Hc Hit Hs zero booked.
  assert (Hz : forall d k, dict_lookup d k = None ->
                           py_float (dict_get d k (VInt 0)) = Ok zero).
  { intros d k H. unfold dict_get. now rewrite H. }
  repeat split.
  - intros p Hfee Hp. do 2 eexists. split.
    + apply (create_booking_ok _ _ _ _ _ _ _ _ _ Hdb Ho Hc Hit Hs Hp (Hz _ _ Hfee)).
    + reflexivity.
  - intros f Hprice Hf. do 2 eexists. split.
    + apply (create_booking_ok _ _ _ _ _ _ _ _ _ Hdb Ho Hc Hit Hs (Hz _ _ Hprice) Hf).
    + reflexivity.
  - intros Hfee Hprice. do 2 eexists. split.
    + apply (create_booking_ok _ _ _ _ _ _ _ _ _ Hdb Ho Hc Hit Hs
               (Hz _ _ Hprice) (Hz _ _ Hfee)).
    + reflexivity.
Qed.

(** ** Booking creation: resolving the cleaner and the service *)

(** C3: a request whose [cleaner_id] is not a well-formed identifier is not
    answered with [NotFound]: the [InvalidId] of the [ObjectId] constructor
    is not caught and reaches the caller as a server error. *)
Theorem C3_malformed_id_is_not_NotFound :
  let r := create_booking (request "not-an-object-id" "Exterior Wash") seeded_world in
  r = (Raise (Unhandled InvalidId), seeded_world) /\
  fst r <> Raise NotFound /\
  status_of (Unhandled InvalidId) = 500.
Proof.
  cbv zeta. rewrite (rejected_id_propagates _ _ seeded (Unhandled InvalidId));
    [|reflexivity|reflexivity].
  repeat split. discriminate.
Qed.

(** C4: for an existing cleaner whose services are a list of entries, the
    request fails with [InvalidRequest] exactly when no entry has the
    requested name, compared as strings; otherwise the entry that is priced
    is the first one with that name. *)
Theorem C4_first_exact_match payload w st o c entries :
  db w = Some st ->
  ObjectId (cleaner_id payload) = Ok o ->
  List.find (id_is o) (collection st "cleaner") = Some c ->
  dict_get c "services" (VList []) = VList (map VDict entries) ->
  let wanted := service_name payload in
  let named (x : document) := dict_lookup x "name" = Some (VStr wanted) in
  (fst (create_booking payload w) = Raise InvalidRequest <->
   forall x, In x entries -> ~ named x) /\
  (forall pre s post,
      entries = pre ++ s :: post -> named s -> (forall x, In x pre -> ~ named x) ->
      find_service (map VDict entries) wanted = Ok (VDict s) /\
      fst (create_booking payload w) =
        match py_float (dict_get s "price" (VInt 0)) with
        | Raise e => Raise e
        | Ok p =>
            match py_float (dict_get c "base_callout_fee" (VInt 0)) with
            | Raise e => Raise e
            | Ok f =>
                let total := float_add p f in
                let com := py_round2 (float_mul total commission_rate) in
                Ok (receipt (VStr (hexlify (new_object_id (collection st "booking"))))
                      total com (py_round2 (float_sub total com)))
            end
        end).
Proof.
  intros Hdb Ho Hc Hsv wanted named.
  assert (Hit : py_iter (dict_get c "services" (VList [])) = Ok (map VDict entries)).
  { now rewrite Hsv. }
  assert (Hfirst : forall pre s post,
             entries = pre ++ s :: post -> named s -> (forall x, In x pre -> ~ named x) ->
             find_service (map VDict entries) wanted = Ok (VDict s)).
  { intros pre s post -> Hs Hpre. now apply find_service_first. }
  split.
  - split.
    + intros Hfail.
      destruct (first_match_split entries wanted) as [Hnone | (pre & s & post & E & Hs & Hpre)];
        [exact Hnone|].
      exfalso.
      pose proof (Hfirst _ _ _ E Hs Hpre) as Hfound.
      rewrite (create_booking_priced _ _ _ _ _ _ _ Hdb Ho Hc Hit Hfound) in Hfail.
      destruct (py_float (dict_get s "price" (VInt 0))) as [p|e] eqn:Hp.
      * destruct (py_float (dict_get c "base_callout_fee" (VInt 0))) as [f|e] eqn:Hf;
          [discriminate|].
        apply py_float_unhandled in Hf as [t ->]. discriminate.
      * apply py_float_unhandled in Hp as [t ->]. discriminate.
    + intros Hnone.
      now rewrite (create_booking_not_offered _ _ _ _ _ _ Hdb Ho Hc Hit
                     (find_service_none _ _ Hnone)).
  - intros pre s post E Hs Hpre.
    pose proof (Hfirst _ _ _ E Hs Hpre) as Hfound. split; [exact Hfound|].
    apply (create_booking_priced _ _ _ _ _ _ _ Hdb Ho Hc Hit Hfound).
Qed.

(** ** Booking creation: what is persisted *)

(** C5: the document persisted by a successful request has status
    "pending", payment status "unpaid" and no payment reference. *)
Theorem C5_new_booking_is_pending_and_unpaid payload w r w' :
  create_booking payload w = (Ok r, w') ->
  exists st st' stored,
    db w = Some st /\ db w' = Some st' /\
    collection st' "booking" = collection st "booking" ++ [stored] /\
    dict_lookup stored "status" = Some (VStr "pending") /\
    dict_lookup stored "payment_status" = Some (VStr "unpaid") /\
    dict_lookup stored "payment_reference" = Some VNone.
Proof.
  intros H.
  destruct (create_booking_inv _ _ _ _ H)
    as (st & o & c & items & s & p & f & Hdb & Ho & Hc & Hit & Hs & Hp & Hf).
  rewrite (create_booking_ok _ _ _ _ _ _ _ _ _ Hdb Ho Hc Hit Hs Hp Hf) in H.
  injection H as _ <-.
  do 3 eexists. split; [exact Hdb|]. split; [reflexivity|].
  split; [apply collection_insert_eq|]. repeat split; reflexivity.
Qed.

(** C9: a successful request makes one insert into the booking collection
    and nothing else changes; a failed request leaves the store as it was and
    inserts nothing; in every case the cleaner collection is as before. *)
Theorem C9_single_insert_or_nothing payload w :
  let '(r, w') := create_booking payload w in
  match r with
  | Ok _ =>
      exists st o doc stored,
        db w = Some st /\
        db w' = Some (<["booking" := collection st "booking" ++ [stored]]> st) /\
        trace w' = trace w ++ [FindOne "cleaner" o; InsertOne "booking" doc] /\
        (forall n, n <> "booking" ->
                   (<["booking" := collection st "booking" ++ [stored]]> st) !! n = st !! n)
  | Raise _ =>
      db w' = db w /\
      forall n doc, ~ In (InsertOne n doc) (skipn (length (trace w)) (trace w'))
  end /\
  (forall st', db w' = Some st' ->
               exists st, db w = Some st /\ st' !! "cleaner" = st !! "cleaner") /\
  (db w' = None -> db w = None).
Proof.
  destruct (create_booking payload w) as [[r|e] w'] eqn:H.
  - destruct (create_booking_inv _ _ _ _ H)
      as (st & o & c & items & s & p & f & Hdb & Ho & Hc & Hit & Hs & Hp & Hf).
    rewrite (create_booking_ok _ _ _ _ _ _ _ _ _ Hdb Ho Hc Hit Hs Hp Hf) in H.
    injection H as _ <-. simpl. split; [|split].
    + do 4 eexists. split; [exact Hdb|]. split; [reflexivity|].
      split; [reflexivity|]. intros n Hn. now apply lookup_insert_ne.
    + intros st' E. injection E as <-. exists st. split; [exact Hdb|].
      now apply lookup_insert_ne.
    + discriminate.
  - destruct (create_booking_failure _ _ _ _ H) as [Hdb Htr]. split; [|split].
    + split; [exact Hdb|]. intros n doc.
      destruct Htr as [-> | [o ->]].
      * rewrite skipn_all. intros [].
      * rewrite skipn_app, skipn_all, Nat.sub_diag. simpl.
        intros [E | []]. discriminate.
    + intros st' E. exists st'. split; [congruence | reflexivity].
    + congruence.
Qed.

(** ** Listings *)

(** C6 (as amended): whatever [lat], [lng] and [radius_km] are,
    [list_cleaners] answers with one response per stored cleaner, in stored
    order, exactly when every stored cleaner validates against the response
    model, and fails with [ValidationError] as a whole when one does not; an
    empty collection gives the empty list.  A response always has a photo
    URL and a bio, [None] where the document has none; its location is the
    stored dict; its callout fee is the stored number as a float, and its
    services are the stored entries read as [ServiceOption]: name,
    description, price as a float and duration, within the bounds of the
    model. *)
Theorem C6_list_cleaners_returns_all w st lat lng radius_km :
  db w = Some st ->
  let docs := collection st "cleaner" in
  let answer := list_cleaners lat lng radius_km w in
  (forall lat' lng' radius_km', list_cleaners lat' lng' radius_km' w = answer) /\
  (forall listed,
      Forall2 (fun d e => cleaner_response d = Ok e) docs listed <->
      answer = (Ok listed, log (FindAll "cleaner") w)) /\
  ((exists d, In d docs /\ cleaner_response d = Raise (Unhandled ValidationError)) <->
   answer = (Raise (Unhandled ValidationError), log (FindAll "cleaner") w)) /\
  (docs = [] -> answer = (Ok [], log (FindAll "cleaner") w)) /\
  (forall d e,
      cleaner_response d = Ok e ->
      id e = py_str (dict_get d "_id" VNone) /\
      (dict_lookup d "photo_url" = None \/ dict_lookup d "photo_url" = Some VNone ->
       photo_url e = None) /\
      (forall s, dict_lookup d "photo_url" = Some (VStr s) -> photo_url e = Some s) /\
      (dict_lookup d "bio" = None \/ dict_lookup d "bio" = Some VNone -> bio e = None) /\
      (forall s, dict_lookup d "bio" = Some (VStr s) -> bio e = Some s) /\
      (dict_lookup d "location" = None -> location e = []) /\
      (forall l, dict_lookup d "location" = Some (VDict l) -> location e = l) /\
      (dict_lookup d "base_callout_fee" = None -> base_callout_fee e = S754_zero false) /\
      (forall x, dict_lookup d "base_callout_fee" = Some (VFloat x) ->
                 base_callout_fee e = x) /\
      (forall n, dict_lookup d "base_callout_fee" = Some (VInt n) ->
                 is_infinity (float_of_int n) = false ->
                 base_callout_fee e = float_of_int n) /\
      (dict_lookup d "services" = None -> services e = []) /\
      (forall items, dict_lookup d "services" = Some (VList items) ->
                     Forall2 (fun item so => new_ServiceOption item = Some so)
                             items (services e))) /\
  (forall s so,
      new_ServiceOption (VDict s) = Some so ->
      (forall n, dict_lookup s "name" = Some (VStr n) -> ServiceOption.name so = n) /\
      (dict_lookup s "description" = None \/ dict_lookup s "description" = Some VNone ->
       ServiceOption.description so = None) /\
      (forall t, dict_lookup s "description" = Some (VStr t) ->
                 ServiceOption.description so = Some t) /\
      (forall x, dict_lookup s "price" = Some (VFloat x) -> ServiceOption.price so = x) /\
      (forall n, dict_lookup s "price" = Some (VInt n) ->
                 is_infinity (float_of_int n) = false ->
                 ServiceOption.price so = float_of_int n) /\
      (forall m, dict_lookup s "duration_minutes" = Some (VInt m) ->
                 ServiceOption.duration_minutes so = m) /\
      float_nonneg (ServiceOption.price so) = true /\
      10 <= ServiceOption.duration_minutes so <= 600).
Proof.
  intros Hdb docs answer.
  assert (E : forall a b r, list_cleaners a b r w =
                (for_each cleaner_response docs, log (FindAll "cleaner") w)).
  { intros a b r. apply (list_cleaners_eval _ _ _ _ _ Hdb). }
  unfold answer. rewrite E.
  split; [intros; apply E|]. split; [|split; [|split; [|split]]].
  - intros listed. split.
    + intros H. now rewrite (for_each_of_Forall2 _ _ _ H).
    + intros H. injection H as H. now apply for_each_ok_inv.
  - split.
    + intros (d & Hd & Hf).
      destruct (for_each cleaner_response docs) as [listed|f] eqn:Ef.
      * destruct (for_each_ok_each _ _ _ _ Ef Hd) as [e He]. congruence.
      * apply for_each_raises in Ef as (d' & _ & Hd').
        apply cleaner_response_raises in Hd'. now subst f.
    + intros H. injection H as H. apply for_each_raises in H. exact H.
  - intros Hempty. fold docs. now rewrite Hempty.
  - intros d e He. unfold cleaner_response in He.
    apply new_CleanerResponse_inv in He
      as (Hi & _ & _ & _ & _ & Hp & Hb & Hs & Hl & Hf).
    unfold dict_get in Hp, Hb, Hs, Hl, Hf.
    split; [simpl in Hi; congruence|].
    split.
    { intros [H | H]; rewrite H in Hp; simpl in Hp; congruence. }
    split.
    { intros s H. rewrite H in Hp. simpl in Hp. congruence. }
    split.
    { intros [H | H]; rewrite H in Hb; simpl in Hb; congruence. }
    split.
    { intros s H. rewrite H in Hb. simpl in Hb. congruence. }
    split.
    { intros H. rewrite H in Hl. simpl in Hl. congruence. }
    split.
    { intros l H. rewrite H in Hl. simpl in Hl. congruence. }
    split.
    { intros H. rewrite H in Hf. simpl in Hf. congruence. }
    split.
    { intros x H. rewrite H in Hf. simpl in Hf. congruence. }
    split.
    { intros n H Hfin. rewrite H in Hf. simpl in Hf. rewrite Hfin in Hf. congruence. }
    split.
    { intros H. rewrite H in Hs. simpl in Hs. congruence. }
    intros items H. rewrite H in Hs. simpl in Hs. now apply validate_each_inv.
  - intros s so Hso.
    apply new_ServiceOption_inv in Hso
      as (n & p & m & Hn & Hp & Hm & En & Ed & Ep & Em & Hge & Hrange).
    unfold dict_get in Ed.
    split.
    { intros n' H. rewrite H in Hn. injection Hn as <-. simpl in En. congruence. }
    split.
    { intros [H | H]; rewrite H in Ed; simpl in Ed; congruence. }
    split.
    { intros t H. rewrite H in Ed. simpl in Ed. congruence. }
    split.
    { intros x H. rewrite H in Hp. injection Hp as <-. simpl in Ep. congruence. }
    split.
    { intros k H Hfin. rewrite H in Hp. injection Hp as <-. simpl in Ep.
      rewrite Hfin in Ep. congruence. }
    split.
    { intros k H. rewrite H in Hm. injection Hm as <-. simpl in Em. congruence. }
    split; assumption.
Qed.

(** C7: [list_bookings] answers with every stored booking, in stored order
    and unfiltered; each keeps its fields, except that the generated
    identifier is given as its string rendering. *)
Theorem C7_list_bookings_returns_all w st :
  db w = Some st ->
  list_bookings w =
    (Ok (map stringify_id (collection st "booking")), log (FindAll "booking") w) /\
  (forall d o,
      dict_lookup d "_id" = Some (VObjectId o) ->
      dict_lookup (stringify_id d) "_id" = Some (VStr (hexlify o)) /\
      length (stringify_id d) = length d /\
      forall k, k <> "_id" -> dict_lookup (stringify_id d) k = dict_lookup d k).
Proof.
  intros Hdb. split.
  - unfold list_bookings, bind, require_db, get_documents, ret.
    rewrite Hdb. simpl. now rewrite Hdb.
  - intros d o Hid. unfold stringify_id, dict_get. rewrite Hid. simpl.
    split; [apply dict_lookup_set_eq|]. split.
    + eapply length_dict_set_present; eauto.
    + intros k Hk. apply dict_lookup_set_ne. congruence.
Qed.

(** ** The unconfigured store *)


(** ** Booking creation: the amounts as numbers *)

(** C2 (as amended): for a booking whose stored price and fee are
    non-negative doubles with a finite float sum, the total is that sum, the
    total, the commission and the net amount are finite and non-negative, and
    commission plus net differs from the total by at most
    0.005 + total / 2^51 + 2^-60, which is less than 0.01 for totals up to
    10^12. *)
Theorem C2_amounts_nonnegative_and_balanced payload w st o c items s p f :
  db w = Some st ->
  ObjectId (cleaner_id payload) = Ok o ->
  List.find (id_is o) (collection st "cleaner") = Some c ->
  py_iter (dict_get c "services" (VList [])) = Ok items ->
  find_service items (service_name payload) = Ok (VDict s) ->
  py_float (dict_get s "price" (VInt 0)) = Ok p ->
  py_float (dict_get c "base_callout_fee" (VInt 0)) = Ok f ->
  valid_binary prec emax p = true -> valid_binary prec emax f = true ->
  float_nonneg p = true -> float_nonneg f = true ->
  is_finite (float_add p f) = true ->
  exists r w' total com net,
    create_booking payload w = (Ok r, w') /\
    dict_lookup r "total_price" = Some (VFloat total) /\
    dict_lookup r "commission_amount" = Some (VFloat com) /\
    dict_lookup r "net_amount" = Some (VFloat net) /\
    total = float_add p f /\
    float_nonneg total = true /\ float_nonneg com = true /\ float_nonneg net = true /\
    is_finite com = true /\ is_finite net = true /\
    (Qabs (float_value com + float_value net - float_value total)
       <= (1#200) + float_value total * (1 # 2251799813685248)
          + (1 # 1152921504606846976))%Q /\
    ((float_value total <= 1000000000000)%Q ->
     (Qabs (float_value com + float_value net - float_value total) < 1#100)%Q).
Proof.
  intros Hdb Ho Hc Hit Hs Hp Hf Vp Vf Np Nf Hfin.
  destruct (pricing_sound p f Np Nf Vp Vf Hfin) as (Ht & Hcom & Hnet & Hsum).
  apply finite_nonneg_float_nonneg in Hcom as [Hc1 Hc2].
  apply finite_nonneg_float_nonneg in Hnet as [Hn1 Hn2].
  do 5 eexists. split.
  - apply (create_booking_ok _ _ _ _ _ _ _ _ _ Hdb Ho Hc Hit Hs Hp Hf).
  - repeat split; try reflexivity; try assumption.
    intros Hmax. eapply drift_below_cent; [|exact Hmax|exact Hsum].
    destruct (float_nonneg_cases _ Ht) as [[s0 E] | [E | (m0 & e0 & E)]];
      rewrite E; cbn [float_value]; try lra.
    apply Qmult_le_0_compat; [|apply Qlt_le_weak, bpow_pos].
    change 0%Q with (inject_Z 0). apply inject_Z_le. lia.
Qed.

(** ** Identifiers and their hexadecimal rendering *)

Lemma hex_of_byte b :
  let n := Byte.to_N b in
  is_space (hex_char (n / 16)%N) = false /\
  hex_digit (hex_char (n / 16)%N) = Some (n / 16)%N /\
  hex_digit (hex_char (n mod 16)%N) = Some (n mod 16)%N /\
  Byte.of_N (16 * (n / 16) + n mod 16) = Some b.
Proof. destruct b; repeat split. Qed.

Lemma fromhex_hexlify o : fromhex (hexlify o) = Some o.
Proof.
  induction o as [|b o IH]; [reflexivity|].
  destruct (hex_of_byte b) as (Hs & Hh & Hl & Hb).
  cbv zeta in Hs, Hh, Hl, Hb.
  cbn [hexlify fromhex]. rewrite Hs, Hh, Hl, Hb, IH. reflexivity.
Qed.

Lemma length_hexlify o : String.length (hexlify o) = (2 * length o)%nat.
Proof. induction o as [|b o IH]; simpl; [reflexivity | rewrite IH; lia]. Qed.

(** The rendering of a 12-byte identifier is read back as that identifier. *)
Lemma ObjectId_hexlify o : length o = 12%nat -> ObjectId (hexlify o) = Ok o.
Proof.
  intros H. unfold ObjectId. rewrite length_hexlify, H, fromhex_hexlify. reflexivity.
Qed.

Lemma upper_char_hex c :
  is_space (upper_char c) = is_space c /\ hex_digit (upper_char c) = hex_digit c.
Proof. destruct c as [[] [] [] [] [] [] [] []]; split; reflexivity. Qed.

Lemma fromhex_two c c' rest :
  fromhex (String c (String c' rest)) =
    if is_space c then fromhex (String c' rest)
    else match hex_digit c, hex_digit c' with
         | Some h, Some l =>
             match Byte.of_N (16 * h + l), fromhex rest with
             | Some b, Some bs => Some (b :: bs)
             | _, _ => None
             end
         | _, _ => None
         end.
Proof. reflexivity. Qed.

Lemma fromhex_upper s : fromhex (upper s) = fromhex s.
Proof.
  assert (H : fromhex (upper s) = fromhex s /\
              forall c, fromhex (upper (String c s)) = fromhex (String c s)).
  { induction s as [|c' s [IH1 IH2]].
    - split; [reflexivity|]. intros c. cbn [upper fromhex].
      destruct (upper_char_hex c) as [-> _]. reflexivity.
    - split; [apply IH2|]. intros c.
      pose proof (IH2 c') as E. cbn [upper] in E |- *.
      rewrite (fromhex_two (upper_char c)), (fromhex_two c), E, IH1.
      destruct (upper_char_hex c) as [-> ->].
      destruct (upper_char_hex c') as [_ ->]. reflexivity. }
  apply H.
Qed.

Lemma length_upper s : String.length (upper s) = String.length s.
Proof. induction s as [|c s IH]; simpl; [reflexivity | now rewrite IH]. Qed.

Lemma ObjectId_upper s : ObjectId (upper s) = ObjectId s.
Proof. unfold ObjectId. now rewrite length_upper, fromhex_upper. Qed.

Lemma bytes_eqb_neq a b : a <> b -> bytes_eqb a b = false.
Proof.
  intros H. destruct (bytes_eqb a b) eqn:E; [|reflexivity].
  apply bytes_eqb_eq in E. contradiction.
Qed.

(** ** What the listings read *)

Lemma list_bookings_fst w :
  fst (list_bookings w) =
    match db w with
    | None => Raise ServiceUnavailable
    | Some st => Ok (map stringify_id (collection st "booking"))
    end.
Proof.
  unfold list_bookings, bind, require_db, get_documents, ret.
  destruct (db w) as [st|] eqn:Hdb; [|reflexivity].
  simpl. rewrite Hdb. reflexivity.
Qed.

(** ** Seeding *)

Lemma create_document_some name doc w st :
  db w = Some st ->
  create_document name doc w =
    (Ok (VStr (hexlify (new_object_id (collection st name)))),
     {| db := Some (<[name := collection st name
                                ++ [("_id", VObjectId (new_object_id (collection st name)))
                                    :: doc]]> st);
        trace := trace w ++ [InsertOne name doc] |}).
Proof. intros Hdb. unfold create_document. now rewrite Hdb. Qed.

Lemma seed_cleaners_empty w st :
  db w = Some st -> collection st "cleaner" = [] ->
  let first := ("_id", VObjectId (new_object_id [])) :: sparkle_pro in
  let second := ("_id", VObjectId (new_object_id [first])) :: ecoshine in
  seed_cleaners w =
    (Ok [ ("seeded", VBool true); ("count", VInt 2) ],
     {| db := Some (<["cleaner" := [first; second]]> st);
        trace := trace w ++ [InsertOne "cleaner" sparkle_pro; InsertOne "cleaner" ecoshine] |}).
Proof.
  intros Hdb Hempty first second.
  unfold seed_cleaners, bind, require_db, count_documents, ret, demo.
  rewrite Hdb. cbv beta iota. rewrite Hdb. cbv beta iota. rewrite Hempty.
  change (0 <? Z.of_nat (length [])) with false. cbv beta iota.
  cbn [for_in]. unfold bind, ret.
  rewrite (create_document_some _ _ _ _ Hdb), Hempty. cbv beta iota.
  erewrite create_document_some by reflexivity.
  rewrite collection_insert_eq, insert_insert_eq. cbn [app trace].
  rewrite <- app_assoc. reflexivity.
Qed.

Lemma seed_cleaners_nonempty w st :
  db w = Some st -> collection st "cleaner" <> [] ->
  seed_cleaners w = (Ok already_seeded, w).
Proof.
  intros Hdb Hne.
  unfold seed_cleaners, bind, require_db, count_documents, ret.
  rewrite Hdb. cbv beta iota. rewrite Hdb. cbv beta iota.
  destruct (collection st "cleaner") as [|d l]; [contradiction|].
  reflexivity.
Qed.

(** ** Lists and documents *)

Lemma nodup_map_injective {A B} (f : A -> B) l a b :
  List.NoDup (map f l) -> In a l -> In b l -> f a = f b -> a = b.
Proof.
  induction l as [|x l IH]; simpl; [intros _ []|].
  intros Hnd Ha Hb E. apply NoDup_cons_iff in Hnd as [Hx Hnd].
  destruct Ha as [-> | Ha], Hb as [-> | Hb]; auto.
  - exfalso. apply Hx. rewrite E. now apply in_map.
  - exfalso. apply Hx. rewrite <- E. now apply in_map.
Qed.

Lemma Forall2_nth_error {A B} (P : A -> B -> Prop) l r k b :
  Forall2 P l r -> nth_error r k = Some b ->
  exists a, nth_error l k = Some a /\ P a b.
Proof.
  intros H. revert k. induction H as [|x y l r Hxy H IH]; intros [|k]; simpl;
    try discriminate.
  - intros E. injection E as <-. eauto.
  - apply IH.
Qed.

Lemma stringify_id_spec d :
  (truthy (dict_get d "_id" VNone) = true /\
   dict_lookup (stringify_id d) "_id" = Some (VStr (py_str (dict_get d "_id" VNone))) \/
   truthy (dict_get d "_id" VNone) = false /\
   dict_lookup (stringify_id d) "_id" = Some VNone) /\
  forall k, k <> "_id" -> dict_lookup (stringify_id d) k = dict_lookup d k.
Proof.
  unfold stringify_id. split.
  - destruct (truthy (dict_get d "_id" VNone)); [left | right];
      (split; [reflexivity | apply dict_lookup_set_eq]).
  - intros k Hk. apply dict_lookup_set_ne. congruence.
Qed.

(** Once the cleaner is found, the request is answered neither with 404 nor
    with [InvalidId]. *)
Lemma cleaner_id_found payload w st o c :
  db w = Some st ->
  ObjectId (cleaner_id payload) = Ok o ->
  List.find (id_is o) (collection st "cleaner") = Some c ->
  fst (create_booking payload w) <> Raise NotFound /\
  fst (create_booking payload w) <> Raise (Unhandled InvalidId).
Proof.
  intros Hdb Ho Hc. rewrite (create_booking_resolved _ _ _ Hdb), Ho, Hc.
  destruct (py_iter (dict_get c "services" (VList []))) as [items|e] eqn:Hit.
  2:{ apply py_iter_raises in Hit. subst e. split; discriminate. }
  destruct (find_service items (service_name payload)) as [v|e] eqn:Hs.
  2:{ apply find_service_raises in Hs. subst e. split; discriminate. }
  destruct v; try (split; discriminate).
  destruct (py_float (dict_get d "price" (VInt 0))) as [p|e] eqn:Hp.
  2:{ apply py_float_raises in Hp as [-> | [-> | ->]]; split; discriminate. }
  destruct (py_float (dict_get c "base_callout_fee" (VInt 0))) as [f|e] eqn:Hf.
  2:{ apply py_float_raises in Hf as [-> | [-> | ->]]; split; discriminate. }
  split; discriminate.
Qed.

(** ** Prefixes of strings *)

Lemma str_prefix_min n s : str_len (str_prefix n s) = Nat.min n (str_len s).
Proof.
  revert n. induction s as [|c s IH]; intros n; simpl; [now rewrite Nat.min_0_r|].
  destruct (is_continuation c) eqn:E; simpl.
  - rewrite E. apply IH.
  - destruct n as [|n]; simpl; [reflexivity|]. rewrite E. now rewrite IH.
Qed.

Lemma str_prefix_is_prefix n s :
  exists rest, s = String.append (str_prefix n s) rest.
Proof.
  revert n. induction s as [|c s IH]; intros n; simpl.
  - exists EmptyString. reflexivity.
  - destruct (is_continuation c).
    + destruct (IH n) as [rest E]. exists rest.
      change (String c s = String c (String.append (str_prefix n s) rest)).
      f_equal. exact E.
    + destruct n as [|n].
      * exists (String c s). reflexivity.
      * destruct (IH n) as [rest E]. exists rest.
        change (String c s = String c (String.append (str_prefix n s) rest)).
      f_equal. exact E.
Qed.

Lemma str_prefix_short n s : (str_len s <= n)%nat -> str_prefix n s = s.
Proof.
  revert n. induction s as [|c s IH]; intros n; simpl; [reflexivity|].
  destruct (is_continuation c).
  - intros H. now rewrite IH.
  - destruct n as [|n]; [lia|]. intros H. rewrite IH; [reflexivity | lia].
Qed.

(** ** The diagnostic response *)

Lemma env_flag_cases k :
  (env_flag k = VStr "✅ Set" /\ exists v, getenv k = Some v /\ v <> EmptyString) \/
  (env_flag k = VStr "❌ Not Set" /\ (getenv k = None \/ getenv k = Some EmptyString)).
Proof.
  unfold env_flag. destruct (getenv k) as [[|c v]|]; simpl.
  - right. auto.
  - left. split; [reflexivity|]. eexists. split; [reflexivity | discriminate].
  - right. auto.
Qed.

Lemma test_database_environment w :
  dict_lookup (test_database w) "database_url" = Some (env_flag "DATABASE_URL") /\
  dict_lookup (test_database w) "database_name" = Some (env_flag "DATABASE_NAME").
Proof.
  unfold test_database.
  destruct (db w) as [h|]; [|split; reflexivity].
  destruct (handle_name h) as [n|e]; [|split; reflexivity].
  destruct (list_collection_names h) as [names|e]; split; reflexivity.
Qed.

(** ** The commission as a share of the total *)

Lemma commission_sound p f :
  float_nonneg p = true -> float_nonneg f = true ->
  valid_binary prec emax p = true -> valid_binary prec emax f = true ->
  let total := float_add p f in
  let com := py_round2 (float_mul total commission_rate) in
  is_finite total = true ->
  (0 <= float_value total)%Q /\
  finite_nonneg com = true /\
  (float_value com <= float_value total)%Q /\
  (Qabs (float_value com - float_value total * (1#10))
     <= (1#200) + float_value total * (1 # 18014398509481984)
        + (1 # 1152921504606846976))%Q.
Proof.
  intros Hp Hf Vp Vf total com Hfin.
  destruct (float_add_nonneg p f Hp Hf (valid_in_range p Vp) (valid_in_range f Vf))
    as [Hnn Hrg].
  fold total in Hnn, Hrg.
  destruct (float_nonneg_cases total Hnn) as [[s Et] | [Et | (mt & et & Et)]].
  - assert (Ec : com = S754_zero s).
    { unfold com. rewrite Et. simpl. now rewrite xorb_false_r. }
    rewrite Ec, Et. cbn [finite_nonneg float_value].
    repeat split; try lra. apply Qabs_Qle_condition. lra.
  - rewrite Et in Hfin. discriminate.
  - pose proof (in_range_value total Hrg) as HTmax.
    rewrite Et in HTmax, Hrg. cbn [float_value in_range] in HTmax, Hrg.
    destruct Hrg as [_ Het].
    set (T := (inject_Z (Zpos mt) * bpow et)%Q) in *.
    assert (HT0 : (0 < T)%Q).
    { apply Qmult_lt_0_compat; [|apply bpow_pos].
      change 0%Q with (inject_Z 0). apply inject_Z_lt. lia. }
    destruct bpow_m1074_small as [Ht0 Ht1].
    destruct bpow_emax_large as [HH HG].
    assert (HP : rounds false (T * (7205759403792794 * (1 # 72057594037927936)))
                   (float_mul total commission_rate)).
    { rewrite Et. unfold commission_rate.
      pose proof (float_mul_rounds false mt et false 7205759403792794 (-56)) as H.
      fold T in H. change (xorb false false) with false in H.
      destruct H as (e1 & H1 & H2); [unfold emax, prec in *; lia|].
      change (inject_Z 7205759403792794) with 7205759403792794%Q in H1, H2.
      rewrite bpow_m56 in H2. exists e1. split; [|exact H2].
      destruct (float_mul (S754_finite false mt et) (S754_finite false 7205759403792794 (-56)))
        as [s0|s0| |s0 m0 e0]; unfold rounded in *.
      - destruct H1 as [E H1]. rewrite bpow_m56 in H1. auto.
      - destruct H1 as [E H1]. rewrite bpow_m56 in H1. auto.
      - exact H1.
      - destruct H1 as (E & Hd & He & H1). rewrite bpow_m56 in H1. auto. }
    set (P := float_mul total commission_rate) in *.
    destruct (rounds_nonneg _ _ HP) as (HPf & HPr & HPn); [lra | lra |].
    pose proof (finite_nonneg_value P HPf) as HP0.
    destruct (py_round2_spec P HPf HPr) as (qc & Hqc & Hqcn & _ & Hqc0 & Hqcr).
    fold com in Hqc0, Hqcr.
    rewrite Et. cbn [float_value]. fold T.
    assert (Hq0 : (0 <= inject_Z qc)%Q).
    { change 0%Q with (inject_Z 0). now apply inject_Z_le. }
    split; [lra|].
    destruct (Z.eq_dec qc 0) as [E0|N0].
    + destruct (Hqc0 E0) as [sc Ec]. rewrite Ec. cbn [finite_nonneg float_value].
      rewrite E0 in Hqcn. change (inject_Z 0) with 0%Q in Hqcn.
      split; [reflexivity|]. split; [lra|].
      apply Qabs_Qle_condition. lra.
    + assert (Hq1 : 1 <= qc) by lia.
      apply inject_Z_le in Hq1. change (inject_Z 1) with 1%Q in Hq1.
      destruct (rounds_nonneg _ _ (Hqcr ltac:(lia))) as (Hcf & Hcr & Hcn); [lra | lra |].
      pose proof (finite_nonneg_value com Hcf) as HC0.
      split; [exact Hcf|]. split; [lra|].
      apply Qabs_Qle_condition. hide_inject. lra.
Qed.

Lemma same_float_eq x y : same_float x y = true -> x = y.
Proof.
  destruct x as [s|s| |s m e], y as [s'|s'| |s' m' e']; simpl; try discriminate.
  - intros H. apply Bool.eqb_prop in H. now subst.
  - intros H. apply Bool.eqb_prop in H. now subst.
  - reflexivity.
  - intros H. apply andb_true_iff in H as [H He].
    apply andb_true_iff in H as [Hs Hm].
    apply Bool.eqb_prop in Hs. apply Pos.eqb_eq in Hm. apply Z.eqb_eq in He.
    now subst.
Qed.

Lemma all_up_to_spec n check :
  all_up_to n check = true -> forall t, 0 <= t <= Z.of_nat n -> check t = true.
Proof.
  induction n as [|n IH]; intros H t Ht.
  - simpl in H. assert (t = 0) as -> by lia. exact H.
  - cbn [all_up_to] in H. apply andb_true_iff in H as [H1 H2].
    destruct (Z.eq_dec t (Z.of_nat (S n))) as [-> | Hne]; [exact H1|].
    apply IH; [exact H2 | lia].
Qed.

(** * Further properties of the handlers *)

(** ** Seeding the catalog *)

(** X1: on a configured store without cleaners [seed_cleaners] inserts the
    two demo cleaners, in the order of the list and each under its generated
    identifier, and reports a count of 2; nothing else is written and every
    other collection is as before. *)
Theorem seed_populates_an_empty_catalog w st :
  db w = Some st -> collection st "cleaner" = [] ->
  exists w' st' o1 o2,
    seed_cleaners w = (Ok [ ("seeded", VBool true); ("count", VInt 2) ], w') /\
    db w' = Some st' /\
    collection st' "cleaner" =
      [ ("_id", VObjectId o1) :: sparkle_pro; ("_id", VObjectId o2) :: ecoshine ] /\
    (forall n, n <> "cleaner" -> collection st' n = collection st n) /\
    trace w' = trace w ++ [InsertOne "cleaner" sparkle_pro; InsertOne "cleaner" ecoshine].
Proof.
  intros Hdb Hempty. do 4 eexists.
  split; [apply (seed_cleaners_empty _ _ Hdb Hempty)|].
  split; [reflexivity|]. split; [apply collection_insert_eq|].
  split; [|reflexivity].
  intros n Hn. apply collection_insert_ne. congruence.
Qed.

(** X2: [seed_cleaners] writes nothing unless the store is configured and
    holds no cleaner: without a store handle it fails with the 500 of the
    other handlers, and with one stored cleaner or more, whatever they are,
    it answers that cleaners already exist; the world is returned as it
    was. *)
Theorem seed_keeps_an_existing_catalog w :
  (db w = None -> seed_cleaners w = (Raise ServiceUnavailable, w)) /\
  (forall st, db w = Some st -> collection st "cleaner" <> [] ->
              seed_cleaners w = (Ok already_seeded, w)) /\
  dict_lookup already_seeded "seeded" = Some (VBool false).
Proof.
  split; [|split; [|reflexivity]].
  - intros Hdb. unfold seed_cleaners, bind, require_db. now rewrite Hdb.
  - intros st. apply seed_cleaners_nonempty.
Qed.

(** X3: seeding is idempotent: after a call that returned, a second call
    reports that cleaners already exist and leaves the world as the first
    call left it. *)
Theorem seed_twice_is_seed_once w r w1 :
  seed_cleaners w = (Ok r, w1) ->
  seed_cleaners w1 = (Ok already_seeded, w1).
Proof.
  intros H.
  destruct (db w) as [st|] eqn:Hdb.
  2:{ unfold seed_cleaners, bind, require_db in H. rewrite Hdb in H. discriminate. }
  destruct (collection st "cleaner") as [|d l] eqn:Hc.
  - rewrite (seed_cleaners_empty _ _ Hdb Hc) in H. injection H as _ <-.
    eapply seed_cleaners_nonempty; [reflexivity|].
    rewrite collection_insert_eq. discriminate.
  - rewrite (seed_cleaners_nonempty _ _ Hdb) in H by (rewrite Hc; discriminate).
    injection H as _ <-.
    apply (seed_cleaners_nonempty _ _ Hdb). rewrite Hc. discriminate.
Qed.

(** X4: after [seed_cleaners] on an empty catalog, [list_cleaners] returns
    the two demo cleaners in the order of the demo list, each under the
    rendering of its generated identifier, with the fields of the demo data
    as the response model reads them: the callout fees 5 and 3 and the
    prices of the services as floats, the phone number left out. *)
Theorem seeded_catalog_is_listed w st lat lng radius_km :
  db w = Some st -> collection st "cleaner" = [] ->
  exists o1 o2,
    fst (list_cleaners lat lng radius_km (snd (seed_cleaners w)))
      = Ok [ sparkle_response (hexlify o1); ecoshine_response (hexlify o2) ] /\
    map base_callout_fee [ sparkle_response (hexlify o1); ecoshine_response (hexlify o2) ]
      = [ float_of_int 5; float_of_int 3 ].
Proof.
  intros Hdb Hempty. do 2 eexists.
  rewrite (seed_cleaners_empty _ _ Hdb Hempty), list_cleaners_fst.
  cbn [snd db]. rewrite collection_insert_eq.
  split; reflexivity.
Qed.

(** ** Resolving the cleaner of a booking *)

(** X5: with a store handle, [create_booking] answers 404 exactly when
    [cleaner_id] is a well-formed identifier that no stored cleaner has, and
    lets [InvalidId] through exactly when [ObjectId] rejects [cleaner_id],
    which it does for every string that is not 24 characters long. *)
Theorem cleaner_id_resolution payload w st :
  db w = Some st ->
  let r := fst (create_booking payload w) in
  (r = Raise NotFound <->
   exists o, ObjectId (cleaner_id payload) = Ok o /\
             List.find (id_is o) (collection st "cleaner") = None) /\
  (r = Raise (Unhandled InvalidId) <->
   ObjectId (cleaner_id payload) = Raise (Unhandled InvalidId)) /\
  (String.length (cleaner_id payload) <> 24%nat -> r = Raise (Unhandled InvalidId)).
Proof.
  intros Hdb r. unfold r. rewrite (create_booking_resolved _ _ _ Hdb).
  assert (Hlen : String.length (cleaner_id payload) <> 24%nat ->
                 ObjectId (cleaner_id payload) = Raise (Unhandled InvalidId)).
  { intros Hn. unfold ObjectId. apply Nat.eqb_neq in Hn. now rewrite Hn. }
  destruct (ObjectId (cleaner_id payload)) as [o|e] eqn:Ho.
  2:{ apply ObjectId_raises in Ho as E. subst e.
      repeat split; try reflexivity; try discriminate.
      intros (o & Ho' & _). discriminate. }
  destruct (List.find (id_is o) (collection st "cleaner")) as [c|] eqn:Hc.
  2:{ repeat split; try discriminate; eauto.
      intros Hn. specialize (Hlen Hn). discriminate. }
  destruct (cleaner_id_found payload w st o c Hdb Ho Hc) as [H1 H2].
  rewrite (create_booking_resolved _ _ _ Hdb), Ho, Hc in H1, H2.
  repeat split; try contradiction; try discriminate.
  - intros (o0 & E & Hf). injection E as <-. congruence.
  - intros Hn. specialize (Hlen Hn). discriminate.
Qed.

(** X6: the hexadecimal letters of [cleaner_id] are read in either case: a
    request with the identifier in upper case has the outcome of the request
    as sent, while the booking it stores keeps the identifier as the client
    wrote it. *)
Theorem cleaner_id_ignores_letter_case payload w :
  let shouted := with_cleaner_id payload (upper (cleaner_id payload)) in
  fst (create_booking shouted w) = fst (create_booking payload w) /\
  (forall r w', create_booking shouted w = (Ok r, w') ->
     exists st st' stored,
       db w = Some st /\ db w' = Some st' /\
       collection st' "booking" = collection st "booking" ++ [stored] /\
       dict_lookup stored "cleaner_id" = Some (VStr (upper (cleaner_id payload)))).
Proof.
  intros shouted. split.
  - destruct (db w) as [st|] eqn:Hdb.
    + rewrite !(create_booking_resolved _ _ _ Hdb).
      unfold shouted. cbn [cleaner_id service_name with_cleaner_id].
      now rewrite ObjectId_upper.
    + unfold create_booking, bind, require_db. now rewrite Hdb.
  - intros r w' H.
    destruct (create_booking_inv _ _ _ _ H)
      as (st & o & c & items & s & p & f & Hdb & Ho & Hc & Hit & Hs & Hp & Hf).
    rewrite (create_booking_ok _ _ _ _ _ _ _ _ _ Hdb Ho Hc Hit Hs Hp Hf) in H.
    injection H as _ <-.
    do 3 eexists. split; [exact Hdb|]. split; [reflexivity|].
    split; [apply collection_insert_eq|]. reflexivity.
Qed.

(** X7: every identifier that [list_cleaners] returns can be booked
    against: when the stored cleaners carry distinct 12-byte identifiers,
    the [id] of the [k]-th listed cleaner, sent back as [cleaner_id],
    resolves to the [k]-th stored cleaner, so that the request is answered
    neither with 404 nor with [InvalidId]. *)
Theorem listed_id_resolves w st lat lng radius_km listed k entry payload :
  db w = Some st ->
  Forall (fun d => exists o, dict_lookup d "_id" = Some (VObjectId o) /\ length o = 12%nat)
         (collection st "cleaner") ->
  List.NoDup (map (fun d => dict_lookup d "_id") (collection st "cleaner")) ->
  fst (list_cleaners lat lng radius_km w) = Ok listed ->
  nth_error listed k = Some entry ->
  cleaner_id payload = id entry ->
  exists o d,
    nth_error (collection st "cleaner") k = Some d /\
    cleaner_response d = Ok entry /\
    ObjectId (cleaner_id payload) = Ok o /\
    List.find (id_is o) (collection st "cleaner") = Some d /\
    fst (create_booking payload w) <> Raise NotFound /\
    fst (create_booking payload w) <> Raise (Unhandled InvalidId).
Proof.
  intros Hdb Hids Hnd Hl Hk Hid.
  rewrite list_cleaners_fst, Hdb in Hl.
  apply for_each_ok_inv in Hl.
  destruct (Forall2_nth_error _ _ _ _ _ Hl Hk) as (d & Hd & Hr).
  assert (Hin : In d (collection st "cleaner")) by (eapply nth_error_In; eauto).
  destruct (proj1 (List.Forall_forall _ _) Hids d Hin) as (o & Ho & Hlen).
  assert (HO : ObjectId (cleaner_id payload) = Ok o).
  { rewrite Hid. pose proof Hr as Hi. unfold cleaner_response in Hi.
    apply new_CleanerResponse_inv in Hi as (Hi & _).
    unfold dict_get in Hi. rewrite Ho in Hi. cbn [py_str as_str] in Hi.
    injection Hi as <-. now apply ObjectId_hexlify. }
  assert (Hf : List.find (id_is o) (collection st "cleaner") = Some d).
  { destruct (List.find (id_is o) (collection st "cleaner")) as [c|] eqn:Hc.
    - apply List.find_some in Hc as [Hcin Hc]. apply id_is_spec in Hc.
      f_equal. apply (nodup_map_injective _ _ _ _ Hnd Hcin Hin). congruence.
    - exfalso. pose proof (List.find_none _ _ Hc d Hin) as Hn.
      apply id_is_spec in Ho. congruence. }
  destruct (cleaner_id_found payload w st o d Hdb HO Hf) as [H1 H2].
  exists o, d. repeat split; assumption.
Qed.

(** ** Stored data that cannot be priced *)

(** X8: how the [services] of the resolved cleaner decide the request.  A
    cleaner stored without a services key, or with an empty list, dict or
    string for it, offers nothing: every service name is answered with 400.
    Services stored as [None], a number, a boolean or an identifier cannot
    be iterated, and the items of a non-empty dict or string, like a first
    list entry that is not a dict, have no [get]: the request ends with an
    unhandled [TypeError], respectively [AttributeError], after the lookup
    and without an insert. *)
Theorem services_that_cannot_be_searched payload w st o c :
  db w = Some st ->
  ObjectId (cleaner_id payload) = Ok o ->
  List.find (id_is o) (collection st "cleaner") = Some c ->
  let after_lookup e := create_booking payload w = (Raise e, log (FindOne "cleaner" o) w) in
  (dict_lookup c "services" = None -> after_lookup InvalidRequest) /\
  (forall v, dict_lookup c "services" = Some v ->
             v = VList [] \/ v = VDict [] \/ v = VStr "" ->
             after_lookup InvalidRequest) /\
  (forall v, dict_lookup c "services" = Some v ->
             match v with VList _ | VDict _ | VStr _ => False | _ => True end ->
             after_lookup (Unhandled TypeError)) /\
  (forall x rest, dict_lookup c "services" = Some (VList (x :: rest)) ->
                  (forall d, x <> VDict d) ->
                  after_lookup (Unhandled AttributeError)) /\
  (forall v, dict_lookup c "services" = Some v ->
             (exists kv d, v = VDict (kv :: d)) \/ (exists a t, v = VStr (String a t)) ->
             after_lookup (Unhandled AttributeError)).
Proof.
  intros Hdb Ho Hc after_lookup.
  assert (Hr : forall e,
            match py_iter (dict_get c "services" (VList [])) with
            | Raise e' => e' = e
            | Ok items =>
                match find_service items (service_name payload) with
                | Raise e' => e' = e
                | Ok VNone => e = InvalidRequest
                | Ok _ => False
                end
            end -> after_lookup e).
  { intros e H. apply (create_booking_after_lookup _ _ _ _ _ _ Hdb Ho Hc).
    rewrite (create_booking_resolved _ _ _ Hdb), Ho, Hc.
    destruct (py_iter (dict_get c "services" (VList []))) as [items|e']; [|congruence].
    destruct (find_service items (service_name payload)) as [v|e']; [|congruence].
    destruct v; try contradiction. congruence. }
  split; [|split; [|split; [|split]]].
  - intros H. apply Hr. unfold dict_get. rewrite H. reflexivity.
  - intros v H [-> | [-> | ->]]; apply Hr; unfold dict_get; rewrite H; reflexivity.
  - intros v H Hv. apply Hr. unfold dict_get. rewrite H.
    destruct v; try contradiction; reflexivity.
  - intros x rest H Hx. apply Hr. unfold dict_get. rewrite H.
    destruct x; try reflexivity. exfalso. eapply Hx. reflexivity.
  - intros v H [(kv & d & ->) | (a & t & ->)]; apply Hr; unfold dict_get; rewrite H;
      reflexivity.
Qed.

(** X9: a price or a callout fee that [float] rejects ends the request with
    the exception of [float], after the lookup and without an insert; the
    price is converted first.  [float] raises [TypeError] for [None], a list,
    a dict and an identifier, [ValueError] for a string that is not a number
    and [OverflowError] for an integer beyond the doubles, and reads
    [True] as 1. *)
Theorem amounts_that_cannot_be_converted payload w st o c items s :
  db w = Some st ->
  ObjectId (cleaner_id payload) = Ok o ->
  List.find (id_is o) (collection st "cleaner") = Some c ->
  py_iter (dict_get c "services" (VList [])) = Ok items ->
  find_service items (service_name payload) = Ok (VDict s) ->
  let price := dict_get s "price" (VInt 0) in
  let fee := dict_get c "base_callout_fee" (VInt 0) in
  let after_lookup e := create_booking payload w = (Raise e, log (FindOne "cleaner" o) w) in
  (forall e, py_float price = Raise e -> after_lookup e) /\
  (forall p e, py_float price = Ok p -> py_float fee = Raise e -> after_lookup e) /\
  (forall v, match v with VNone | VList _ | VDict _ | VObjectId _ => True | _ => False end ->
             py_float v = Raise (Unhandled TypeError)) /\
  (forall t, float_of_str t = None -> py_float (VStr t) = Raise (Unhandled ValueError)) /\
  (forall n, is_infinity (float_of_int n) = true ->
             py_float (VInt n) = Raise (Unhandled OverflowError)) /\
  py_float (VBool true) = Ok (float_of_int 1).
Proof.
  intros Hdb Ho Hc Hit Hs price fee after_lookup.
  split; [|split; [|split; [|split; [|split]]]].
  - intros e Hp. apply (create_booking_after_lookup _ _ _ _ _ _ Hdb Ho Hc).
    rewrite (create_booking_resolved _ _ _ Hdb), Ho, Hc, Hit, Hs.
    fold price. now rewrite Hp.
  - intros p e Hp Hf. apply (create_booking_after_lookup _ _ _ _ _ _ Hdb Ho Hc).
    rewrite (create_booking_resolved _ _ _ Hdb), Ho, Hc, Hit, Hs.
    fold price fee. now rewrite Hp, Hf.
  - intros v Hv. destruct v; try contradiction; reflexivity.
  - intros t Ht. simpl. now rewrite Ht.
  - intros n Hn. simpl. now rewrite Hn.
  - reflexivity.
Qed.

(** ** Bookings, once created *)

(** X10: a booking that [create_booking] has answered is what
    [list_bookings] returns last from then on: the earlier bookings are
    listed as before, followed by one whose [_id] is the [booking_id] of the
    answer, with the three amounts of the answer, the cleaner and service of
    the request and the status "pending". *)
Theorem created_booking_is_listed payload w r w' :
  create_booking payload w = (Ok r, w') ->
  exists before b,
    fst (list_bookings w) = Ok before /\
    fst (list_bookings w') = Ok (before ++ [b]) /\
    dict_lookup b "_id" = dict_lookup r "booking_id" /\
    (exists s, dict_lookup b "_id" = Some (VStr s)) /\
    dict_lookup b "total_price" = dict_lookup r "total_price" /\
    dict_lookup b "commission_amount" = dict_lookup r "commission_amount" /\
    dict_lookup b "net_amount" = dict_lookup r "net_amount" /\
    dict_lookup b "cleaner_id" = Some (VStr (cleaner_id payload)) /\
    dict_lookup b "service_name" = Some (VStr (service_name payload)) /\
    dict_lookup b "status" = Some (VStr "pending").
Proof.
  intros H.
  destruct (create_booking_inv _ _ _ _ H)
    as (st & o & c & items & s & p & f & Hdb & Ho & Hc & Hit & Hs & Hp & Hf).
  rewrite (create_booking_ok _ _ _ _ _ _ _ _ _ Hdb Ho Hc Hit Hs Hp Hf) in H.
  injection H as <- <-.
  rewrite !list_bookings_fst, Hdb. cbn [db].
  rewrite collection_insert_eq, map_app. cbn [map].
  do 2 eexists. split; [reflexivity|]. split; [reflexivity|].
  repeat split. eexists. reflexivity.
Qed.

(** X11: each writer keeps to its own collection: whatever
    [create_booking] answers, [list_cleaners] returns afterwards what it
    returned before, and whatever [seed_cleaners] answers, [list_bookings]
    returns afterwards what it returned before. *)
Theorem writers_keep_to_their_collection payload w lat lng radius_km :
  fst (list_cleaners lat lng radius_km (snd (create_booking payload w)))
    = fst (list_cleaners lat lng radius_km w) /\
  fst (list_bookings (snd (seed_cleaners w))) = fst (list_bookings w).
Proof.
  split.
  - rewrite !list_cleaners_fst.
    destruct (create_booking payload w) as [[r|e] w'] eqn:H; cbn [snd].
    + destruct (create_booking_inv _ _ _ _ H)
        as (st & o & c & items & s & p & f & Hdb & Ho & Hc & Hit & Hs & Hp & Hf).
      rewrite (create_booking_ok _ _ _ _ _ _ _ _ _ Hdb Ho Hc Hit Hs Hp Hf) in H.
      injection H as _ <-. rewrite Hdb. cbn [db].
      rewrite collection_insert_ne by discriminate. reflexivity.
    + destruct (create_booking_failure _ _ _ _ H) as [-> _]. reflexivity.
  - rewrite !list_bookings_fst.
    destruct (db w) as [st|] eqn:Hdb.
    + destruct (collection st "cleaner") as [|d l] eqn:Hc.
      * rewrite (seed_cleaners_empty _ _ Hdb Hc). cbn [snd db].
        rewrite collection_insert_ne by discriminate. reflexivity.
      * rewrite (seed_cleaners_nonempty _ _ Hdb) by (rewrite Hc; discriminate).
        cbn [snd]. now rewrite Hdb.
    + unfold seed_cleaners, bind, require_db. rewrite Hdb. cbn [snd]. now rewrite Hdb.
Qed.

(** ** The listings on arbitrary documents *)

(** X12: [list_cleaners] is all or nothing: with a store handle it fails,
    with an unhandled [ValidationError], exactly when some stored cleaner
    does not validate against the response model, and what it returns
    otherwise is one response per stored cleaner, in stored order; a single
    stored document that does not validate hides the whole catalog. *)
Theorem list_cleaners_is_all_or_nothing w st lat lng radius_km :
  db w = Some st ->
  let docs := collection st "cleaner" in
  let r := fst (list_cleaners lat lng radius_km w) in
  (r = Raise (Unhandled ValidationError) <->
   exists d, In d docs /\ cleaner_response d = Raise (Unhandled ValidationError)) /\
  (forall listed, r = Ok listed ->
                  Forall2 (fun d e => cleaner_response d = Ok e) docs listed) /\
  (r = Raise (Unhandled ValidationError) \/
   exists listed, r = Ok listed /\
                  Forall2 (fun d e => cleaner_response d = Ok e) docs listed).
Proof.
  intros Hdb docs r. unfold r. rewrite list_cleaners_fst, Hdb. fold docs.
  destruct (for_each cleaner_response docs) as [listed|e] eqn:E.
  - pose proof (for_each_ok_inv _ _ _ E) as HF.
    split; [|split].
    + split; [discriminate|]. intros (d & Hd & V).
      destruct (for_each_ok_each _ _ _ _ E Hd) as [b Hb]. congruence.
    + intros listed' E'. now injection E' as <-.
    + right. eauto.
  - apply for_each_raises in E as (d & Hd & V).
    pose proof (cleaner_response_raises _ _ V) as ->.
    split; [|split].
    + split; [intros _; eauto | reflexivity].
    + discriminate.
    + now left.
Qed.

(** X13: [list_bookings] returns one document per stored booking, in
    stored order, and in each the [_id] is a string or [None]: the
    rendering of the stored identifier, and [None] where the stored booking
    has no [_id] or one that counts as false; the other fields are the
    stored ones, whatever the booking is made of. *)
Theorem listed_bookings_have_string_ids w r w' :
  list_bookings w = (Ok r, w') ->
  exists st,
    db w = Some st /\
    Forall2
      (fun d b =>
         (truthy (dict_get d "_id" VNone) = true /\
          dict_lookup b "_id" = Some (VStr (py_str (dict_get d "_id" VNone))) \/
          truthy (dict_get d "_id" VNone) = false /\
          dict_lookup b "_id" = Some VNone) /\
         forall k, k <> "_id" -> dict_lookup b k = dict_lookup d k)
      (collection st "booking") r.
Proof.
  intros H. pose proof (f_equal fst H) as E. cbn [fst] in E.
  rewrite list_bookings_fst in E.
  destruct (db w) as [st|]; [|discriminate].
  injection E as <-. exists st. split; [reflexivity|]. clear H.
  induction (collection st "booking") as [|d l IH]; cbn [map]; constructor.
  - apply stringify_id_spec.
  - exact IH.
Qed.

(** ** The diagnostic endpoint *)

(** X14: what [test_database] reports as [database_url] and
    [database_name] is read from the environment alone: "✅ Set" exactly when
    the variable [DATABASE_URL], respectively [DATABASE_NAME], is set to a
    non-empty string, and "❌ Not Set" otherwise, also for a variable set to
    the empty string.  Neither field depends on the store handle; the name
    of the database that the handle carries is never reported. *)
Theorem test_database_reports_the_environment w :
  let r := test_database w in
  let is_set k := exists v, getenv k = Some v /\ v <> EmptyString in
  (dict_lookup r "database_url" = Some (VStr "✅ Set") <-> is_set "DATABASE_URL") /\
  (dict_lookup r "database_url" = Some (VStr "❌ Not Set") <-> ~ is_set "DATABASE_URL") /\
  (dict_lookup r "database_name" = Some (VStr "✅ Set") <-> is_set "DATABASE_NAME") /\
  (dict_lookup r "database_name" = Some (VStr "❌ Not Set") <-> ~ is_set "DATABASE_NAME").
Proof.
  intros r is_set. unfold r.
  destruct (test_database_environment w) as [-> ->].
  assert (H : forall k,
            (Some (env_flag k) = Some (VStr "✅ Set") <-> is_set k) /\
            (Some (env_flag k) = Some (VStr "❌ Not Set") <-> ~ is_set k)).
  { intros k. unfold is_set.
    destruct (env_flag_cases k) as [[-> Hs] | [-> Hn]].
    - repeat split; auto; try discriminate. intros Hc. contradiction.
    - assert (Hno : ~ exists v, getenv k = Some v /\ v <> EmptyString).
      { intros (v & Ev & Hv). destruct Hn as [Hn | Hn]; congruence. }
      repeat split; auto; try discriminate. intros Hc. contradiction. }
  destruct (H "DATABASE_URL") as [H1 H2]. destruct (H "DATABASE_NAME") as [H3 H4].
  repeat split; first [apply H1 | apply H2 | apply H3 | apply H4].
Qed.

(** X15: [test_database] always answers with the same six fields, and it
    reports "Connected" exactly when there is a store handle whose
    collection names could be listed; [collections] then holds those names
    and is empty in every other case.  When listing the names fails, the
    [database] field quotes the message of the exception, cut to its first
    80 characters. *)
Theorem test_database_connection w :
  let r := test_database w in
  let connected names :=
    exists h n, db w = Some h /\ handle_name h = Returned n /\
                list_collection_names h = Returned names in
  map fst r = [ "backend"; "database"; "database_url"; "database_name";
                "connection_status"; "collections" ] /\
  dict_lookup r "backend" = Some (VStr "✅ Running") /\
  (forall names, connected names ->
     dict_lookup r "connection_status" = Some (VStr "Connected") /\
     dict_lookup r "database" = Some (VStr "✅ Connected & Working") /\
     dict_lookup r "collections" = Some (VList (map VStr names))) /\
  ((forall names, ~ connected names) ->
     dict_lookup r "connection_status" = Some (VStr "Not Connected") /\
     dict_lookup r "collections" = Some (VList [])) /\
  (db w = None ->
     dict_lookup r "database" = Some (VStr "⚠️ Available but not initialized")) /\
  (forall h n e,
     db w = Some h -> handle_name h = Returned n -> list_collection_names h = Raised e ->
     exists shown rest,
       dict_lookup r "database"
         = Some (VStr (String.append "⚠️ Connected but Error: " shown)) /\
       e = String.append shown rest /\
       str_len shown = Nat.min 80 (str_len e) /\
       ((str_len e <= 80)%nat -> shown = e)).
Proof.
  intros r connected. unfold r, connected, test_database.
  destruct (db w) as [h|] eqn:Hdb.
  2:{ split; [reflexivity|]. split; [reflexivity|].
      split; [intros ? (h & n & E & _); discriminate|].
      split; [intros _; split; reflexivity|].
      split; [reflexivity|]. intros h n e E. discriminate. }
  destruct (handle_name h) as [n|e] eqn:Hn.
  2:{ split; [reflexivity|]. split; [reflexivity|].
      split; [intros ? (h' & n & E & E' & _); congruence|].
      split; [intros _; split; reflexivity|].
      split; [discriminate|]. intros h' n e' E E'. congruence. }
  destruct (list_collection_names h) as [names|e] eqn:Hl.
  - split; [reflexivity|]. split; [reflexivity|].
    split.
    { intros names' (h' & n' & E & _ & E').
      assert (names' = names) as -> by congruence. repeat split. }
    split; [intros Hno; exfalso; apply (Hno names); eauto|].
    split; [discriminate|]. intros h' n' e E E1 E2. congruence.
  - split; [reflexivity|]. split; [reflexivity|].
    split; [intros ? (h' & n' & E & _ & E'); congruence|].
    split; [intros _; split; reflexivity|].
    split; [discriminate|].
    intros h' n' e' E E1 E2.
    assert (e' = e) as -> by congruence.
    destruct (str_prefix_is_prefix 80 e) as [rest Hrest].
    exists (str_prefix 80 e), rest.
    split; [reflexivity|]. split; [exact Hrest|].
    split; [apply str_prefix_min | apply str_prefix_short].
Qed.

(** ** The failures of a booking request *)


(** X17: the search for the service stops at the first entry with the
    requested name: when the entries before it are dicts with other names,
    the request is priced from that entry whatever follows it in the list,
    be it further entries with the same name or values that are no dicts. *)
Theorem entries_after_the_match_are_not_read payload w st o c pre s (post : list value) :
  db w = Some st ->
  ObjectId (cleaner_id payload) = Ok o ->
  List.find (id_is o) (collection st "cleaner") = Some c ->
  dict_get c "services" (VList []) = VList (map VDict pre ++ VDict s :: post) ->
  (forall x, In x pre -> dict_lookup x "name" <> Some (VStr (service_name payload))) ->
  dict_lookup s "name" = Some (VStr (service_name payload)) ->
  fst (create_booking payload w) =
    match py_float (dict_get s "price" (VInt 0)) with
    | Raise e => Raise e
    | Ok p =>
        match py_float (dict_get c "base_callout_fee" (VInt 0)) with
        | Raise e => Raise e
        | Ok f =>
            let total := float_add p f in
            let com := py_round2 (float_mul total commission_rate) in
            Ok (receipt (VStr (hexlify (new_object_id (collection st "booking"))))
                  total com (py_round2 (float_sub total com)))
        end
    end.
Proof.
  intros Hdb Ho Hc Hsv Hpre Hs.
  assert (Hfound : find_service (map VDict pre ++ VDict s :: post) (service_name payload)
                   = Ok (VDict s)).
  { clear Hsv. induction pre as [|x pre IH]; cbn [map app find_service py_get].
    - apply eq_str_name in Hs. now rewrite Hs.
    - destruct (eq_str (dict_get x "name" VNone) (service_name payload)) eqn:E.
      + apply eq_str_name in E. exfalso. apply (Hpre x); [now left | exact E].
      + apply IH. intros y Hy. apply Hpre. now right. }
  rewrite (create_booking_resolved _ _ _ Hdb), Ho, Hc, Hsv. cbn [py_iter].
  now rewrite Hfound.
Qed.

(** X18: the [database] field that [test_database] returns is one of four
    texts: connected and working, connected with an error, an error, or not
    initialized.  The text "Not Available" that the response starts from and
    the text "Available" that is written once the handle is seen are always
    overwritten before the response is returned. *)
Theorem test_database_status_texts w :
  let r := test_database w in
  (dict_lookup r "database" = Some (VStr "✅ Connected & Working") \/
   (exists shown, dict_lookup r "database"
                  = Some (VStr (String.append "⚠️ Connected but Error: " shown))) \/
   (exists shown, dict_lookup r "database"
                  = Some (VStr (String.append "❌ Error: " shown))) \/
   dict_lookup r "database" = Some (VStr "⚠️ Available but not initialized")) /\
  dict_lookup r "database" <> Some (VStr "❌ Not Available") /\
  dict_lookup r "database" <> Some (VStr "✅ Available").
Proof.
  intros r. unfold r, test_database.
  destruct (db w) as [h|].
  2:{ split; [auto|]. split; discriminate. }
  destruct (handle_name h) as [n|e].
  2:{ split; [right; right; left; eexists; reflexivity|]. split; discriminate. }
  destruct (list_collection_names h) as [names|e].
  - split; [auto|]. split; discriminate.
  - split; [right; left; eexists; reflexivity|]. split; discriminate.
Qed.

(** ** The amounts of a booking *)

(** X19: for a booking whose stored price and fee are non-negative doubles
    with a finite float sum, the commission never exceeds the total and is a
    tenth of it to within half a cent, and the net amount is nine tenths of
    it to within a cent, up to the rounding of the float operations
    (a 2^50-th of the total).  From a total of 0.11 on, the net amount does
    not exceed the total either. *)
Theorem commission_is_a_tenth_of_the_total payload w st o c items s p f :
  db w = Some st ->
  ObjectId (cleaner_id payload) = Ok o ->
  List.find (id_is o) (collection st "cleaner") = Some c ->
  py_iter (dict_get c "services" (VList [])) = Ok items ->
  find_service items (service_name payload) = Ok (VDict s) ->
  py_float (dict_get s "price" (VInt 0)) = Ok p ->
  py_float (dict_get c "base_callout_fee" (VInt 0)) = Ok f ->
  valid_binary prec emax p = true -> valid_binary prec emax f = true ->
  float_nonneg p = true -> float_nonneg f = true ->
  is_finite (float_add p f) = true ->
  exists r w' total com net,
    create_booking payload w = (Ok r, w') /\
    dict_lookup r "total_price" = Some (VFloat total) /\
    dict_lookup r "commission_amount" = Some (VFloat com) /\
    dict_lookup r "net_amount" = Some (VFloat net) /\
    (0 <= float_value com /\ float_value com <= float_value total)%Q /\
    (Qabs (float_value com - float_value total * (1#10))
       <= (1#200) + float_value total * (1 # 18014398509481984)
          + (1 # 1152921504606846976))%Q /\
    (Qabs (float_value net - float_value total * (9#10))
       <= (1#100) + float_value total * (1 # 1125899906842624)
          + (1 # 576460752303423488))%Q /\
    ((11#100 <= float_value total)%Q -> (float_value net <= float_value total)%Q).
Proof.
  intros Hdb Ho Hc Hit Hs Hp Hf Vp Vf Np Nf Hfin.
  destruct (pricing_sound p f Np Nf Vp Vf Hfin) as (_ & Hcf & _ & Hsum).
  destruct (commission_sound p f Np Nf Vp Vf Hfin) as (HT & _ & Hle & Hcom).
  pose proof (finite_nonneg_value _ Hcf) as Hc0.
  do 5 eexists. split.
  - apply (create_booking_ok _ _ _ _ _ _ _ _ _ Hdb Ho Hc Hit Hs Hp Hf).
  - split; [reflexivity|]. split; [reflexivity|]. split; [reflexivity|].
    split; [split; assumption|]. split; [exact Hcom|].
    apply Qabs_Qle_condition in Hsum, Hcom.
    split; [apply Qabs_Qle_condition; lra | intros Hbig; lra].
Qed.

(** X20: when the total of a booking is a whole number of currency units up
    to 2000, as for every service of the demo catalog, the split is exact:
    the commission is the double nearest to a tenth of the total, the net
    amount the double nearest to nine tenths, and their float sum is the
    total again. *)
Theorem whole_totals_split_exactly payload w st o c items s p f t :
  db w = Some st ->
  ObjectId (cleaner_id payload) = Ok o ->
  List.find (id_is o) (collection st "cleaner") = Some c ->
  py_iter (dict_get c "services" (VList [])) = Ok items ->
  find_service items (service_name payload) = Ok (VDict s) ->
  py_float (dict_get s "price" (VInt 0)) = Ok p ->
  py_float (dict_get c "base_callout_fee" (VInt 0)) = Ok f ->
  float_add p f = float_of_int t -> 0 <= t <= 2000 ->
  exists r w' com net,
    create_booking payload w = (Ok r, w') /\
    dict_lookup r "total_price" = Some (VFloat (float_of_int t)) /\
    dict_lookup r "commission_amount" = Some (VFloat com) /\
    dict_lookup r "net_amount" = Some (VFloat net) /\
    com = cents (10 * t) /\ net = cents (90 * t) /\
    float_add com net = float_of_int t.
Proof.
  intros Hdb Ho Hc Hit Hs Hp Hf Ht Hrange.
  assert (Hcheck : splits_exactly t = true).
  { apply (all_up_to_spec 2000 splits_exactly); [vm_compute; reflexivity | lia]. }
  unfold splits_exactly in Hcheck.
  apply andb_true_iff in Hcheck as [Hcheck H3].
  apply andb_true_iff in Hcheck as [H1 H2].
  apply same_float_eq in H1, H2, H3.
  do 4 eexists. split.
  - apply (create_booking_ok _ _ _ _ _ _ _ _ _ Hdb Ho Hc Hit Hs Hp Hf).
  - rewrite Ht. repeat split; try reflexivity; assumption.
Qed.

(** X21: once an empty catalog is seeded, every service of the demo data can
    be booked under the identifier its cleaner was given (12 bytes, the two
    distinct): the total is the demo price plus the demo callout fee, the
    commission a tenth of it and the net amount the rest, to the cent. *)
Theorem every_demo_service_can_be_booked w st :
  db w = Some st -> collection st "cleaner" = [] ->
  let o1 := new_object_id [] in
  let o2 := new_object_id [("_id", VObjectId o1) :: sparkle_pro] in
  length o1 = 12%nat -> length o2 = 12%nat -> o1 <> o2 ->
  let booked (o : list byte) (service : string) (total com net : Z) :=
    forall payload,
      cleaner_id payload = hexlify o -> service_name payload = service ->
      fst (create_booking payload (snd (seed_cleaners w))) =
        Ok (receipt (VStr (hexlify (new_object_id (collection st "booking"))))
              (float_of_int total) (cents com) (cents net)) in
  booked o1 "Exterior Wash" 30 300 2700 /\
  booked o1 "Interior Clean" 40 400 3600 /\
  booked o1 "Full Detail" 104 1040 9360 /\
  booked o2 "Quick Wash" 18 180 1620 /\
  booked o2 "Interior Refresh" 28 280 2520.
Proof.
  intros Hdb Hempty o1 o2 L1 L2 Hne booked.
  set (first := ("_id", VObjectId o1) :: sparkle_pro).
  set (second := ("_id", VObjectId o2) :: ecoshine).
  assert (F1 : List.find (id_is o1) [first; second] = Some first).
  { cbn [List.find]. unfold id_is at 1. cbn [first dict_lookup String.eqb Ascii.eqb Bool.eqb].
    now rewrite (proj2 (bytes_eqb_eq o1 o1) eq_refl). }
  assert (F2 : List.find (id_is o2) [first; second] = Some second).
  { cbn [List.find]. unfold id_is.
    cbn [first second dict_lookup String.eqb Ascii.eqb Bool.eqb].
    rewrite (bytes_eqb_neq o1 o2 Hne).
    now rewrite (proj2 (bytes_eqb_eq o2 o2) eq_refl). }
  assert (H : forall payload o,
            cleaner_id payload = hexlify o -> length o = 12%nat ->
            fst (create_booking payload (snd (seed_cleaners w))) =
              match List.find (id_is o) [first; second] with
              | None => Raise NotFound
              | Some c =>
                  match py_iter (dict_get c "services" (VList [])) with
                  | Raise e => Raise e
                  | Ok items =>
                      match find_service items (service_name payload) with
                      | Raise e => Raise e
                      | Ok (VDict s) =>
                          match py_float (dict_get s "price" (VInt 0)) with
                          | Raise e => Raise e
                          | Ok p =>
                              match py_float (dict_get c "base_callout_fee" (VInt 0)) with
                              | Raise e => Raise e
                              | Ok f =>
                                  let total := float_add p f in
                                  let com := py_round2 (float_mul total commission_rate) in
                                  Ok (receipt
                                        (VStr (hexlify (new_object_id (collection st "booking"))))
                                        total com (py_round2 (float_sub total com)))
                              end
                          end
                      | Ok _ => Raise InvalidRequest
                      end
                  end
              end).
  { intros payload o Hid Hlen.
    rewrite (seed_cleaners_empty _ _ Hdb Hempty). cbn [snd].
    erewrite create_booking_resolved by reflexivity.
    rewrite Hid, (ObjectId_hexlify _ Hlen), collection_insert_eq.
    rewrite collection_insert_ne by discriminate. reflexivity. }
  generalize dependent (hexlify (new_object_id (collection st "booking"))).
  intros booking_id booked H.
  unfold booked.
  repeat split; intros payload Hid Hname.
  - rewrite (H payload o1 Hid L1), F1, Hname. reflexivity.
  - rewrite (H payload o1 Hid L1), F1, Hname. reflexivity.
  - rewrite (H payload o1 Hid L1), F1, Hname. reflexivity.
  - rewrite (H payload o2 Hid L2), F2, Hname. reflexivity.
  - rewrite (H payload o2 Hid L2), F2, Hname. reflexivity.
Qed.
End Runtime.

(** * The statements at concrete inputs *)

Lemma C1_pricing_exterior_wash :
  exists r w',
    create_booking no_float_of_str first_id
      (request "654f1a2b3c4d5e6f708192a3" "Exterior Wash") seeded_world = (Ok r, w') /\
    dict_lookup r "total_price" = Some (VFloat (S754_finite false 8444249301319680 (-48))) /\
    dict_lookup r "commission_amount" = Some (VFloat (S754_finite false 6755399441055744 (-51))) /\
    dict_lookup r "net_amount" = Some (VFloat (S754_finite false 7599824371187712 (-48))).
Proof.
  destruct (C1_pricing_from_stored_values no_float_of_str first_id
              (request "654f1a2b3c4d5e6f708192a3" "Exterior Wash") seeded_world
              seeded sparkle_id _ _ _ _ _
              eq_refl eq_refl eq_refl eq_refl eq_refl eq_refl eq_refl)
    as [(r & w' & st' & stored & H & _ & _ & Ht & Hc & Hn & _) _].
  exists r, w'. repeat split; assumption.
Defined.

Lemma C10_bare_cleaner_is_priced_at_zero :
  exists r w',
    create_booking no_float_of_str first_id
      (request "654f1a2b3c4d5e6f708192a4" "Wash") bare_world = (Ok r, w') /\
    dict_lookup r "total_price" = Some (VFloat (S754_zero false)).
Proof.
  destruct (C10_missing_amounts_default_to_zero no_float_of_str first_id
              (request "654f1a2b3c4d5e6f708192a4" "Wash") bare_world
              _ ecoshine_id bare _ _
              eq_refl eq_refl eq_refl eq_refl eq_refl)
    as (_ & _ & H).
  exact (H eq_refl eq_refl).
Defined.

Lemma C4_full_detail_is_third_entry :
  fst (create_booking no_float_of_str first_id
         (request "654f1a2b3c4d5e6f708192a3" "Full Detail") seeded_world) =
    Ok (receipt (VStr "654f1a2b3c4d5e6f708192a3")
          (S754_finite false 7318349394477056 (-46))
          (S754_finite false 5854679515581645 (-49))
          (S754_finite false 6586514455029350 (-46))).
Proof.
  destruct (C4_first_exact_match no_float_of_str first_id
              (request "654f1a2b3c4d5e6f708192a3" "Full Detail") seeded_world
              seeded sparkle_id (("_id", VObjectId sparkle_id) :: sparkle_pro)
              [ [ ("name", VStr "Exterior Wash"); ("description", VStr "Foam wash & dry");
                  ("price", VInt 25); ("duration_minutes", VInt 30) ];
                [ ("name", VStr "Interior Clean"); ("description", VStr "Vacuum & wipe down");
                  ("price", VInt 35); ("duration_minutes", VInt 45) ];
                [ ("name", VStr "Full Detail"); ("description", VStr "In & Out premium detail");
                  ("price", VInt 99); ("duration_minutes", VInt 120) ] ]
              eq_refl eq_refl eq_refl eq_refl)
    as [_ H].
  destruct (H [ [ ("name", VStr "Exterior Wash"); ("description", VStr "Foam wash & dry");
                  ("price", VInt 25); ("duration_minutes", VInt 30) ];
                [ ("name", VStr "Interior Clean"); ("description", VStr "Vacuum & wipe down");
                  ("price", VInt 35); ("duration_minutes", VInt 45) ] ]
              [ ("name", VStr "Full Detail"); ("description", VStr "In & Out premium detail");
                ("price", VInt 99); ("duration_minutes", VInt 120) ]
              [] eq_refl eq_refl) as [_ E].
  - intros x [<- | [<- | []]]; discriminate.
  - exact E.
Defined.

Lemma C5_booking_of_seeded_cleaner_is_pending :
  exists st st' stored,
    db seeded_world = Some st /\
    db (snd (create_booking no_float_of_str first_id
               (request "654f1a2b3c4d5e6f708192a3" "Exterior Wash") seeded_world)) = Some st' /\
    collection st' "booking" = collection st "booking" ++ [stored] /\
    dict_lookup stored "status" = Some (VStr "pending") /\
    dict_lookup stored "payment_status" = Some (VStr "unpaid") /\
    dict_lookup stored "payment_reference" = Some VNone.
Proof.
  eapply (C5_new_booking_is_pending_and_unpaid no_float_of_str first_id
            (request "654f1a2b3c4d5e6f708192a3" "Exterior Wash") seeded_world).
  vm_compute. reflexivity.
Defined.

Lemma C6_seeded_catalog_is_listed :
  list_cleaners no_repr no_lax None None (float_of_int 25) seeded_world =
  (Ok [ sparkle_response "654f1a2b3c4d5e6f708192a3";
        ecoshine_response "654f1a2b3c4d5e6f708192a4" ],
   log (FindAll "cleaner") seeded_world).
Proof.
  apply (proj1 (proj2 (C6_list_cleaners_returns_all no_repr no_lax seeded_world seeded
                         None None (float_of_int 25) eq_refl))).
  repeat constructor.
Defined.

Lemma C7_stored_booking_is_listed :
  list_bookings no_repr booked_world =
  (Ok (map (stringify_id no_repr) (collection (default ∅ (db booked_world)) "booking")),
   log (FindAll "booking") booked_world).
Proof.
  apply (C7_list_bookings_returns_all no_repr booked_world). reflexivity.
Defined.


(** * Further behaviour at concrete inputs *)

(** A well-formed identifier that names no stored cleaner is answered with
    [NotFound]. *)
Example unknown_cleaner_is_not_found :
  fst (create_booking no_float_of_str first_id
         (request "654f1a2b3c4d5e6f708192a5" "Exterior Wash") seeded_world)
  = Raise NotFound.
Proof. reflexivity. Qed.

(** An identifier is accepted in either letter case. *)
Example cleaner_id_may_be_upper_case :
  ObjectId "654F1A2B3C4D5E6F708192A3" = Ok sparkle_id.
Proof. reflexivity. Qed.

(** Service names are compared with their letter case. *)
Example service_name_is_case_sensitive :
  fst (create_booking no_float_of_str first_id
         (request "654f1a2b3c4d5e6f708192a3" "exterior wash") seeded_world)
  = Raise InvalidRequest.
Proof. reflexivity. Qed.

(** The second scenario of the demo catalog: 99 + 5 is priced at 104, 10.4
    and 93.6. *)
Example full_detail_amounts :
  fst (create_booking no_float_of_str first_id
         (request "654f1a2b3c4d5e6f708192a3" "Full Detail") seeded_world)
  = Ok (receipt (VStr "654f1a2b3c4d5e6f708192a3")
          (S754_finite false 7318349394477056 (-46))
          (S754_finite false 5854679515581645 (-49))
          (S754_finite false 6586514455029350 (-46))).
Proof. reflexivity. Qed.

(** For a total of 2^53 + 2 commission plus net is one half below the
    total: the distance grows with the size of the total. *)
Example large_total_drifts_by_one_half :
  let total := float_add (float_of_int 9007199254740994) (float_of_int 0) in
  let com := py_round2 (float_mul total commission_rate) in
  let net := py_round2 (float_sub total com) in
  (float_value com + float_value net - float_value total == - (1#2))%Q.
Proof. reflexivity. Qed.

(** For a price of 925.736 and a fee of 7.449 commission plus net rounds to
    933.19 and the total to 933.18: the two sides need not agree after
    rounding to two places, though they differ by less than a cent. *)
Example rounded_sides_can_differ :
  let total := float_add (S754_finite false 8142859970006745 (-43))
                         (S754_finite false 8386828406070706 (-50)) in
  let com := py_round2 (float_mul total commission_rate) in
  let net := py_round2 (float_sub total com) in
  py_round2 (float_add com net) = S754_finite false 8208426047394284 (-43) /\
  py_round2 total = S754_finite false 8208338086464061 (-43).
Proof. split; reflexivity. Qed.

Lemma C2_exterior_wash_is_balanced :
  exists r w' total com net,
    create_booking no_float_of_str first_id
      (request "654f1a2b3c4d5e6f708192a3" "Exterior Wash") seeded_world = (Ok r, w') /\
    dict_lookup r "total_price" = Some (VFloat total) /\
    dict_lookup r "commission_amount" = Some (VFloat com) /\
    dict_lookup r "net_amount" = Some (VFloat net) /\
    total = float_add (float_of_int 25) (float_of_int 5) /\
    float_nonneg total = true /\ float_nonneg com = true /\ float_nonneg net = true /\
    is_finite com = true /\ is_finite net = true /\
    (Qabs (float_value com + float_value net - float_value total)
       <= (1#200) + float_value total * (1 # 2251799813685248)
          + (1 # 1152921504606846976))%Q /\
    ((float_value total <= 1000000000000)%Q ->
     (Qabs (float_value com + float_value net - float_value total) < 1#100)%Q).
Proof.
  eapply (C2_amounts_nonnegative_and_balanced no_float_of_str first_id
           (request "654f1a2b3c4d5e6f708192a3" "Exterior Wash") seeded_world
           seeded sparkle_id (("_id", VObjectId sparkle_id) :: sparkle_pro)
           _ _ (float_of_int 25) (float_of_int 5));
    reflexivity.
Defined.

(** C2 as stated fails when the sum overflows: a stored price and fee of
    1e308 each are non-negative doubles, the booking is created with an
    infinite total and commission, and its net amount is NaN, which is not
    [>= 0]. *)
Lemma C2_net_amount_is_nan_on_overflow :
  let big := S754_finite false 5010420900022432 971 in
  let r := fst (create_booking no_float_of_str first_id
                  (request "654f1a2b3c4d5e6f708192a3" "Wash") pricey_world) in
  dict_lookup pricey "base_callout_fee" = Some (VFloat big) /\
  dict_lookup pricey "services" = Some (VList [VDict [("name", VStr "Wash");
                                                      ("price", VFloat big)]]) /\
  valid_binary prec emax big = true /\ float_nonneg big = true /\
  r = Ok (receipt (VStr "654f1a2b3c4d5e6f708192a3")
            (S754_infinity false) (S754_infinity false) S754_nan) /\
  float_nonneg S754_nan = false.
Proof. repeat split. Qed.

(** C6 as stated fails on a store whose one cleaner offers a service without
    a price, a cleaner that can be booked all the same: the service does not
    validate and the listing fails as a whole, returning no record.  And
    what is returned for a cleaner that validates is not the stored services
    and fee as they are: the fee 5 and the price 10 come back as floats, the
    service has a description of [None] and has lost its badge. *)
Lemma C6_unpriced_service_hides_the_catalog :
  db bare_world = Some {[ "cleaner" := [ bare ] ]} /\
  list_cleaners no_repr no_lax None None (float_of_int 25) bare_world =
    (Raise (Unhandled ValidationError), log (FindAll "cleaner") bare_world) /\
  dict_get garnished "services" VNone =
    VList [ VDict [ ("name", VStr "Wash"); ("price", VInt 10);
                    ("duration_minutes", VInt 30); ("badge", VStr "new") ] ] /\
  dict_lookup garnished "base_callout_fee" = Some (VInt 5) /\
  list_cleaners no_repr no_lax None None (float_of_int 25) garnished_world =
    (Ok [ {| id := "654f1a2b3c4d5e6f708192a3";
             name := "Garnished";
             rating := float_of_int 0;
             total_reviews := 0;
             is_available := true;
             photo_url := None;
             bio := None;
             services := [ {| ServiceOption.name := "Wash";
                              ServiceOption.description := None;
                              ServiceOption.price := float_of_int 10;
                              ServiceOption.duration_minutes := 30 |} ];
             location := [];
             base_callout_fee := float_of_int 5 |} ],
     log (FindAll "cleaner") garnished_world).
Proof. repeat split. Qed.


(** * The further properties at concrete inputs *)

Lemma seed_of_an_empty_store :
  exists w' st' o1 o2,
    seed_cleaners fresh_id empty_world
      = (Ok [ ("seeded", VBool true); ("count", VInt 2) ], w') /\
    db w' = Some st' /\
    collection st' "cleaner" =
      [ ("_id", VObjectId o1) :: sparkle_pro; ("_id", VObjectId o2) :: ecoshine ] /\
    (forall n, n <> "cleaner" -> collection st' n = collection ∅ n) /\
    trace w' = trace empty_world
                 ++ [InsertOne "cleaner" sparkle_pro; InsertOne "cleaner" ecoshine].
Proof.
  apply (seed_populates_an_empty_catalog fresh_id empty_world ∅); reflexivity.
Defined.

Lemma seed_of_the_seeded_store :
  seed_cleaners fresh_id seeded_world = (Ok already_seeded, seeded_world).
Proof.
  apply (proj1 (proj2 (seed_keeps_an_existing_catalog fresh_id seeded_world)) seeded);
    [reflexivity | discriminate].
Defined.

Lemma seed_again_after_seeding :
  let w1 := snd (seed_cleaners fresh_id empty_world) in
  seed_cleaners fresh_id w1 = (Ok already_seeded, w1).
Proof.
  apply (seed_twice_is_seed_once fresh_id empty_world
           [ ("seeded", VBool true); ("count", VInt 2) ]).
  reflexivity.
Defined.

Lemma listing_after_seeding :
  exists o1 o2,
    fst (list_cleaners no_repr no_lax None None (float_of_int 25)
           (snd (seed_cleaners fresh_id empty_world)))
      = Ok [ sparkle_response (hexlify o1); ecoshine_response (hexlify o2) ] /\
    map base_callout_fee [ sparkle_response (hexlify o1); ecoshine_response (hexlify o2) ]
      = [ float_of_int 5; float_of_int 3 ].
Proof.
  apply (seeded_catalog_is_listed no_repr fresh_id no_lax empty_world ∅);
    reflexivity.
Defined.

Lemma resolution_in_the_seeded_store :
  let r := fst (create_booking no_float_of_str first_id
                  (request "654f1a2b3c4d5e6f708192a5" "Exterior Wash") seeded_world) in
  (r = Raise NotFound <->
   exists o, ObjectId "654f1a2b3c4d5e6f708192a5" = Ok o /\
             List.find (id_is o) (collection seeded "cleaner") = None) /\
  (r = Raise (Unhandled InvalidId) <->
   ObjectId "654f1a2b3c4d5e6f708192a5" = Raise (Unhandled InvalidId)) /\
  (String.length "654f1a2b3c4d5e6f708192a5" <> 24%nat -> r = Raise (Unhandled InvalidId)).
Proof.
  apply (cleaner_id_resolution no_float_of_str first_id
           (request "654f1a2b3c4d5e6f708192a5" "Exterior Wash") seeded_world seeded).
  reflexivity.
Defined.

Lemma second_listed_id_resolves :
  exists o d,
    nth_error (collection seeded "cleaner") 1 = Some d /\
    cleaner_response no_repr no_lax d = Ok (ecoshine_response "654f1a2b3c4d5e6f708192a4") /\
    ObjectId "654f1a2b3c4d5e6f708192a4" = Ok o /\
    List.find (id_is o) (collection seeded "cleaner") = Some d /\
    fst (create_booking no_float_of_str first_id
           (request "654f1a2b3c4d5e6f708192a4" "Quick Wash") seeded_world)
      <> Raise NotFound /\
    fst (create_booking no_float_of_str first_id
           (request "654f1a2b3c4d5e6f708192a4" "Quick Wash") seeded_world)
      <> Raise (Unhandled InvalidId).
Proof.
  apply (listed_id_resolves no_float_of_str no_repr first_id no_lax
           seeded_world seeded None None (float_of_int 25)
           [ sparkle_response "654f1a2b3c4d5e6f708192a3";
             ecoshine_response "654f1a2b3c4d5e6f708192a4" ] 1
           (ecoshine_response "654f1a2b3c4d5e6f708192a4")
           (request "654f1a2b3c4d5e6f708192a4" "Quick Wash")).
  - reflexivity.
  - repeat constructor; eexists; split; reflexivity.
  - repeat constructor; simpl; intuition discriminate.
  - reflexivity.
  - reflexivity.
  - reflexivity.
Defined.

Lemma cleaner_without_services_offers_nothing :
  create_booking no_float_of_str first_id
    (request "654f1a2b3c4d5e6f708192a3" "Exterior Wash") idle_world
  = (Raise InvalidRequest, log (FindOne "cleaner" sparkle_id) idle_world).
Proof.
  apply (proj1 (services_that_cannot_be_searched no_float_of_str first_id
                  (request "654f1a2b3c4d5e6f708192a3" "Exterior Wash") idle_world
                  {[ "cleaner" := [ idle ] ]} sparkle_id idle
                  eq_refl eq_refl eq_refl)).
  reflexivity.
Defined.

Lemma price_of_none_is_a_type_error :
  create_booking no_float_of_str first_id
    (request "654f1a2b3c4d5e6f708192a3" "Wash") unpriced_world
  = (Raise (Unhandled TypeError), log (FindOne "cleaner" sparkle_id) unpriced_world).
Proof.
  apply (proj1 (amounts_that_cannot_be_converted no_float_of_str first_id
                  (request "654f1a2b3c4d5e6f708192a3" "Wash") unpriced_world
                  {[ "cleaner" := [ unpriced ] ]} sparkle_id unpriced
                  [ VDict [ ("name", VStr "Wash"); ("price", VNone) ] ]
                  [ ("name", VStr "Wash"); ("price", VNone) ]
                  eq_refl eq_refl eq_refl eq_refl eq_refl)).
  reflexivity.
Defined.

Lemma quick_wash_is_listed_once_booked :
  let answer := create_booking no_float_of_str first_id
                  (request "654f1a2b3c4d5e6f708192a4" "Quick Wash") seeded_world in
  exists r before b,
    fst answer = Ok r /\
    fst (list_bookings no_repr seeded_world) = Ok before /\
    fst (list_bookings no_repr (snd answer)) = Ok (before ++ [b]) /\
    dict_lookup b "_id" = dict_lookup r "booking_id" /\
    (exists s, dict_lookup b "_id" = Some (VStr s)) /\
    dict_lookup b "total_price" = dict_lookup r "total_price" /\
    dict_lookup b "commission_amount" = dict_lookup r "commission_amount" /\
    dict_lookup b "net_amount" = dict_lookup r "net_amount" /\
    dict_lookup b "cleaner_id" = Some (VStr "654f1a2b3c4d5e6f708192a4") /\
    dict_lookup b "service_name" = Some (VStr "Quick Wash") /\
    dict_lookup b "status" = Some (VStr "pending").
Proof.
  intros answer.
  destruct answer as [r w'] eqn:E.
  assert (exists r0, r = Ok r0) as [r0 ->].
  { apply (f_equal fst) in E. vm_compute in E. subst r. eexists. reflexivity. }
  exists r0.
  destruct (created_booking_is_listed no_float_of_str no_repr first_id
              (request "654f1a2b3c4d5e6f708192a4" "Quick Wash") seeded_world r0 w' E)
    as (before & b & H).
  exists before, b. split; [reflexivity | exact H].
Defined.

Lemma unpriced_service_fails_the_listing :
  let r := fst (list_cleaners no_repr no_lax None None (float_of_int 25) bare_world) in
  let docs := collection {[ "cleaner" := [ bare ] ]} "cleaner" in
  (r = Raise (Unhandled ValidationError) <->
   exists d, In d docs /\
             cleaner_response no_repr no_lax d = Raise (Unhandled ValidationError)) /\
  (forall listed, r = Ok listed ->
                  Forall2 (fun d e => cleaner_response no_repr no_lax d = Ok e)
                          docs listed) /\
  (r = Raise (Unhandled ValidationError) \/
   exists listed, r = Ok listed /\
                  Forall2 (fun d e => cleaner_response no_repr no_lax d = Ok e)
                          docs listed).
Proof.
  apply (list_cleaners_is_all_or_nothing no_repr no_lax bare_world
           {[ "cleaner" := [ bare ] ]} None None (float_of_int 25)).
  reflexivity.
Defined.

Lemma stored_booking_has_a_string_id :
  exists r st,
    fst (list_bookings no_repr booked_world) = Ok r /\
    db booked_world = Some st /\
    Forall2
      (fun d b =>
         (truthy (dict_get d "_id" VNone) = true /\
          dict_lookup b "_id" = Some (VStr (py_str no_repr (dict_get d "_id" VNone))) \/
          truthy (dict_get d "_id" VNone) = false /\
          dict_lookup b "_id" = Some VNone) /\
         forall k, k <> "_id" -> dict_lookup b k = dict_lookup d k)
      (collection st "booking") r.
Proof.
  eexists. 
  destruct (listed_bookings_have_string_ids no_repr booked_world _ _ eq_refl)
    as (st & Hdb & H).
  exists st. split; [reflexivity|]. split; [exact Hdb | exact H].
Defined.

Lemma exterior_wash_commission_is_a_tenth :
  exists r w' total com net,
    create_booking no_float_of_str first_id
      (request "654f1a2b3c4d5e6f708192a3" "Exterior Wash") seeded_world = (Ok r, w') /\
    dict_lookup r "total_price" = Some (VFloat total) /\
    dict_lookup r "commission_amount" = Some (VFloat com) /\
    dict_lookup r "net_amount" = Some (VFloat net) /\
    (0 <= float_value com /\ float_value com <= float_value total)%Q /\
    (Qabs (float_value com - float_value total * (1#10))
       <= (1#200) + float_value total * (1 # 18014398509481984)
          + (1 # 1152921504606846976))%Q /\
    (Qabs (float_value net - float_value total * (9#10))
       <= (1#100) + float_value total * (1 # 1125899906842624)
          + (1 # 576460752303423488))%Q /\
    ((11#100 <= float_value total)%Q -> (float_value net <= float_value total)%Q).
Proof.
  eapply (commission_is_a_tenth_of_the_total no_float_of_str first_id
            (request "654f1a2b3c4d5e6f708192a3" "Exterior Wash") seeded_world
            seeded sparkle_id (("_id", VObjectId sparkle_id) :: sparkle_pro)
            _ _ (float_of_int 25) (float_of_int 5));
    reflexivity.
Defined.

Lemma full_detail_splits_exactly :
  exists r w' com net,
    create_booking no_float_of_str first_id
      (request "654f1a2b3c4d5e6f708192a3" "Full Detail") seeded_world = (Ok r, w') /\
    dict_lookup r "total_price" = Some (VFloat (float_of_int 104)) /\
    dict_lookup r "commission_amount" = Some (VFloat com) /\
    dict_lookup r "net_amount" = Some (VFloat net) /\
    com = cents (10 * 104) /\ net = cents (90 * 104) /\
    float_add com net = float_of_int 104.
Proof.
  eapply (whole_totals_split_exactly no_float_of_str first_id
            (request "654f1a2b3c4d5e6f708192a3" "Full Detail") seeded_world
            seeded sparkle_id (("_id", VObjectId sparkle_id) :: sparkle_pro)
            _ _ (float_of_int 99) (float_of_int 5) 104);
    try reflexivity.
  lia.
Defined.

Lemma demo_services_after_seeding :
  let booked (o : list byte) (service : string) (total com net : Z) :=
    forall payload,
      cleaner_id payload = hexlify o -> service_name payload = service ->
      fst (create_booking no_float_of_str fresh_id payload
             (snd (seed_cleaners fresh_id empty_world))) =
        Ok (receipt (VStr (hexlify (fresh_id (collection ∅ "booking"))))
              (float_of_int total) (cents com) (cents net)) in
  booked sparkle_id "Exterior Wash" 30 300 2700 /\
  booked sparkle_id "Interior Clean" 40 400 3600 /\
  booked sparkle_id "Full Detail" 104 1040 9360 /\
  booked ecoshine_id "Quick Wash" 18 180 1620 /\
  booked ecoshine_id "Interior Refresh" 28 280 2520.
Proof.
  apply (every_demo_service_can_be_booked no_float_of_str fresh_id empty_world ∅);
    try reflexivity.
  discriminate.
Defined.

(** * The diagnostic response at concrete inputs *)

(** With the URL of the store in the environment, an empty [DATABASE_NAME]
    and a handle that lists two collections. *)
Example diagnostics_of_a_reachable_store :
  test_database url_only named_handle two_collections seeded_world =
    [ ("backend", VStr "✅ Running");
      ("database", VStr "✅ Connected & Working");
      ("database_url", VStr "✅ Set");
      ("database_name", VStr "❌ Not Set");
      ("connection_status", VStr "Connected");
      ("collections", VList [VStr "cleaner"; VStr "booking"]) ].
Proof. reflexivity. Qed.

(** With a handle whose collections cannot be listed. *)
Example diagnostics_of_an_unreachable_store :
  test_database url_only named_handle unreachable seeded_world =
    [ ("backend", VStr "✅ Running");
      ("database",
       VStr "⚠️ Connected but Error: localhost:27017: [Errno 111] Connection refused");
      ("database_url", VStr "✅ Set");
      ("database_name", VStr "❌ Not Set");
      ("connection_status", VStr "Not Connected");
      ("collections", VList []) ].
Proof. reflexivity. Qed.

(** Without a store handle. *)
Example diagnostics_without_a_store :
  test_database url_only named_handle two_collections unconfigured_world =
    [ ("backend", VStr "✅ Running");
      ("database", VStr "⚠️ Available but not initialized");
      ("database_url", VStr "✅ Set");
      ("database_name", VStr "❌ Not Set");
      ("connection_status", VStr "Not Connected");
      ("collections", VList []) ].
Proof. reflexivity. Qed.

(** Characters, not bytes, are counted when a message is cut. *)
Example prefix_counts_characters :
  str_prefix 3 "a✅bcd" = "a✅b" /\ str_len "a✅bcd" = 5%nat.
Proof. split; reflexivity. Qed.


(** Below a total of 0.11 the net amount can exceed the total: for a total
    of 0.006 the commission is 0.0 and the net amount 0.01. *)
Example net_amount_of_a_tiny_total :
  let total := S754_finite false 6917529027641082 (-60) in
  let com := py_round2 (float_mul total commission_rate) in
  let net := py_round2 (float_sub total com) in
  com = S754_zero false /\ net = cents 1 /\
  (float_value total < float_value net)%Q.
Proof. repeat split. Qed.

(** The [None] after the service of the patchy cleaner is never read. *)
Lemma wash_before_none_is_booked :
  fst (create_booking no_float_of_str first_id
         (request "654f1a2b3c4d5e6f708192a3" "Wash") patchy_world)
  = Ok (receipt (VStr "654f1a2b3c4d5e6f708192a3")
          (float_of_int 10) (cents 100) (cents 900)).
Proof.
  apply (entries_after_the_match_are_not_read no_float_of_str first_id
           (request "654f1a2b3c4d5e6f708192a3" "Wash") patchy_world
           {[ "cleaner" := [ patchy ] ]} sparkle_id patchy []
           [ ("name", VStr "Wash"); ("price", VInt 10) ] [ VNone ]);
    try reflexivity.
  intros x [].
Defined.
